(** * thakii-lambda-router: service selection, circuit breaker and failover

    A shallow embedding of the two request routers of the repository,

      - [src/lambda_function.py]        (module [Router]),
      - [src/lambda_function_fixed.py]  (module [Fixed]),

    and the properties of their service-selection and failover engines,
    of their handlers and of the loading of the configuration.

    Modelling conventions.
      - Python dictionaries used as maps ([circuit_breakers], HTTP header
        dictionaries) are [gmap string _].
      - [time.time()] returns a Python float; timestamps and the configured
        durations are modelled as integers ([Z]) of an arbitrary fixed
        resolution: only their order and differences matter to the code.
      - The outside world is an [env]: what the n-th read of the clock
        returns, and what the HTTP transport ([requests]) answers to a call,
        given the calls made before.  Every call is appended to a log kept in
        the state, so that "no network call is made" is a statement about
        that log.
      - Python [bytes] are [list byte]; a Python [str] is a [string], the
        sequence of its UTF-8 bytes.
      - [json.dumps(d)] is kept as the dictionary [d] it serialises
        ([BodyJson]); logging is not modelled.
      - The files of the host are a function from a path to what [open]
        followed by [json.load] gives ([file_read]). *)

From stdpp Require Import gmap strings list fin_maps pretty sorting.
From Stdlib Require Import ZArith Lia Ascii String.
From Stdlib.Strings Require Import Byte.

Open Scope Z_scope.

(** ** Python built-ins used by the routers *)

(** [str.lower()] and [str.upper()], on the ASCII range (header names and
    HTTP methods). *)
Definition ascii_lower (c : ascii) : ascii :=
  let n := N_of_ascii c in
  if ((65 <=? n) && (n <=? 90))%N then ascii_of_N (n + 32) else c.

Definition ascii_upper (c : ascii) : ascii :=
  let n := N_of_ascii c in
  if ((97 <=? n) && (n <=? 122))%N then ascii_of_N (n - 32) else c.

Fixpoint lower (s : string) : string :=
  match s with
  | EmptyString => EmptyString
  | String c r => String (ascii_lower c) (lower r)
  end.

Fixpoint upper (s : string) : string :=
  match s with
  | EmptyString => EmptyString
  | String c r => String (ascii_upper c) (upper r)
  end.

(** [needle in hay] on strings. *)
Fixpoint str_contains (needle hay : string) : bool :=
  String.prefix needle hay ||
  match hay with
  | EmptyString => false
  | String _ r => str_contains needle r
  end.

(** [any(p(x) for x in l)]. *)
Definition any {A} (p : A → bool) (l : list A) : bool := existsb p l.

(** [bytes.decode('utf-8')] (strict): the well-formed UTF-8 byte sequences,
    without overlong forms, surrogates or code points above U+10FFFF. *)
Definition in_range (lo hi : N) (b : byte) : bool :=
  ((lo <=? Byte.to_N b) && (Byte.to_N b <=? hi))%N.

Definition is_cont (b : byte) : bool := in_range 128 191 b.

Fixpoint utf8_valid (bs : list byte) : bool :=
  match bs with
  | [] => true
  | b0 :: r0 =>
    if in_range 0 127 b0 then utf8_valid r0
    else match r0 with
    | [] => false
    | b1 :: r1 =>
      if in_range 194 223 b0 then is_cont b1 && utf8_valid r1
      else match r1 with
      | [] => false
      | b2 :: r2 =>
        if in_range 224 239 b0 then
          (if in_range 224 224 b0 then in_range 160 191 b1
           else if in_range 237 237 b0 then in_range 128 159 b1
           else is_cont b1)
          && is_cont b2 && utf8_valid r2
        else match r2 with
        | [] => false
        | b3 :: r3 =>
          if in_range 240 244 b0 then
            (if in_range 240 240 b0 then in_range 144 191 b1
             else if in_range 244 244 b0 then in_range 128 143 b1
             else is_cont b1)
            && is_cont b2 && is_cont b3 && utf8_valid r3
          else false
        end
      end
    end
  end.

Definition decode_utf8 (bs : list byte) : option string :=
  if utf8_valid bs then Some (string_of_list_byte bs) else None.

(** [str.encode('utf-8')] of a string already held as its UTF-8 bytes. *)
Definition encode_utf8 (s : string) : list byte := list_byte_of_string s.

(** [base64.b64encode]. *)
Definition b64_alphabet : string :=
  "ABCDEFGHIJKLMNOPQRSTUVWXYZabcdefghijklmnopqrstuvwxyz0123456789+/".

Definition b64_char (n : N) : ascii :=
  match String.get (N.to_nat n) b64_alphabet with
  | Some c => c
  | None => "="%char
  end.

Fixpoint b64encode (bs : list byte) : string :=
  match bs with
  | [] => EmptyString
  | [a] =>
    let x := Byte.to_N a in
    String (b64_char (x / 4)) (String (b64_char ((x mod 4) * 16)) "==")
  | [a; b] =>
    let x := Byte.to_N a in
    let y := Byte.to_N b in
    String (b64_char (x / 4))
      (String (b64_char ((x mod 4) * 16 + y / 16))
        (String (b64_char ((y mod 16) * 4)) "="))
  | a :: b :: c :: r =>
    let x := Byte.to_N a in
    let y := Byte.to_N b in
    let z := Byte.to_N c in
    String (b64_char (x / 4))
      (String (b64_char ((x mod 4) * 16 + y / 16))
        (String (b64_char ((y mod 16) * 4 + z / 64))
          (String (b64_char (z mod 64)) (b64encode r))))
  end%N.

(** [sorted(l, key=key)]: Python's sort is stable, so its result is the one
    of any stable sort; here, insertion from the right, a new element going
    in front of the elements whose key is not smaller. *)
Section Sorted.
Context {A : Type} (key : A → Z).

Fixpoint insert_by (x : A) (l : list A) : list A :=
  match l with
  | [] => [x]
  | y :: r => if key x <=? key y then x :: y :: r else y :: insert_by x r
  end.

Fixpoint sorted (l : list A) : list A :=
  match l with
  | [] => []
  | x :: r => insert_by x (sorted r)
  end.

(** In ascending order of the key. *)
Definition ascending : list A → Prop :=
  StronglySorted (λ x y, key x ≤ key y).
End Sorted.

(** ** Configuration, transport and clock *)

(** One entry of [ai_services].  [name] and [url] are read with
    [service['name']], [service['url']]; the others with [service.get]. *)
Record service := {
  name : string;
  url : string;
  priority : option Z;
  timeout : option Z;
  enabled : option bool;
}.

Record circuit_breaker_config := {
  failure_threshold : option Z;
  recovery_timeout : option Z;
}.

Record load_balancing_config := {
  strategy : option string;
  round_robin_enabled : option bool;
}.

Record config := {
  ai_services : option (list service);
  circuit_breaker : option circuit_breaker_config;
  load_balancing : option load_balancing_config;
  default_timeout : option Z;
}.

(** [config.get('ai_services', [])] *)
Definition services_of (cfg : config) : list service :=
  default [] (ai_services cfg).

(** [config.get('circuit_breaker', {}).get('failure_threshold', 5)] *)
Definition failure_threshold_of (cfg : config) : Z :=
  default 5 (c ← circuit_breaker cfg; failure_threshold c).

(** [config.get('circuit_breaker', {}).get('recovery_timeout', 60)] *)
Definition recovery_timeout_of (cfg : config) : Z :=
  default 60 (c ← circuit_breaker cfg; recovery_timeout c).

(** The sort key [lambda x: x.get('priority', 999)]. *)
Definition priority_key (s : service) : Z := default 999 (priority s).

(** [service.get('enabled', True)] *)
Definition is_enabled (s : service) : bool := default true (enabled s).

(** The number of services named [n] in a list. *)
Definition occurrences (n : string) (cands : list service) : Z :=
  Z.of_nat (List.length (filter (λ s, name s = n) cands)).

(** A call of [requests.get], [.post], [.put] or [.delete] with its keyword
    arguments. *)
Record net_call := {
  nc_method : string;
  nc_url : string;
  nc_headers : option (gmap string string);
  nc_params : option (gmap string string);
  nc_data : option (list byte);
  nc_files : option (gmap string (list byte));
  nc_timeout : Z;
}.

(** A [requests.Response]: the attributes the routers read. *)
Record http_response := {
  status_code : Z;
  resp_headers : gmap string string;
  content : list byte;
  text : string;
}.

(** The exceptions of a call, by the handler that catches them, with their
    message [str(e)]. *)
Inductive exn :=
  | ExcTimeout (msg : string)
  | ExcConnectionError (msg : string)
  | ExcOther (msg : string).

Definition exn_str (e : exn) : string :=
  match e with
  | ExcTimeout msg | ExcConnectionError msg | ExcOther msg => msg
  end.

(** The exceptions raised by the handler's own conversions. *)
Inductive internal_exn :=
  | UnicodeDecodeError (bs : list byte)
  | BinasciiError.

Inductive net_result :=
  | Responded (r : http_response)
  | Raised (e : exn).

Record env := {
  clock : nat → Z;
  transport : list net_call → net_call → net_result;
}.

(** JSON values of the synthetic bodies; [JExn e] stands for [str(e)]. *)
Inductive jval :=
  | JStr (s : string)
  | JNum (z : Z)
  | JNull
  | JExn (e : internal_exn).

Inductive body_t :=
  | BodyStr (s : string)
  | BodyJson (d : list (string * jval)).

(** The state a request runs in: the breaker store of the [ServiceManager],
    the calls made so far (oldest first) and the number of clock reads. *)
Record world (B : Type) := World {
  circuit_breakers : gmap string B;
  net_log : list net_call;
  clock_reads : nat;
}.
Arguments World {B} _ _ _.
Arguments circuit_breakers {B} _.
Arguments net_log {B} _.
Arguments clock_reads {B} _.

(** The world after one more call. *)
Definition logged {B} (w : world B) (c : net_call) : world B :=
  World (circuit_breakers w) (net_log w ++ [c]) (clock_reads w).

(** The world after one more read of the clock. *)
Definition ticked {B} (w : world B) : world B :=
  World (circuit_breakers w) (net_log w) (S (clock_reads w)).

(** State monad over the world. *)
Definition M (B A : Type) : Type := world B → A * world B.

Definition ret {B A} (x : A) : M B A := λ w, (x, w).

Definition bind {B A C} (m : M B A) (k : A → M B C) : M B C :=
  λ w, let '(x, w1) := m w in k x w1.

Declare Scope router_scope.
Delimit Scope router_scope with router.
Notation "'let*' x := m 'in' k" := (bind m (λ x, k))
  (at level 10, x name, m at level 100, k at level 200) : router_scope.
Notation "m ;; k" := (bind m (λ _, k))
  (at level 100, k at level 200, right associativity) : router_scope.
Open Scope router_scope.

Section Effects.
Context {B : Type} (e : env).

(** [time.time()] *)
Definition time_time : M B Z :=
  λ w, (clock e (clock_reads w),
        World (circuit_breakers w) (net_log w) (S (clock_reads w))).

(** A call of the [requests] library. *)
Definition requests_call (c : net_call) : M B net_result :=
  λ w, (transport e (net_log w) c,
        World (circuit_breakers w) (net_log w ++ [c]) (clock_reads w)).

Definition get_breakers : M B (gmap string B) :=
  λ w, (circuit_breakers w, w).

Definition put_breakers (cbs : gmap string B) : M B unit :=
  λ w, (tt, World cbs (net_log w) (clock_reads w)).
End Effects.

(** An outcome recorded with the manager: [record_success] or
    [record_failure]. *)
Inductive outcome := Succeeded | Failed.

(** The failures at the end of a sequence of outcomes, after the last
    success, and the failures of the whole sequence. *)
Definition trailing_failures (outcomes : list outcome) : Z :=
  foldl (λ k o, match o with Succeeded => 0 | Failed => k + 1 end) 0
    outcomes.

Definition total_failures (outcomes : list outcome) : Z :=
  foldl (λ k o, match o with Succeeded => k | Failed => k + 1 end) 0
    outcomes.

(** What [open(path)] followed by [json.load] gives: the file is missing
    ([FileNotFoundError]), reading or parsing raises another exception, of
    message [msg], or the configuration the file holds. *)
Inductive file_read :=
  | NotFound
  | LoadError (msg : string)
  | Loaded (cfg : config).

(** ** [lambda_function.py] *)

Module Router.

(** An entry of [self.circuit_breakers]. *)
Record cb_state := CbState {
  failures : Z;
  last_failure : Z;
}.

(** The response dictionary returned to the platform. *)
Record lambda_response := {
  statusCode : Z;
  headers : gmap string string;
  body : body_t;
  isBase64Encoded : option bool;
}.

(** The request as [lambda_handler] has extracted it from the event. *)
Record request := {
  http_method : string;
  path : string;
  req_headers : gmap string string;
  req_body : option (list byte);
  files : option (gmap string (list byte));
}.

(** How the loop over the services is left. *)
Inductive loop_exit :=
  | LoopReturn (r : lambda_response)
  | LoopRaise (e : internal_exn)
  | LoopExhausted (last_error : option string).

Definition json_headers : gmap string string :=
  {[ "Content-Type" := "application/json";
     "Access-Control-Allow-Origin" := "*" ]}.

Section Engine.
Context (e : env) (cfg : config).

Definition _is_circuit_breaker_open (service_name : string)
    (current_time : Z) : M cb_state bool :=
  let failure_threshold := failure_threshold_of cfg in
  let recovery_timeout := recovery_timeout_of cfg in
  let* cbs := get_breakers in
  let cb_state := default (CbState 0 0) (cbs !! service_name) in
  if failures cb_state >=? failure_threshold then
    if current_time - last_failure cb_state <? recovery_timeout then
      ret true
    else
      put_breakers (<[service_name := CbState 0 0]> cbs) ;;
      ret false
  else ret false.

(** The loop of [get_available_services]. *)
Fixpoint available_loop (current_time : Z) (services : list service)
    (available : list service) : M cb_state (list service) :=
  match services with
  | [] => ret available
  | service :: rest =>
    if negb (is_enabled service) then
      available_loop current_time rest available
    else
      let* is_open :=
        _is_circuit_breaker_open (name service) current_time in
      if is_open then available_loop current_time rest available
      else available_loop current_time rest (available ++ [service])
  end.

Definition get_available_services : M cb_state (list service) :=
  let* current_time := time_time e in
  let* available := available_loop current_time (services_of cfg) [] in
  ret (sorted priority_key available).

Definition record_failure (service_name : string) : M cb_state unit :=
  let* current_time := time_time e in
  let* cbs := get_breakers in
  let cbs :=
    if decide (is_Some (cbs !! service_name)) then cbs
    else <[service_name := CbState 0 0]> cbs in
  let cbs :=
    alter (λ c, CbState (failures c + 1) (last_failure c))
      service_name cbs in
  let cbs :=
    alter (λ c, CbState (failures c) current_time) service_name cbs in
  put_breakers cbs.

Definition record_success (service_name : string) : M cb_state unit :=
  let* cbs := get_breakers in
  if decide (is_Some (cbs !! service_name)) then
    put_breakers
      (alter (λ c, CbState 0 (last_failure c)) service_name cbs)
  else ret tt.

Definition health_check_service (service : service) : M cb_state bool :=
  let* r := requests_call e
    {| nc_method := "GET"; nc_url := url service ++ "/health";
       nc_headers := None; nc_params := None; nc_data := None;
       nc_files := None; nc_timeout := 5 |} in
  match r with
  | Responded response => ret (bool_decide (status_code response = 200))
  | Raised _ => ret false
  end.

Definition request_hop_headers : list string :=
  ["host"; "connection"; "content-length"].

Definition response_hop_headers : list string :=
  ["connection"; "transfer-encoding"].

(** Truth value of the [files] argument. *)
Definition truthy_files (files : option (gmap string (list byte))) : bool :=
  match files with
  | Some f => bool_decide (f ≠ ∅)
  | None => false
  end.

Definition forward_request (service : service) (path method : string)
    (headers : gmap string string) (data : option (list byte))
    (files : option (gmap string (list byte)))
    : M cb_state (Z * gmap string string * list byte) :=
  let url := (url service ++ path)%string in
  let timeout := default 300 (timeout service) in
  let forwarded_headers :=
    filter (λ kv : string * string, lower kv.1 ∉ request_hop_headers)
      headers in
  let call m data files :=
    let* r := requests_call e
      {| nc_method := m; nc_url := url;
         nc_headers := Some forwarded_headers; nc_params := None;
         nc_data := data; nc_files := files; nc_timeout := timeout |} in
    ret (Some r) in
  let* r :=
    if decide (method = "GET") then call "GET"%string None None
    else if decide (method = "POST") then
      if truthy_files files then call "POST"%string None files
      else call "POST"%string data None
    else if decide (method = "PUT") then call "PUT"%string data None
    else if decide (method = "DELETE") then call "DELETE"%string None None
    else ret None in
  match r with
  | None => ret (405, ∅, list_byte_of_string "Method not allowed")
  | Some (Responded response) =>
    let response_headers :=
      filter (λ kv : string * string, lower kv.1 ∉ response_hop_headers)
        (resp_headers response) in
    ret (status_code response, response_headers, content response)
  | Some (Raised (ExcTimeout _)) =>
    ret (504, ∅, list_byte_of_string "Gateway timeout")
  | Some (Raised (ExcConnectionError _)) =>
    ret (503, ∅, list_byte_of_string "Service unavailable")
  | Some (Raised _) =>
    ret (500, ∅, list_byte_of_string "Internal server error")
  end.

Definition binary_content_types : list string :=
  ["application/pdf"; "image/"; "video/"; "audio/"].

(** [response_body.decode('utf-8') if response_body else ''] *)
Definition decode_body (response_body : list byte) : option string :=
  match response_body with
  | [] => Some EmptyString
  | _ => decode_utf8 response_body
  end.

(** The loop "try each service in priority order" of [lambda_handler]. *)
Fixpoint try_services (req : request) (services : list service)
    (last_error : option string) : M cb_state loop_exit :=
  match services with
  | [] => ret (LoopExhausted last_error)
  | service :: rest =>
    let* unhealthy :=
      if decide (path req ∈ ["/upload"; "/download"]) then
        let* healthy := health_check_service service in
        ret (negb healthy)
      else ret false in
    if unhealthy then
      record_failure (name service) ;;
      try_services req rest last_error
    else
      let* r :=
        forward_request service (path req) (http_method req)
          (req_headers req) (req_body req) (files req) in
      let '(status_code, response_headers, response_body) := r in
      if status_code <? 400 then
        record_success (name service) ;;
        match decode_body response_body with
        | None => ret (LoopRaise (UnicodeDecodeError response_body))
        | Some text =>
          if any (λ content_type,
                    str_contains content_type
                      (lower (default EmptyString
                                (response_headers !! "content-type"))))
               binary_content_types
          then
            ret (LoopReturn
              {| statusCode := status_code;
                 headers := response_headers;
                 body := BodyStr (b64encode response_body);
                 isBase64Encoded := Some true |})
          else
            ret (LoopReturn
              {| statusCode := status_code;
                 headers := response_headers;
                 body := BodyStr text;
                 isBase64Encoded := None |})
        end
      else
        record_failure (name service) ;;
        try_services req rest
          (Some ("Service " ++ name service ++ " returned status "
                 ++ pretty status_code)%string)
  end.

Definition unavailable_body (t : Z) : body_t :=
  BodyJson
    [("error", JStr "Service not reachable at this moment");
     ("message", JStr "All AI services are currently unavailable. Please try again later.");
     ("timestamp", JNum t)].

Definition all_failed_body (last_error : option string) (t : Z) : body_t :=
  BodyJson
    [("error", JStr "Service not reachable at this moment");
     ("message", JStr "All AI services failed to process the request. Please try again later.");
     ("last_error", from_option JStr JNull last_error);
     ("timestamp", JNum t)].

Definition internal_error_body (ex : internal_exn) (t : Z) : body_t :=
  BodyJson
    [("error", JStr "Internal server error");
     ("message", JExn ex);
     ("timestamp", JNum t)].

Definition internal_error (ex : internal_exn)
    : M cb_state lambda_response :=
  let* t := time_time e in
  ret {| statusCode := 500; headers := json_headers;
         body := internal_error_body ex t; isBase64Encoded := None |}.

(** The forwarding engine: [lambda_handler] from "Get available
    services" to the end of its [try] block, with the [except] clause
    that turns an exception into a 500. *)
Definition route (req : request) : M cb_state lambda_response :=
  let* available_services := get_available_services in
  match available_services with
  | [] =>
    let* t := time_time e in
    ret {| statusCode := 503; headers := json_headers;
           body := unavailable_body t; isBase64Encoded := None |}
  | _ =>
    let* exit := try_services req available_services None in
    match exit with
    | LoopReturn response => ret response
    | LoopRaise ex => internal_error ex
    | LoopExhausted last_error =>
      let* t := time_time e in
      ret {| statusCode := 503; headers := json_headers;
             body := all_failed_body last_error t;
             isBase64Encoded := None |}
    end
  end.
End Engine.

(** The body of the event: absent, a text, or base64 text, held as what
    [base64.b64decode] makes of it ([None]: it raises).  An empty text is
    false in [if event.get('body')], and counts as absent. *)
Inductive event_body :=
  | NoBody
  | TextBody (s : string)
  | Base64Body (decoded : option (list byte)).

Record event := {
  ev_httpMethod : option string;
  ev_path : option string;
  ev_headers : option (gmap string string);
  ev_body : event_body;
}.

(** [lambda_handler]: a new [ServiceManager], with an empty breaker store,
    for each event. *)
Definition lambda_handler (e : env) (cfg : config) (ev : event)
    : M cb_state lambda_response :=
  put_breakers ∅ ;;
  let http_method := default "GET"%string (ev_httpMethod ev) in
  let path := default "/"%string (ev_path ev) in
  let headers := default ∅ (ev_headers ev) in
  let route_with body :=
    route e cfg
      {| http_method := http_method; path := path; req_headers := headers;
         req_body := body; files := None |} in
  match ev_body ev with
  | NoBody | TextBody EmptyString => route_with None
  | TextBody s => route_with (Some (encode_utf8 s))
  | Base64Body (Some bs) => route_with (Some bs)
  | Base64Body None => internal_error e BinasciiError
  end.

(** *** The breaker state read off the store

    [lambda_function.py] stores no status: a breaker is open when its
    failures have reached the threshold and the recovery window since the
    last failure has not elapsed; it has expired (the spec's half-open)
    when the failures have reached the threshold and the window has
    elapsed.  [sweep] is the store after [get_available_services] has
    gone through the services. *)
Section Derived.
Context (cfg : config) (now : Z).

Definition entry (cbs : gmap string cb_state) (n : string) : cb_state :=
  default (CbState 0 0) (cbs !! n).

Definition is_open (cbs : gmap string cb_state) (n : string) : bool :=
  (failures (entry cbs n) >=? failure_threshold_of cfg)
  && (now - last_failure (entry cbs n) <? recovery_timeout_of cfg).

Definition expired (cbs : gmap string cb_state) (n : string) : bool :=
  (failures (entry cbs n) >=? failure_threshold_of cfg)
  && negb (now - last_failure (entry cbs n) <? recovery_timeout_of cfg).

Definition kept (cbs : gmap string cb_state) (s : service) : bool :=
  is_enabled s && negb (is_open cbs (name s)).

Definition sweep (services : list service) (cbs : gmap string cb_state)
    : gmap string cb_state :=
  foldl (λ cbs s,
           if is_enabled s && expired cbs (name s)
           then <[name s := CbState 0 0]> cbs else cbs)
    cbs services.
End Derived.

(** The two synthetic 503 responses of [lambda_handler]. *)
Definition unavailable_response (t : Z) : lambda_response :=
  {| statusCode := 503; headers := json_headers;
     body := unavailable_body t; isBase64Encoded := None |}.

Definition all_failed_response (last_error : option string) (t : Z)
    : lambda_response :=
  {| statusCode := 503; headers := json_headers;
     body := all_failed_body last_error t; isBase64Encoded := None |}.

(** [forward_request] as the loop of [lambda_handler] calls it. *)
Definition forward (e : env) (s : service) (req : request)
    : M cb_state (Z * gmap string string * list byte) :=
  forward_request e s (path req) (http_method req) (req_headers req)
    (req_body req) (files req).

(** *** The calls of the engine, for the statements about the log *)

(** The probe of [health_check_service]. *)
Definition health_call (s : service) : net_call :=
  {| nc_method := "GET"; nc_url := url s ++ "/health";
     nc_headers := None; nc_params := None; nc_data := None;
     nc_files := None; nc_timeout := 5 |}.

Definition critical_paths : list string := ["/upload"; "/download"].

Definition supported_methods : list string :=
  ["GET"; "POST"; "PUT"; "DELETE"].

(** The call by which [forward_request] forwards a request with a
    supported method. *)
Definition forward_call (s : service) (req : request) : net_call :=
  let m := http_method req in
  {| nc_method := m;
     nc_url := url s ++ path req;
     nc_headers :=
       Some (filter (λ kv : string * string,
                       lower kv.1 ∉ request_hop_headers)
               (req_headers req));
     nc_params := None;
     nc_data :=
       if bool_decide (m = "POST") && negb (truthy_files (files req))
          || bool_decide (m = "PUT")
       then req_body req else None;
     nc_files :=
       if bool_decide (m = "POST") && truthy_files (files req)
       then files req else None;
     nc_timeout := default 300 (timeout s) |}.

(** What [forward_request] returns for an answer of the transport. *)
Definition forward_result (r : net_result)
    : Z * gmap string string * list byte :=
  match r with
  | Responded response =>
    (status_code response,
     filter (λ kv : string * string, lower kv.1 ∉ response_hop_headers)
       (resp_headers response),
     content response)
  | Raised (ExcTimeout _) =>
    (504, ∅, list_byte_of_string "Gateway timeout")
  | Raised (ExcConnectionError _) =>
    (503, ∅, list_byte_of_string "Service unavailable")
  | Raised (ExcOther _) =>
    (500, ∅, list_byte_of_string "Internal server error")
  end.

(** The response dictionary built from a successful answer whose body
    decodes to [text]. *)
Definition success_response (status_code : Z)
    (response_headers : gmap string string) (response_body : list byte)
    (text : string) : lambda_response :=
  if any (λ content_type,
            str_contains content_type
              (lower (default EmptyString
                        (response_headers !! "content-type"))))
       binary_content_types
  then {| statusCode := status_code; headers := response_headers;
          body := BodyStr (b64encode response_body);
          isBase64Encoded := Some true |}
  else {| statusCode := status_code; headers := response_headers;
          body := BodyStr text; isBase64Encoded := None |}.

(** The description kept in [last_error]. *)
Definition failure_description (s : service) (status_code : Z) : string :=
  "Service " ++ name s ++ " returned status " ++ pretty status_code.

(** *** [load_config] *)

(** Where the function runs: the environment variable
    [ROUTER_CONFIG_PATH] ([None] when unset), the path
    [os.path.join(os.path.dirname(__file__), 'config.json')] of the file
    beside the module, and the files. *)
Record host := {
  ROUTER_CONFIG_PATH : option string;
  package_config_path : string;
  read_file : string → file_read;
}.

Definition candidate_paths (h : host) : list (option string) :=
  [ROUTER_CONFIG_PATH h; Some "/opt/config.json"%string;
   Some (package_config_path h)].

(** The fallback configuration; its key [max_retries] is read nowhere. *)
Definition fallback_config : config :=
  {| ai_services :=
       Some [ {| name := "ngrok-local"; url := "http://localhost:5001";
                 priority := Some 1; timeout := Some 300;
                 enabled := Some true |} ];
     circuit_breaker := None;
     load_balancing := None;
     default_timeout := Some 300 |}.

(** The loop over the candidate paths: [None] when it ends without
    [return]. *)
Fixpoint load_loop (h : host) (paths : list (option string))
    : option config :=
  match paths with
  | [] => None
  | path :: rest =>
    match path with
    | None | Some EmptyString => load_loop h rest
    | Some path =>
      match read_file h path with
      | Loaded cfg => Some cfg
      | NotFound => load_loop h rest
      | LoadError _ => load_loop h rest
      end
    end
  end.

Definition load_config (h : host) : config :=
  match load_loop h (candidate_paths h) with
  | Some cfg => cfg
  | None => fallback_config
  end.

(** *** Sequences of recorded outcomes *)

Fixpoint record_outcomes (e : env) (service_name : string)
    (outcomes : list outcome) : M cb_state unit :=
  match outcomes with
  | [] => ret tt
  | Succeeded :: rest =>
    record_success service_name ;; record_outcomes e service_name rest
  | Failed :: rest =>
    record_failure e service_name ;; record_outcomes e service_name rest
  end.

End Router.

(** ** [lambda_function_fixed.py] *)

Module Fixed.

Inductive status_t := closed | open | half_open.

#[global] Instance status_eq_dec : EqDecision status_t.
Proof. solve_decision. Defined.

(** An entry of [self.circuit_breakers]. *)
Record circuit_data := CircuitData {
  status : status_t;
  failures : Z;
  last_failure : Z;
}.

Section Engine.
Context (e : env) (cfg : config).

(** The loop of [get_available_services]. *)
Fixpoint available_loop (current_time : Z) (services : list service)
    (available : list service) : M circuit_data (list service) :=
  match services with
  | [] => ret available
  | service :: rest =>
    if negb (is_enabled service) then
      available_loop current_time rest available
    else
      let service_name := name service in
      let* cbs := get_breakers in
      match cbs !! service_name with
      | Some circuit_data =>
        if decide (status circuit_data = open) then
          let recovery_timeout := recovery_timeout_of cfg in
          if current_time - last_failure circuit_data <? recovery_timeout
          then available_loop current_time rest available
          else
            put_breakers
              (<[service_name := CircuitData half_open 0 0]> cbs) ;;
            available_loop current_time rest (available ++ [service])
        else available_loop current_time rest (available ++ [service])
      | None => available_loop current_time rest (available ++ [service])
      end
  end.

Definition get_available_services : M circuit_data (list service) :=
  let* current_time := time_time e in
  let* available := available_loop current_time (services_of cfg) [] in
  ret (sorted priority_key available).

Definition record_success (service_name : string) : M circuit_data unit :=
  let* cbs := get_breakers in
  match cbs !! service_name with
  | Some circuit_data =>
    if decide (status circuit_data = half_open) then
      put_breakers (<[service_name := CircuitData closed 0 0]> cbs)
    else ret tt
  | None => ret tt
  end.

Definition record_failure (service_name : string) : M circuit_data unit :=
  let* current_time := time_time e in
  let* cbs := get_breakers in
  let cbs :=
    if decide (is_Some (cbs !! service_name)) then cbs
    else <[service_name := CircuitData closed 0 0]> cbs in
  let circuit_data := default (CircuitData closed 0 0) (cbs !! service_name) in
  let circuit_data :=
    CircuitData (status circuit_data) (failures circuit_data + 1)
      (last_failure circuit_data) in
  let circuit_data :=
    CircuitData (status circuit_data) (failures circuit_data)
      current_time in
  let failure_threshold := failure_threshold_of cfg in
  let circuit_data :=
    if failures circuit_data >=? failure_threshold then
      CircuitData open (failures circuit_data)
        (last_failure circuit_data)
    else circuit_data in
  put_breakers (<[service_name := circuit_data]> cbs).

(** The chain [if method.upper() == 'GET': ... elif ...]: the call it
    makes, if any branch is taken. *)
Definition dispatch (method url : string) (headers : gmap string string)
    (body : option (list byte)) (query_params : option (gmap string string))
    (timeout : Z) : option (M circuit_data net_result) :=
  let call m data :=
    requests_call e
      {| nc_method := m; nc_url := url; nc_headers := Some headers;
         nc_params := query_params; nc_data := data; nc_files := None;
         nc_timeout := timeout |} in
  if decide (upper method = "GET") then Some (call "GET"%string None)
  else if decide (upper method = "POST") then Some (call "POST"%string body)
  else if decide (upper method = "PUT") then Some (call "PUT"%string body)
  else if decide (upper method = "DELETE") then
    Some (call "DELETE"%string None)
  else None.

(** [200 <= response.status_code < 300] *)
Definition is_success (response : http_response) : bool :=
  (200 <=? status_code response) && (status_code response <? 300).

Definition timeout_of (service : service) : Z :=
  default (default 30 (default_timeout cfg)) (timeout service).

Definition unavailable_body (t : Z) : body_t :=
  BodyJson
    [("error", JStr "Service not reachable at this moment");
     ("message", JStr "All AI services are currently unavailable. Please try again later.");
     ("timestamp", JNum t)].

Definition all_failed_body (last_error : string) (t : Z) : body_t :=
  BodyJson
    [("error", JStr "Service not reachable at this moment");
     ("message", JStr "All AI services failed to process the request. Please try again later.");
     ("last_error", JStr last_error);
     ("timestamp", JNum t)].

Definition bad_request_body (method : string) : body_t :=
  BodyJson
    [("error", JStr "Bad request");
     ("message", JStr ("Unsupported HTTP method: " ++ method))].

(** The block "Try the next service if available": [inl] when it
    returns from [forward_request], [inr] with the binding of
    [response] when it falls through. *)
Definition try_next (path method : string) (headers : gmap string string)
    (body : option (list byte)) (query_params : option (gmap string string))
    (available_services : list service) (service_name : string)
    (response : http_response)
    : M circuit_data (Z * gmap string string * body_t + http_response) :=
  if (1 <? List.length available_services)%nat then
    let remaining_services :=
      filter (λ s, name s ≠ service_name) available_services in
    match remaining_services with
    | next_service :: _ =>
      let next_service_name := name next_service in
      let url := (url next_service ++ path)%string in
      let timeout := timeout_of next_service in
      let* r :=
        match dispatch method url headers body query_params timeout with
        | Some call => call
        | None => ret (Responded response)
        end in
      match r with
      | Responded response =>
        if is_success response then
          record_success next_service_name ;;
          ret (inl (status_code response, resp_headers response,
                    BodyStr (text response)))
        else
          record_failure next_service_name ;;
          ret (inr response)
      | Raised _ =>
        record_failure next_service_name ;;
        ret (inr response)
      end
    | [] => ret (inr response)
    end
  else ret (inr response).

Definition forward_request (path method : string)
    (headers : gmap string string) (body : option (list byte))
    (query_params : option (gmap string string))
    : M circuit_data (Z * gmap string string * body_t) :=
  let* available_services := get_available_services in
  match available_services with
  | [] =>
    let* t := time_time e in
    ret (503, ∅, unavailable_body t)
  | first :: _ =>
    let strategy :=
      default "priority"%string (l ← load_balancing cfg; strategy l) in
    let service :=
      if bool_decide (strategy = "round_robin")
         && default false (l ← load_balancing cfg; round_robin_enabled l)
      then first
      else first in
    let service_name := name service in
    let service_url := url service in
    let url := (service_url ++ path)%string in
    let timeout := timeout_of service in
    match dispatch method url headers body query_params timeout with
    | None => ret (400, ∅, bad_request_body method)
    | Some call =>
      let* r := call in
      match r with
      | Responded response =>
        if is_success response then
          record_success service_name ;;
          ret (status_code response, resp_headers response,
               BodyStr (text response))
        else
          record_failure service_name ;;
          let* next :=
            try_next path method headers body query_params
              available_services service_name response in
          match next with
          | inl result => ret result
          | inr response =>
            let* t := time_time e in
            ret (503, ∅,
                 all_failed_body
                   ("Service " ++ service_name ++ " returned status "
                    ++ pretty (status_code response)) t)
          end
      | Raised ex =>
        record_failure service_name ;;
        let* t := time_time e in
        ret (503, ∅,
             all_failed_body
               ("Service " ++ service_name ++ " error: " ++ exn_str ex) t)
      end
    end
  end.
End Engine.

(** *** The breaker state read off the store: open and still in its
    recovery window, or open with the window elapsed; [sweep] is the store
    after [get_available_services] has gone through the services. *)
Definition supported_methods : list string :=
  ["GET"; "POST"; "PUT"; "DELETE"].

Section Derived.
Context (cfg : config) (now : Z).

Definition is_open (cbs : gmap string circuit_data) (n : string) : bool :=
  match cbs !! n with
  | Some c =>
    bool_decide (status c = open)
    && (now - last_failure c <? recovery_timeout_of cfg)
  | None => false
  end.

Definition expired (cbs : gmap string circuit_data) (n : string) : bool :=
  match cbs !! n with
  | Some c =>
    bool_decide (status c = open)
    && negb (now - last_failure c <? recovery_timeout_of cfg)
  | None => false
  end.

Definition kept (cbs : gmap string circuit_data) (s : service) : bool :=
  is_enabled s && negb (is_open cbs (name s)).

Definition sweep (services : list service)
    (cbs : gmap string circuit_data) : gmap string circuit_data :=
  foldl (λ cbs s,
           if is_enabled s && expired cbs (name s)
           then <[name s := CircuitData half_open 0 0]> cbs else cbs)
    cbs services.

(** The call made by a taken branch of [dispatch]. *)
Definition call_of (method url : string) (headers : gmap string string)
    (body : option (list byte))
    (query_params : option (gmap string string)) (timeout : Z)
    : net_call :=
  {| nc_method := upper method; nc_url := url;
     nc_headers := Some headers; nc_params := query_params;
     nc_data :=
       if bool_decide (upper method = "POST")
          || bool_decide (upper method = "PUT")
       then body else None;
     nc_files := None; nc_timeout := timeout |}.

(** The call made for service [s]. *)
Definition service_call (path method : string)
    (headers : gmap string string) (body : option (list byte))
    (query_params : option (gmap string string)) (s : service)
    : net_call :=
  call_of method (url s ++ path) headers body query_params
    (timeout_of cfg s).

(** The description in [last_error] when the attempts have failed. *)
Definition failure_description (service_name : string)
    (response : http_response) : string :=
  "Service " ++ service_name ++ " returned status "
  ++ pretty (status_code response).

(** The entry [record_failure] writes over [c] at time [now]. *)
Definition failed (c : circuit_data) : circuit_data :=
  CircuitData
    (if failures c + 1 >=? failure_threshold_of cfg
     then open else status c)
    (failures c + 1) now.
End Derived.

(** The result of [forward_request] for a successful answer. *)
Definition success_result (response : http_response)
    : Z * gmap string string * body_t :=
  (status_code response, resp_headers response, BodyStr (text response)).

(** The 503 returned when the attempts have failed, [last_error] being
    the description given. *)
Definition all_failed (e : env) (last_error : string)
    (w : world circuit_data)
    : Z * gmap string string * body_t * world circuit_data :=
  ((503, ∅, all_failed_body last_error (clock e (clock_reads w))),
   ticked w).

(** The worlds a [ServiceManager] can be in: it starts without breaker
    entries, and its store is changed by its three methods only. *)
Inductive reachable (e : env) (cfg : config)
    : world circuit_data → Prop :=
  | reach_fresh log reads : reachable e cfg (World ∅ log reads)
  | reach_select w :
      reachable e cfg w →
      reachable e cfg (get_available_services e cfg w).2
  | reach_success w n :
      reachable e cfg w → reachable e cfg (record_success n w).2
  | reach_failure w n :
      reachable e cfg w → reachable e cfg (record_failure e cfg n w).2
  | reach_call w c :
      reachable e cfg w → reachable e cfg (requests_call e c w).2
  | reach_time w :
      reachable e cfg w → reachable e cfg (time_time e w).2.

(** The entry of a service, or the closed entry without failures that
    [record_failure] starts from when the store has none. *)
Definition entry (cbs : gmap string circuit_data) (n : string)
    : circuit_data :=
  default (CircuitData closed 0 0) (cbs !! n).

(** *** Sequences of recorded outcomes *)

Fixpoint record_outcomes (e : env) (cfg : config) (service_name : string)
    (outcomes : list outcome) : M circuit_data unit :=
  match outcomes with
  | [] => ret tt
  | Succeeded :: rest =>
    record_success service_name ;; record_outcomes e cfg service_name rest
  | Failed :: rest =>
    record_failure e cfg service_name ;;
    record_outcomes e cfg service_name rest
  end.

(** *** [lambda_handler] *)

(** The body of the event: no key ['body'], the value of the key when
    [isBase64Encoded] is false or absent ([None] for a null), or, when it is
    true, what [base64.b64decode] makes of the value ([None]: it raises). *)
Inductive event_body :=
  | NoBody
  | PlainBody (s : option string)
  | Base64Body (decoded : option (list byte)).

(** The keys of the event the handler reads; [None] for an absent key. *)
Record event := {
  ev_httpMethod : option string;
  ev_path : option string;
  ev_headers : option (gmap string string);
  ev_queryStringParameters : option (option (gmap string string));
  ev_body : event_body;
}.

(** The response dictionary; the one of the [except] clause has neither
    ['headers'] nor ['isBase64Encoded']. *)
Record lambda_response := {
  statusCode : Z;
  headers : option (gmap string string);
  body : body_t;
  isBase64Encoded : option bool;
}.

Definition internal_error_response (error : jval) : lambda_response :=
  {| statusCode := 500; headers := None;
     body := BodyJson [("message", JStr "Internal server error");
                       ("error", error)];
     isBase64Encoded := None |}.

(** [content_type and ('image/' in content_type or
    'application/octet-stream' in content_type)] *)
Definition is_binary (content_type : string) : bool :=
  negb (bool_decide (content_type = EmptyString))
  && (str_contains "image/" content_type
      || str_contains "application/octet-stream" content_type).

(** [base64.b64encode(response_body.encode('utf-8')).decode('utf-8')].
    A synthetic body comes without headers, hence is never encoded. *)
Definition encode_response_body (response_body : body_t) : body_t :=
  match response_body with
  | BodyStr s => BodyStr (b64encode (encode_utf8 s))
  | BodyJson d => BodyJson d
  end.

(** [lambda_handler]: the configuration is read from [config.json], and a
    new [ServiceManager], with an empty breaker store, serves the event. *)
Definition lambda_handler (read_file : string → file_read) (e : env)
    (ev : event) : M circuit_data lambda_response :=
  match read_file "config.json"%string with
  | NotFound =>
    ret (internal_error_response
           (JStr "[Errno 2] No such file or directory: 'config.json'"))
  | LoadError msg => ret (internal_error_response (JStr msg))
  | Loaded config =>
    put_breakers ∅ ;;
    let method := default "GET"%string (ev_httpMethod ev) in
    let path := default EmptyString (ev_path ev) in
    let headers := default ∅ (ev_headers ev) in
    let query_params := default (Some ∅) (ev_queryStringParameters ev) in
    let forward body :=
      let* r :=
        forward_request e config path method headers body query_params in
      let '(status_code, response_headers, response_body) := r in
      let content_type :=
        default EmptyString (response_headers !! "Content-Type") in
      if is_binary content_type then
        ret {| statusCode := status_code;
               headers := Some response_headers;
               body := encode_response_body response_body;
               isBase64Encoded := Some true |}
      else
        ret {| statusCode := status_code;
               headers := Some response_headers;
               body := response_body;
               isBase64Encoded := Some false |} in
    if decide (method = "POST"%string) then
      match ev_body ev with
      | NoBody => forward None
      | PlainBody s => forward (encode_utf8 <$> s)
      | Base64Body (Some bs) => forward (Some bs)
      | Base64Body None =>
        ret (internal_error_response (JExn BinasciiError))
      end
    else forward None
  end.

(** The body [lambda_handler] hands to [forward_request], when it gets
    that far: the one of the event for the method [POST], none otherwise. *)
Definition forwarded_body (ev : event) : option (list byte) :=
  if decide (default "GET"%string (ev_httpMethod ev) = "POST"%string) then
    match ev_body ev with
    | NoBody => None
    | PlainBody s => encode_utf8 <$> s
    | Base64Body decoded => decoded
    end
  else None.

(** The response dictionary [lambda_handler] builds from the result of
    [forward_request]. *)
Definition response_of (result : Z * gmap string string * body_t)
    : lambda_response :=
  let '(status_code, response_headers, response_body) := result in
  if is_binary (default EmptyString (response_headers !! "Content-Type"))
  then {| statusCode := status_code;
          headers := Some response_headers;
          body := encode_response_body response_body;
          isBase64Encoded := Some true |}
  else {| statusCode := status_code;
          headers := Some response_headers;
          body := response_body;
          isBase64Encoded := Some false |}.

End Fixed.

(** ** Sample configurations and environments *)

Module Sample.

Definition svc (n u : string) (p : Z) : service :=
  {| name := n; url := u; priority := Some p; timeout := None;
     enabled := None |}.

Definition A : service := svc "A" "http://a" 1.
Definition B : service := svc "B" "http://b" 2.
Definition C : service := svc "C" "http://c" 3.

Definition D : service :=
  {| name := "D"; url := "http://d"; priority := Some 0; timeout := None;
     enabled := Some false |}.

Definition config_of (services : list service) : config :=
  {| ai_services := Some services; circuit_breaker := None;
     load_balancing := None; default_timeout := None |}.

(** Three enabled services, declared out of priority order; the
    thresholds are the defaults: 5 failures, 60 of recovery. *)
Definition cfg : config := config_of [B; A; C].

(** A before B, and nothing else. *)
Definition cfg_two : config := config_of [A; B].

Definition cfg_disabled : config := config_of [D].

Definition answer (st : Z) : http_response :=
  {| status_code := st;
     resp_headers :=
       {[ "Content-Length" := "2"; "Connection" := "close";
          "X-Backend" := "1" ]};
     content := list_byte_of_string "ok"; text := "ok" |}.

(** The clock advances by one at each read, from 1000 on. *)
Definition ticking (n : nat) : Z := 1000 + Z.of_nat n.

(** Every call is answered with status [st]. *)
Definition env_status (st : Z) : env :=
  {| clock := ticking; transport := λ _ _, Responded (answer st) |}.

(** Service A answers 500, the others 200. *)
Definition env_a_down : env :=
  {| clock := ticking;
     transport := λ _ c,
       if String.prefix "http://a" (nc_url c)
       then Responded (answer 500) else Responded (answer 200) |}.

Definition fresh {B} : world B := World ∅ [] 0.

(** The fresh world after the clock read of the selection. *)
Definition selected {B} : world B := World ∅ [] 1.

Definition get_x : Router.request :=
  {| Router.http_method := "GET"; Router.path := "/x";
     Router.req_headers :=
       {[ "Host" := "router"; "Transfer-Encoding" := "chunked";
          "X-Trace" := "1" ]};
     Router.req_body := None; Router.files := None |}.

Definition get_upload : Router.request :=
  {| Router.http_method := "GET"; Router.path := "/upload";
     Router.req_headers := ∅;
     Router.req_body := None; Router.files := None |}.

(** Stores in which the breaker of A has 5 failures, the last at 990. *)
Definition router_tripped : world Router.cb_state :=
  World {[ "A" := Router.CbState 5 990 ]} [] 0.

Definition fixed_tripped : world Fixed.circuit_data :=
  World {[ "A" := Fixed.CircuitData Fixed.open 5 990 ]} [] 0.

(** The same, the last failure at 900: the recovery has elapsed. *)
Definition router_expired : world Router.cb_state :=
  World {[ "A" := Router.CbState 5 900 ]} [] 0.

Definition fixed_expired : world Fixed.circuit_data :=
  World {[ "A" := Fixed.CircuitData Fixed.open 5 900 ]} [] 0.

Definition fixed_half_open : world Fixed.circuit_data :=
  World {[ "A" := Fixed.CircuitData Fixed.half_open 0 0 ]} [] 0.

(** Four failures of A recorded from a fresh manager. *)
Definition fixed_four_failures (e : env) : world Fixed.circuit_data :=
  (Fixed.record_failure e cfg "A"
     (Fixed.record_failure e cfg "A"
        (Fixed.record_failure e cfg "A"
           (Fixed.record_failure e cfg "A" fresh).2).2).2).2.

Definition router_four_failures : world Router.cb_state :=
  World {[ "A" := Router.CbState 4 990 ]} [] 0.

(** A closed entry with failures on record. *)
Definition fixed_closed_three : world Fixed.circuit_data :=
  World {[ "A" := Fixed.CircuitData Fixed.closed 3 990 ]} [] 0.

(** An answer whose body is not UTF-8 (the first bytes of a JPEG file). *)
Definition jpeg_answer : http_response :=
  {| status_code := 200;
     resp_headers := {[ "content-type" := "image/jpeg" ]};
     content := [xff; xd8; xff; xe0];
     text := "" |}.

(** An answer that declares an image under the usual spelling of the
    header, with a body that is valid UTF-8. *)
Definition svg_answer : http_response :=
  {| status_code := 200;
     resp_headers := {[ "Content-Type" := "image/svg+xml" ]};
     content := list_byte_of_string "<svg/>";
     text := "<svg/>" |}.

Definition env_answer (r : http_response) : env :=
  {| clock := ticking; transport := λ _ _, Responded r |}.

(** Every call times out. *)
Definition env_timeout : env :=
  {| clock := ticking;
     transport := λ _ _, Raised (ExcTimeout "timed out") |}.

Definition patch_x : Router.request :=
  {| Router.http_method := "PATCH"; Router.path := "/x";
     Router.req_headers := ∅;
     Router.req_body := None; Router.files := None |}.

(** A store with an expired entry for a name that is not configured. *)
Definition router_unknown : world Router.cb_state :=
  World {[ "Z" := Router.CbState 9 0 ]} [] 0.

Definition fixed_unknown : world Fixed.circuit_data :=
  World {[ "Z" := Fixed.CircuitData Fixed.open 9 0 ]} [] 0.

(** Events for [GET /x], and for a [PUT] that comes with a body. *)
Definition router_get_event : Router.event :=
  {| Router.ev_httpMethod := Some "GET"%string;
     Router.ev_path := Some "/x"%string;
     Router.ev_headers := None;
     Router.ev_body := Router.NoBody |}.

Definition fixed_get_event : Fixed.event :=
  {| Fixed.ev_httpMethod := Some "GET"%string;
     Fixed.ev_path := Some "/x"%string;
     Fixed.ev_headers := None;
     Fixed.ev_queryStringParameters := None;
     Fixed.ev_body := Fixed.NoBody |}.

Definition fixed_put_event : Fixed.event :=
  {| Fixed.ev_httpMethod := Some "PUT"%string;
     Fixed.ev_path := Some "/x"%string;
     Fixed.ev_headers := None;
     Fixed.ev_queryStringParameters := None;
     Fixed.ev_body := Fixed.PlainBody (Some "payload"%string) |}.

(** Files: [config.json] holds [cfg]; or no file at all. *)
Definition files_cfg (path : string) : file_read :=
  if decide (path = "config.json"%string) then Loaded cfg else NotFound.

Definition no_file (path : string) : file_read := NotFound.



Definition host_bare : Router.host :=
  {| Router.ROUTER_CONFIG_PATH := Some EmptyString;
     Router.package_config_path := "/var/task/config.json";
     Router.read_file := λ path,
       if decide (path = EmptyString) then Loaded cfg
       else if decide (path = "/opt/config.json"%string)
       then LoadError "Expecting value: line 1 column 1 (char 0)"
       else NotFound |}.

End Sample.

(** * Properties *)

(** ** The built-ins on examples *)

Example lower_example : lower "Content-Length" = "content-length"%string.
Proof. reflexivity. Qed.

Example upper_example : upper "get" = "GET"%string.
Proof. reflexivity. Qed.

Example str_contains_example :
  str_contains "image/" "text/html; image/png" = true ∧
  str_contains "image/" "text/html" = false.
Proof. split; reflexivity. Qed.

Example b64encode_examples :
  b64encode (list_byte_of_string "Man") = "TWFu"%string ∧
  b64encode (list_byte_of_string "Ma") = "TWE="%string ∧
  b64encode (list_byte_of_string "M") = "TQ=="%string ∧
  b64encode (list_byte_of_string "light work.") = "bGlnaHQgd29yay4="%string.
Proof. repeat split; reflexivity. Qed.

Example utf8_valid_examples :
  utf8_valid (list_byte_of_string "hello") = true ∧
  utf8_valid [xc3; xa9] = true ∧
  utf8_valid [xff] = false ∧
  utf8_valid [xc0; x80] = false ∧
  utf8_valid [xed; xa0; x80] = false ∧
  utf8_valid [xe2; x82; xac] = true ∧
  utf8_valid [xf0; x9f; x98; x80] = true ∧
  utf8_valid [xe2; x82] = false.
Proof. repeat split; reflexivity. Qed.

Example sorted_stable_example :
  sorted (λ p : Z * string, p.1) [(2, "a"); (1, "b"); (2, "c"); (1, "d")]
  = [(1, "b"); (1, "d"); (2, "a"); (2, "c")].
Proof. reflexivity. Qed.

(** ** [sorted] is a stable sort *)

Section SortedFacts.
Context {A : Type} (key : A → Z).

Lemma insert_by_Permutation (x : A) (l : list A) :
  insert_by key x l ≡ₚ x :: l.
Proof.
  induction l as [|y r IH]; simpl; [done|].
  destruct (key x <=? key y); [done|].
  rewrite IH. apply Permutation_swap.
Qed.

Lemma sorted_Permutation (l : list A) : sorted key l ≡ₚ l.
Proof.
  induction l as [|x r IH]; simpl; [done|].
  by rewrite insert_by_Permutation, IH.
Qed.

Lemma elem_of_sorted (x : A) (l : list A) : x ∈ sorted key l ↔ x ∈ l.
Proof. by rewrite sorted_Permutation. Qed.

Lemma sorted_nil_inv (l : list A) : sorted key l = [] → l = [].
Proof.
  intros H. apply Permutation_nil_r. by rewrite <- H, sorted_Permutation.
Qed.

Lemma insert_by_ascending (x : A) (l : list A) :
  ascending key l → ascending key (insert_by key x l).
Proof.
  unfold ascending. induction 1 as [|y r Hr IH Hy]; simpl.
  - repeat constructor.
  - destruct (Z.leb_spec (key x) (key y)) as [Hle|Hlt].
    + constructor; [by constructor|].
      constructor; [done|].
      eapply Forall_impl; [exact Hy|]. simpl. intros. lia.
    + constructor; [done|].
      rewrite insert_by_Permutation. constructor; [lia|done].
Qed.

Lemma sorted_ascending (l : list A) : ascending key (sorted key l).
Proof.
  induction l as [|x r IH]; simpl.
  - constructor.
  - by apply insert_by_ascending.
Qed.

(** Stability: the elements of one key are in their original order. *)
Lemma insert_by_stable (p : Z) (x : A) (l : list A) :
  filter (λ y, key y = p) (insert_by key x l)
  = filter (λ y, key y = p) (x :: l).
Proof.
  induction l as [|y r IH]; simpl; [done|].
  destruct (Z.leb_spec (key x) (key y)) as [Hle|Hlt]; [done|].
  rewrite (filter_cons _ y), IH, !filter_cons.
  repeat case_decide; try done; lia.
Qed.

Lemma sorted_stable (p : Z) (l : list A) :
  filter (λ y, key y = p) (sorted key l) = filter (λ y, key y = p) l.
Proof.
  induction l as [|x r IH]; simpl; [done|].
  by rewrite insert_by_stable, !filter_cons, IH.
Qed.
End SortedFacts.

(** ** Running the state monad *)

Ltac run_m :=
  unfold bind, ret, get_breakers, put_breakers, time_time, requests_call;
  simpl.

(** A decidable closed proposition, by evaluation. *)
Ltac by_computation := apply (bool_decide_unpack _); vm_compute; exact I.

Lemma world_eta {B} (w : world B) :
  World (circuit_breakers w) (net_log w) (clock_reads w) = w.
Proof. by destruct w. Qed.

(** ** Selection in [lambda_function.py] *)

Section RouterSelection.
Context (e : env) (cfg : config).
Implicit Types (w : world Router.cb_state) (cbs : gmap string Router.cb_state).

Lemma router_is_open_run n now w :
  Router._is_circuit_breaker_open cfg n now w
  = (Router.is_open cfg now (circuit_breakers w) n,
     World (if Router.expired cfg now (circuit_breakers w) n
            then <[n := Router.CbState 0 0]> (circuit_breakers w)
            else circuit_breakers w)
       (net_log w) (clock_reads w)).
Proof.
  unfold Router._is_circuit_breaker_open, Router.is_open, Router.expired,
    Router.entry.
  run_m.
  destruct (_ >=? _); simpl; [|by rewrite world_eta].
  destruct (_ <? _); simpl; [by rewrite world_eta|done].
Qed.

Lemma router_entry_insert cbs n m c :
  Router.entry (<[n := c]> cbs) m
  = if decide (n = m) then c else Router.entry cbs m.
Proof. unfold Router.entry. rewrite lookup_insert. by case_decide. Qed.

(** With a positive threshold, resetting an expired entry changes neither
    which breakers are open nor which other entries have expired. *)
Lemma router_is_open_reset now cbs n m :
  0 < failure_threshold_of cfg →
  Router.expired cfg now cbs n = true →
  Router.is_open cfg now (<[n := Router.CbState 0 0]> cbs) m
  = Router.is_open cfg now cbs m.
Proof.
  intros Hthr Hexp. unfold Router.is_open, Router.expired in *.
  rewrite router_entry_insert. case_decide as Hnm; [subst m|done].
  simpl. apply andb_true_iff in Hexp as [_ Hwin].
  apply negb_true_iff in Hwin. rewrite Hwin, andb_false_r.
  apply andb_false_iff. left. rewrite Z.geb_leb. apply Z.leb_gt. lia.
Qed.

Lemma router_kept_reset now cbs n s :
  0 < failure_threshold_of cfg →
  Router.expired cfg now cbs n = true →
  Router.kept cfg now (<[n := Router.CbState 0 0]> cbs) s
  = Router.kept cfg now cbs s.
Proof. intros. unfold Router.kept. by rewrite router_is_open_reset. Qed.

Lemma router_open_not_expired now cbs n :
  Router.is_open cfg now cbs n = true → Router.expired cfg now cbs n = false.
Proof.
  unfold Router.is_open, Router.expired.
  intros [_ ->]%andb_true_iff. apply andb_false_r.
Qed.

Lemma router_available_loop_run now services available w :
  0 < failure_threshold_of cfg →
  Router.available_loop cfg now services available w
  = (available ++ filter (λ s, Router.kept cfg now (circuit_breakers w) s)
                    services,
     World (Router.sweep cfg now services (circuit_breakers w))
       (net_log w) (clock_reads w)).
Proof.
  intros Hthr. revert available w.
  induction services as [|s rest IH]; intros available w; simpl.
  - by rewrite app_nil_r, world_eta.
  - destruct (is_enabled s) eqn:Hen; simpl.
    + unfold bind at 1. rewrite router_is_open_run.
      destruct (Router.is_open cfg now (circuit_breakers w) (name s))
        eqn:Hopen; simpl.
      * rewrite (router_open_not_expired _ _ _ Hopen), IH.
        rewrite filter_cons_False; [done|].
        unfold Router.kept. rewrite Hen, Hopen. simpl. tauto.
      * rewrite IH. simpl. rewrite <- app_assoc. simpl.
        rewrite filter_cons_True
          by (unfold Router.kept; rewrite Hen, Hopen; exact I).
        destruct (Router.expired cfg now (circuit_breakers w) (name s))
          eqn:Hexp; [|done].
        f_equal. f_equal. f_equal. apply list_filter_iff. intros x.
        by rewrite router_kept_reset.
    + rewrite IH. rewrite filter_cons_False; [done|].
      unfold Router.kept. rewrite Hen. simpl. tauto.
Qed.

Lemma router_get_available_services_run w :
  0 < failure_threshold_of cfg →
  let now := clock e (clock_reads w) in
  Router.get_available_services e cfg w
  = (sorted priority_key
       (filter (λ s, Router.kept cfg now (circuit_breakers w) s)
          (services_of cfg)),
     World (Router.sweep cfg now (services_of cfg) (circuit_breakers w))
       (net_log w) (S (clock_reads w))).
Proof.
  intros Hthr now. unfold Router.get_available_services.
  unfold bind, time_time; simpl.
  by rewrite router_available_loop_run.
Qed.

Lemma router_expired_insert_ne now cbs n m c :
  n ≠ m →
  Router.expired cfg now (<[n := c]> cbs) m = Router.expired cfg now cbs m.
Proof.
  intros Hne. unfold Router.expired. rewrite router_entry_insert.
  by case_decide.
Qed.

(** An entry that has not expired is left alone by the selection. *)
Lemma router_sweep_lookup_unexpired now services cbs n :
  Router.expired cfg now cbs n = false →
  Router.sweep cfg now services cbs !! n = cbs !! n.
Proof.
  revert cbs. induction services as [|s rest IH]; intros cbs Hn; [done|].
  simpl.
  destruct (is_enabled s && Router.expired cfg now cbs (name s)) eqn:Hs;
    [|by apply IH].
  apply andb_true_iff in Hs as [_ Hs].
  assert (name s ≠ n) as Hne by (intros Heq; rewrite Heq in Hs; congruence).
  rewrite IH by (by rewrite router_expired_insert_ne).
  by rewrite lookup_insert_ne.
Qed.

(** An expired entry of an enabled service is reset by the selection. *)
Lemma router_sweep_lookup_expired now services cbs n :
  0 < failure_threshold_of cfg →
  Router.expired cfg now cbs n = true →
  (∃ s, s ∈ services ∧ is_enabled s = true ∧ name s = n) →
  Router.sweep cfg now services cbs !! n = Some (Router.CbState 0 0).
Proof.
  intros Hthr. revert cbs.
  induction services as [|s rest IH]; intros cbs Hn (s' & Hin & Hen & Hname).
  { by apply elem_of_nil in Hin. }
  simpl. destruct (decide (is_enabled s = true ∧ name s = n)) as [[Hes Hsn]|Hno].
  - rewrite Hes, Hsn, Hn. simpl.
    rewrite router_sweep_lookup_unexpired; [apply lookup_insert_eq|].
    unfold Router.expired. rewrite router_entry_insert.
    try rewrite decide_True by done. simpl.
    apply andb_false_iff. left. rewrite Z.geb_leb. apply Z.leb_gt. lia.
  - apply elem_of_cons in Hin as [->|Hin]; [tauto|].
    assert (∃ s, s ∈ rest ∧ is_enabled s = true ∧ name s = n) as Hex
      by eauto.
    destruct (is_enabled s && Router.expired cfg now cbs (name s)) eqn:Hs;
      [|by apply IH].
    apply andb_true_iff in Hs as [Hes _].
    apply IH; [|done]. rewrite router_expired_insert_ne; [done|].
    intros Heq. apply Hno. by split.
Qed.
End RouterSelection.

(** ** Selection in [lambda_function_fixed.py] *)

Section FixedSelection.
Context (e : env) (cfg : config).
Implicit Types (w : world Fixed.circuit_data)
  (cbs : gmap string Fixed.circuit_data).

Lemma fixed_is_open_insert_ne now cbs n m c :
  n ≠ m →
  Fixed.is_open cfg now (<[n := c]> cbs) m = Fixed.is_open cfg now cbs m.
Proof. intros. unfold Fixed.is_open. by rewrite lookup_insert_ne. Qed.

Lemma fixed_expired_insert_ne now cbs n m c :
  n ≠ m →
  Fixed.expired cfg now (<[n := c]> cbs) m = Fixed.expired cfg now cbs m.
Proof. intros. unfold Fixed.expired. by rewrite lookup_insert_ne. Qed.

Lemma fixed_is_open_reset now cbs n m :
  Fixed.expired cfg now cbs n = true →
  Fixed.is_open cfg now (<[n := Fixed.CircuitData Fixed.half_open 0 0]> cbs) m
  = Fixed.is_open cfg now cbs m.
Proof.
  intros Hexp. destruct (decide (n = m)) as [->|Hne];
    [|by apply fixed_is_open_insert_ne].
  unfold Fixed.is_open, Fixed.expired in *. rewrite lookup_insert_eq. simpl.
  destruct (cbs !! m) as [c|]; [|done].
  apply andb_true_iff in Hexp as [_ Hwin]. apply negb_true_iff in Hwin.
  by rewrite Hwin, andb_false_r.
Qed.

Lemma fixed_available_loop_run now services available w :
  Fixed.available_loop cfg now services available w
  = (available ++ filter (λ s, Fixed.kept cfg now (circuit_breakers w) s)
                    services,
     World (Fixed.sweep cfg now services (circuit_breakers w))
       (net_log w) (clock_reads w)).
Proof.
  revert available w.
  induction services as [|s rest IH]; intros available w; simpl.
  - by rewrite app_nil_r, world_eta.
  - destruct (is_enabled s) eqn:Hen; simpl.
    2:{ rewrite IH. rewrite filter_cons_False; [done|].
        unfold Fixed.kept. rewrite Hen. simpl. tauto. }
    unfold bind at 1, get_breakers at 1.
    assert (∀ b, Fixed.is_open cfg now (circuit_breakers w) (name s) = b →
                 (Fixed.kept cfg now (circuit_breakers w) s ↔ b = false))
      as Hkept.
    { intros b <-. unfold Fixed.kept. rewrite Hen. simpl.
      destruct (Fixed.is_open _ _ _ _); simpl; intuition (auto; congruence). }
    unfold Fixed.is_open in Hkept. unfold Fixed.expired at 1.
    destruct (circuit_breakers w !! name s) as [c|] eqn:Hc; simpl.
    2:{ rewrite IH, <- app_assoc. simpl.
        rewrite filter_cons_True by (by eapply Hkept).
        by rewrite ?world_eta. }
    destruct (decide (Fixed.status c = Fixed.open)) as [Hst|Hst].
    2:{ rewrite bool_decide_eq_false_2 in * by done. simpl.
        rewrite IH, <- app_assoc. simpl.
        rewrite filter_cons_True by (by eapply Hkept).
        by rewrite ?world_eta. }
    rewrite bool_decide_eq_true_2 in * by done. simpl.
    destruct (_ <? _) eqn:Hwin; simpl.
    + rewrite IH. simpl.
      rewrite filter_cons_False by (rewrite (Hkept true); done).
      by rewrite ?world_eta.
    + run_m. rewrite IH, <- app_assoc. simpl.
      rewrite filter_cons_True by (by eapply Hkept).
      f_equal. f_equal. f_equal. apply list_filter_iff. intros x.
      unfold Fixed.kept. rewrite fixed_is_open_reset; [done|].
      unfold Fixed.expired. rewrite Hc, Hwin.
      by rewrite bool_decide_eq_true_2.
Qed.

Lemma fixed_get_available_services_run w :
  let now := clock e (clock_reads w) in
  Fixed.get_available_services e cfg w
  = (sorted priority_key
       (filter (λ s, Fixed.kept cfg now (circuit_breakers w) s)
          (services_of cfg)),
     World (Fixed.sweep cfg now (services_of cfg) (circuit_breakers w))
       (net_log w) (S (clock_reads w))).
Proof.
  intros now. unfold Fixed.get_available_services.
  unfold bind, time_time; simpl.
  by rewrite fixed_available_loop_run.
Qed.

Lemma fixed_sweep_lookup_unexpired now services cbs n :
  Fixed.expired cfg now cbs n = false →
  Fixed.sweep cfg now services cbs !! n = cbs !! n.
Proof.
  revert cbs. induction services as [|s rest IH]; intros cbs Hn; [done|].
  simpl.
  destruct (is_enabled s && Fixed.expired cfg now cbs (name s)) eqn:Hs;
    [|by apply IH].
  apply andb_true_iff in Hs as [_ Hs].
  assert (name s ≠ n) as Hne by (intros Heq; rewrite Heq in Hs; congruence).
  rewrite IH by (by rewrite fixed_expired_insert_ne).
  by rewrite lookup_insert_ne.
Qed.

Lemma fixed_sweep_lookup_expired now services cbs n :
  Fixed.expired cfg now cbs n = true →
  (∃ s, s ∈ services ∧ is_enabled s = true ∧ name s = n) →
  Fixed.sweep cfg now services cbs !! n
  = Some (Fixed.CircuitData Fixed.half_open 0 0).
Proof.
  revert cbs.
  induction services as [|s rest IH]; intros cbs Hn (s' & Hin & Hen & Hname).
  { by apply elem_of_nil in Hin. }
  simpl. destruct (decide (is_enabled s = true ∧ name s = n)) as [[Hes Hsn]|Hno].
  - rewrite Hes, Hsn, Hn. simpl.
    rewrite fixed_sweep_lookup_unexpired; [apply lookup_insert_eq|].
    unfold Fixed.expired. by rewrite lookup_insert_eq.
  - apply elem_of_cons in Hin as [->|Hin]; [tauto|].
    assert (∃ s, s ∈ rest ∧ is_enabled s = true ∧ name s = n) as Hex
      by eauto.
    destruct (is_enabled s && Fixed.expired cfg now cbs (name s)) eqn:Hs;
      [|by apply IH].
    apply andb_true_iff in Hs as [Hes _].
    apply IH; [|done]. rewrite fixed_expired_insert_ne; [done|].
    intros Heq. apply Hno. by split.
Qed.
End FixedSelection.

(** ** Selection: enabled services, by priority *)

Lemma is_enabled_true (s : service) :
  is_enabled s = true ↔ enabled s ≠ Some false.
Proof. unfold is_enabled. destruct (enabled s) as [[]|]; naive_solver. Qed.

Lemma router_kept_fresh (cfg : config) (now : Z) (s : service) :
  0 < failure_threshold_of cfg →
  Router.kept cfg now ∅ s = is_enabled s.
Proof.
  intros Hthr. unfold Router.kept, Router.is_open, Router.entry.
  rewrite lookup_empty. simpl.
  replace (0 >=? failure_threshold_of cfg) with false; [apply andb_true_r|].
  symmetry. rewrite Z.geb_leb. apply Z.leb_gt. lia.
Qed.

Lemma fixed_kept_fresh (cfg : config) (now : Z) (s : service) :
  Fixed.kept cfg now ∅ s = is_enabled s.
Proof.
  unfold Fixed.kept, Fixed.is_open. rewrite lookup_empty. apply andb_true_r.
Qed.

(** C6. [get_available_services] returns no service with [enabled = false];
    what it returns is in ascending order of priority (999 when absent), and
    services of equal priority are in the order of their declaration: the
    result is a permutation of the enabled services whose breaker is not
    open, ascending, each priority class in the order of [ai_services].
    On a breaker store without entries, as every [ServiceManager] starts
    with, the result is the stable sort of all the enabled services. *)
Theorem C6_get_available_services_enabled_by_priority
    (e : env) (cfg : config)
    (wr : world Router.cb_state) (wf : world Fixed.circuit_data) :
  0 < failure_threshold_of cfg →
  let cr := (Router.get_available_services e cfg wr).1 in
  let cf := (Fixed.get_available_services e cfg wf).1 in
  let kr := Router.kept cfg (clock e (clock_reads wr)) (circuit_breakers wr) in
  let kf := Fixed.kept cfg (clock e (clock_reads wf)) (circuit_breakers wf) in
  (∀ s, s ∈ cr ∨ s ∈ cf → s ∈ services_of cfg ∧ enabled s ≠ Some false)
  ∧ (cr ≡ₚ filter (λ s, kr s) (services_of cfg)
     ∧ cf ≡ₚ filter (λ s, kf s) (services_of cfg))
  ∧ (ascending priority_key cr ∧ ascending priority_key cf)
  ∧ (∀ p, filter (λ s, priority_key s = p) cr
          = filter (λ s, priority_key s = p)
              (filter (λ s, kr s) (services_of cfg))
        ∧ filter (λ s, priority_key s = p) cf
          = filter (λ s, priority_key s = p)
              (filter (λ s, kf s) (services_of cfg)))
  ∧ (circuit_breakers wr = ∅ →
     cr = sorted priority_key (filter (λ s, is_enabled s) (services_of cfg)))
  ∧ (circuit_breakers wf = ∅ →
     cf = sorted priority_key (filter (λ s, is_enabled s) (services_of cfg))).
Proof.
  intros Hthr cr cf kr kf. subst cr cf.
  rewrite router_get_available_services_run by done.
  rewrite fixed_get_available_services_run. simpl. fold kr kf.
  split; [|split; [|split; [|split; [|split]]]].
  - intros s Hs. rewrite !elem_of_sorted, !list_elem_of_filter in Hs.
    rewrite <- is_enabled_true.
    assert (∀ b c, Is_true (b && c) → b = true) as Hb
      by (intros [] []; naive_solver).
    destruct Hs as [[Hk ?]|[Hk ?]]; split; try done; eapply Hb; exact Hk.
  - split; apply sorted_Permutation.
  - split; apply sorted_ascending.
  - intros p. split; apply sorted_stable.
  - intros Hcbs. f_equal. apply list_filter_iff. intros s. subst kr.
    by rewrite Hcbs, router_kept_fresh.
  - intros Hcbs. f_equal. apply list_filter_iff. intros s. subst kf.
    by rewrite Hcbs, fixed_kept_fresh.
Qed.

(** ** Open breakers and the recovery window *)

(** C4, as amended.  An enabled service whose breaker is open is in no
    candidate list computed while [now - last_failure < recovery_timeout],
    and its entry is left as it is.  In the first list computed once
    [now - last_failure >= recovery_timeout] it is a candidate again, with
    no call other than [get_available_services] itself; that same call
    resets the entry: failures 0 and last failure 0 (with status half-open
    in [lambda_function_fixed.py]). *)
Theorem C4_open_breaker_excluded_until_recovery
    (e : env) (cfg : config) (s : service) (f l : Z) :
  s ∈ services_of cfg →
  is_enabled s = true →
  0 < failure_threshold_of cfg →
  failure_threshold_of cfg ≤ f →
  (∀ wr : world Router.cb_state,
     circuit_breakers wr !! name s = Some (Router.CbState f l) →
     let rr := Router.get_available_services e cfg wr in
     (clock e (clock_reads wr) - l < recovery_timeout_of cfg →
      (∀ c, c ∈ rr.1 → name c ≠ name s)
      ∧ circuit_breakers rr.2 !! name s = Some (Router.CbState f l))
     ∧ (recovery_timeout_of cfg ≤ clock e (clock_reads wr) - l →
        s ∈ rr.1
        ∧ circuit_breakers rr.2 !! name s = Some (Router.CbState 0 0)))
  ∧
  (∀ wf : world Fixed.circuit_data,
     circuit_breakers wf !! name s
       = Some (Fixed.CircuitData Fixed.open f l) →
     let rf := Fixed.get_available_services e cfg wf in
     (clock e (clock_reads wf) - l < recovery_timeout_of cfg →
      (∀ c, c ∈ rf.1 → name c ≠ name s)
      ∧ circuit_breakers rf.2 !! name s
        = Some (Fixed.CircuitData Fixed.open f l))
     ∧ (recovery_timeout_of cfg ≤ clock e (clock_reads wf) - l →
        s ∈ rf.1
        ∧ circuit_breakers rf.2 !! name s
          = Some (Fixed.CircuitData Fixed.half_open 0 0))).
Proof.
  intros Hin Hen Hthr Hf.
  assert ((f >=? failure_threshold_of cfg) = true) as Hge
    by (rewrite Z.geb_leb; apply Z.leb_le; lia).
  split.
  - intros wr Hr rr. subst rr.
    rewrite router_get_available_services_run by done. simpl.
    set (nr := clock e (clock_reads wr)).
    assert (Router.entry (circuit_breakers wr) (name s) = Router.CbState f l)
      as Hentry by (unfold Router.entry; by rewrite Hr).
    split; intros Hwin.
    + assert (Router.is_open cfg nr (circuit_breakers wr) (name s) = true)
        as Hopen.
      { unfold Router.is_open. rewrite Hentry. simpl. rewrite Hge. simpl.
        apply Z.ltb_lt. lia. }
      split.
      * intros c Hc Hname. rewrite elem_of_sorted, list_elem_of_filter in Hc.
        destruct Hc as [Hk _]. unfold Router.kept in Hk.
        rewrite Hname, Hopen, andb_false_r in Hk. done.
      * rewrite router_sweep_lookup_unexpired; [done|].
        by apply router_open_not_expired.
    + assert (now_lt : (nr - l <? recovery_timeout_of cfg) = false)
        by (apply Z.ltb_ge; lia).
      split.
      * rewrite elem_of_sorted, list_elem_of_filter. split; [|done].
        unfold Router.kept, Router.is_open.
        rewrite Hen, Hentry. simpl. rewrite now_lt, andb_false_r. done.
      * apply router_sweep_lookup_expired; [done| |by exists s].
        unfold Router.expired. rewrite Hentry. simpl. by rewrite Hge, now_lt.
  - intros wf Hfx rf. subst rf.
    rewrite fixed_get_available_services_run. simpl.
    set (nf := clock e (clock_reads wf)).
    split; intros Hwin.
    + assert (Fixed.is_open cfg nf (circuit_breakers wf) (name s) = true)
        as Hopen.
      { unfold Fixed.is_open. rewrite Hfx. simpl. apply Z.ltb_lt. lia. }
      split.
      * intros c Hc Hname. rewrite elem_of_sorted, list_elem_of_filter in Hc.
        destruct Hc as [Hk _]. unfold Fixed.kept in Hk.
        rewrite Hname, Hopen, andb_false_r in Hk. done.
      * rewrite fixed_sweep_lookup_unexpired; [done|].
        unfold Fixed.expired. rewrite Hfx. simpl.
        replace (nf - l <? recovery_timeout_of cfg) with true; [done|].
        symmetry. apply Z.ltb_lt. lia.
    + assert (now_lt : (nf - l <? recovery_timeout_of cfg) = false)
        by (apply Z.ltb_ge; lia).
      split.
      * rewrite elem_of_sorted, list_elem_of_filter. split; [|done].
        unfold Fixed.kept, Fixed.is_open.
        rewrite Hen, Hfx. simpl. rewrite now_lt. done.
      * apply fixed_sweep_lookup_expired; [|by exists s].
        unfold Fixed.expired. rewrite Hfx. simpl. by rewrite now_lt.
Qed.

(** ** Recording outcomes *)

Section Recording.
Context (e : env) (cfg : config).

Lemma alter_alter_insert {B} (g h : B → B) (n : string) (c : B)
    (cbs : gmap string B) :
  cbs !! n = Some c →
  alter g n (alter h n cbs) = <[n := g (h c)]> cbs.
Proof.
  intros Hc. apply map_eq. intros m.
  destruct (decide (n = m)) as [<-|Hne].
  - by rewrite lookup_insert_eq, !lookup_alter_eq, Hc.
  - by rewrite lookup_insert_ne, !lookup_alter_ne.
Qed.

Lemma router_record_failure_run n (w : world Router.cb_state) :
  Router.record_failure e n w
  = (tt,
     World
       (<[n := Router.CbState
                 (Router.failures (Router.entry (circuit_breakers w) n) + 1)
                 (clock e (clock_reads w))]> (circuit_breakers w))
       (net_log w) (S (clock_reads w))).
Proof.
  unfold Router.record_failure, Router.entry. run_m.
  f_equal. f_equal.
  destruct (circuit_breakers w !! n) as [c|] eqn:Hc; simpl.
  - try rewrite decide_True by done. by erewrite alter_alter_insert.
  - try rewrite decide_False by (by intros [? ?]).
    erewrite alter_alter_insert by apply lookup_insert_eq.
    simpl. by rewrite insert_insert_eq.
Qed.

Lemma router_record_success_run n (w : world Router.cb_state) :
  Router.record_success n w
  = (tt,
     World
       (match circuit_breakers w !! n with
        | Some c =>
          <[n := Router.CbState 0 (Router.last_failure c)]>
            (circuit_breakers w)
        | None => circuit_breakers w
        end)
       (net_log w) (clock_reads w)).
Proof.
  unfold Router.record_success. run_m.
  destruct (circuit_breakers w !! n) as [c|] eqn:Hc.
  - try rewrite decide_True by done. simpl. f_equal. f_equal.
    apply map_eq. intros m. destruct (decide (n = m)) as [<-|Hne].
    + by rewrite lookup_insert_eq, lookup_alter_eq, Hc.
    + by rewrite lookup_insert_ne, lookup_alter_ne.
  - try rewrite decide_False by (by intros [? ?]).
    by rewrite world_eta.
Qed.

Lemma fixed_record_failure_run n (w : world Fixed.circuit_data) :
  Fixed.record_failure e cfg n w
  = (tt,
     World
       (<[n := Fixed.failed cfg (clock e (clock_reads w))
                 (default (Fixed.CircuitData Fixed.closed 0 0)
                    (circuit_breakers w !! n))]> (circuit_breakers w))
       (net_log w) (S (clock_reads w))).
Proof.
  unfold Fixed.record_failure, Fixed.failed. run_m.
  f_equal. f_equal.
  destruct (circuit_breakers w !! n) as [c|] eqn:Hc; simpl.
  - try rewrite decide_True by done. rewrite Hc. simpl.
    by destruct (_ >=? _).
  - try rewrite decide_False by (by intros [? ?]).
    rewrite lookup_insert_eq. simpl. rewrite insert_insert_eq.
    by destruct (_ >=? _).
Qed.

Lemma fixed_record_success_run n (w : world Fixed.circuit_data) :
  Fixed.record_success n w
  = (tt,
     World
       (match circuit_breakers w !! n with
        | Some c =>
          if decide (Fixed.status c = Fixed.half_open)
          then <[n := Fixed.CircuitData Fixed.closed 0 0]>
                 (circuit_breakers w)
          else circuit_breakers w
        | None => circuit_breakers w
        end)
       (net_log w) (clock_reads w)).
Proof.
  unfold Fixed.record_success. run_m.
  destruct (circuit_breakers w !! n) as [c|]; [|by rewrite world_eta].
  case_decide; [done|by rewrite world_eta].
Qed.
End Recording.

(** ** The breaker state machine *)

Section Breaker.
Context (e : env) (cfg : config).

Lemma fixed_sweep_lookup_cases now services
    (cbs : gmap string Fixed.circuit_data) n :
  Fixed.sweep cfg now services cbs !! n = cbs !! n
  ∨ Fixed.sweep cfg now services cbs !! n
    = Some (Fixed.CircuitData Fixed.half_open 0 0).
Proof.
  revert cbs. induction services as [|s rest IH]; intros cbs; [by left|].
  simpl. destruct (is_enabled s && Fixed.expired cfg now cbs (name s));
    [|apply IH].
  destruct (IH (<[name s := Fixed.CircuitData Fixed.half_open 0 0]> cbs))
    as [Hsame|Hreset]; [|by right].
  rewrite Hsame. destruct (decide (name s = n)) as [->|Hne].
  - right. apply lookup_insert_eq.
  - left. by apply lookup_insert_ne.
Qed.

(** In every reachable store of [lambda_function_fixed.py], an entry is
    open only if its failures have reached the threshold, and, the
    threshold being positive, whenever they have. *)
Lemma fixed_reachable_open_iff w :
  Fixed.reachable e cfg w →
  ∀ n c, circuit_breakers w !! n = Some c →
    (Fixed.status c = Fixed.open → failure_threshold_of cfg ≤ Fixed.failures c)
    ∧ (0 < failure_threshold_of cfg →
       failure_threshold_of cfg ≤ Fixed.failures c →
       Fixed.status c = Fixed.open).
Proof.
  induction 1 as [log reads|w Hw IH|w m Hw IH|w m Hw IH|w c0 Hw IH|w Hw IH];
    intros n c.
  - simpl. by rewrite lookup_empty.
  - rewrite fixed_get_available_services_run. simpl.
    destruct (fixed_sweep_lookup_cases (clock e (clock_reads w))
                (services_of cfg) (circuit_breakers w) n) as [-> | ->];
      [apply IH|].
    intros [= <-]. simpl. split; [done|lia].
  - rewrite fixed_record_success_run. simpl.
    destruct (circuit_breakers w !! m) as [c'|] eqn:Hm; [|apply IH].
    case_decide; [|apply IH].
    destruct (decide (m = n)) as [->|Hne].
    + rewrite lookup_insert_eq. intros [= <-]. simpl. split; [done|lia].
    + rewrite lookup_insert_ne by done. apply IH.
  - rewrite fixed_record_failure_run. simpl.
    destruct (decide (m = n)) as [->|Hne].
    2:{ rewrite lookup_insert_ne by done. apply IH. }
    rewrite lookup_insert_eq. intros [= <-]. unfold Fixed.failed. simpl.
    destruct (Z.geb_spec
                (Fixed.failures
                   (default (Fixed.CircuitData Fixed.closed 0 0)
                      (circuit_breakers w !! n)) + 1)
                (failure_threshold_of cfg)) as [Hge|Hlt].
    { split; [lia|done]. }
    split; [|lia].
    destruct (circuit_breakers w !! n) as [c'|] eqn:Hn; simpl in *; [|done].
    intros Hopen. destruct (IH n c' Hn) as [Hle _].
    specialize (Hle Hopen). lia.
  - apply IH.
  - apply IH.
Qed.
End Breaker.

(** C3. After a failure is recorded, the breaker is open exactly when the
    failures have reached [failure_threshold]; it is never open with fewer
    failures.  In [lambda_function_fixed.py] this is the [status] of the
    entry, in every store the manager can reach, and [record_failure] moves
    an entry to open exactly when the count arrives at the threshold.  In
    [lambda_function.py] it is the answer of [_is_circuit_breaker_open],
    within the recovery window of the recorded failure. *)
Theorem C3_breaker_opens_at_threshold
    (e : env) (cfg : config) (n : string)
    (wf : world Fixed.circuit_data) (wr : world Router.cb_state) :
  Fixed.reachable e cfg wf →
  0 < failure_threshold_of cfg →
  let thr := failure_threshold_of cfg in
  let c := default (Fixed.CircuitData Fixed.closed 0 0)
             (circuit_breakers wf !! n) in
  let wf' := (Fixed.record_failure e cfg n wf).2 in
  let f := Router.failures (Router.entry (circuit_breakers wr) n) in
  let t := clock e (clock_reads wr) in
  let wr' := (Router.record_failure e n wr).2 in
  (Fixed.status c = Fixed.open ↔ thr ≤ Fixed.failures c)
  ∧ (∃ st', circuit_breakers wf' !! n
            = Some (Fixed.CircuitData st' (Fixed.failures c + 1)
                      (clock e (clock_reads wf)))
          ∧ (st' = Fixed.open ↔ thr ≤ Fixed.failures c + 1)
          ∧ (Fixed.status c ≠ Fixed.open ∧ st' = Fixed.open
             ↔ Fixed.failures c + 1 = thr))
  ∧ circuit_breakers wr' !! n = Some (Router.CbState (f + 1) t)
  ∧ (∀ now, (Router._is_circuit_breaker_open cfg n now wr').1 = true
            ↔ thr ≤ f + 1 ∧ now - t < recovery_timeout_of cfg)
  ∧ (∀ now, (Router._is_circuit_breaker_open cfg n now wr).1 = true
            → thr ≤ f).
Proof.
  intros Hreach Hthr thr c wf' f t wr'.
  assert (Fixed.status c = Fixed.open ↔ thr ≤ Fixed.failures c) as Hinv.
  { subst c. destruct (circuit_breakers wf !! n) as [c|] eqn:Hc; simpl.
    - destruct (fixed_reachable_open_iff e cfg wf Hreach n c Hc).
      split; auto.
    - split; [done|unfold thr; lia]. }
  split; [exact Hinv|]. split; [|split; [|split]].
  - subst wf'. rewrite fixed_record_failure_run. simpl.
    rewrite lookup_insert_eq. fold c. unfold Fixed.failed. fold thr.
    eexists. split; [reflexivity|].
    destruct (Z.geb_spec (Fixed.failures c + 1) thr) as [Hge|Hlt].
    + split; [split; [lia|done]|]. split.
      * intros [Hno _]. rewrite Hinv in Hno. lia.
      * intros Heq. split; [|done]. rewrite Hinv. lia.
    + assert (Fixed.status c ≠ Fixed.open) by (rewrite Hinv; lia).
      split; [split; [done|lia]|]. split; [tauto|lia].
  - subst wr'. rewrite router_record_failure_run. simpl.
    apply lookup_insert_eq.
  - intros now. subst wr'.
    rewrite router_record_failure_run, router_is_open_run. simpl.
    unfold Router.is_open, Router.entry. rewrite lookup_insert_eq. simpl.
    fold (Router.entry (circuit_breakers wr) n). fold f thr t.
    rewrite andb_true_iff, Z.geb_leb, Z.leb_le, Z.ltb_lt. done.
  - intros now. rewrite router_is_open_run. simpl.
    unfold Router.is_open. fold f thr.
    rewrite andb_true_iff, Z.geb_leb, Z.leb_le. tauto.
Qed.

(** An enabled, configured service is a candidate exactly when its breaker
    is not open at the time of the selection. *)
Lemma router_candidate_iff (e : env) (cfg : config) (s : service)
    (w : world Router.cb_state) :
  0 < failure_threshold_of cfg →
  s ∈ services_of cfg →
  is_enabled s = true →
  s ∈ (Router.get_available_services e cfg w).1
  ↔ Router.is_open cfg (clock e (clock_reads w)) (circuit_breakers w) (name s)
    = false.
Proof.
  intros Hthr Hin Hen. rewrite router_get_available_services_run by done.
  simpl. rewrite elem_of_sorted, list_elem_of_filter.
  unfold Router.kept. rewrite Hen. simpl.
  destruct (Router.is_open _ _ _ _); simpl; intuition (auto; congruence).
Qed.

Lemma fixed_candidate_iff (e : env) (cfg : config) (s : service)
    (w : world Fixed.circuit_data) :
  s ∈ services_of cfg →
  is_enabled s = true →
  s ∈ (Fixed.get_available_services e cfg w).1
  ↔ Fixed.is_open cfg (clock e (clock_reads w)) (circuit_breakers w) (name s)
    = false.
Proof.
  intros Hin Hen. rewrite fixed_get_available_services_run.
  simpl. rewrite elem_of_sorted, list_elem_of_filter.
  unfold Fixed.kept. rewrite Hen. simpl.
  destruct (Fixed.is_open _ _ _ _); simpl; intuition (auto; congruence).
Qed.

(** C5, as amended.  In [lambda_function_fixed.py], one success recorded on
    a half-open entry makes it closed with 0 failures.  One failure adds 1
    to its failures and sets the last failure time to now; the status
    becomes open only if the count has then reached [failure_threshold]
    (the service then stays out of the candidates for a whole recovery
    window from that time), and otherwise stays half-open, the service
    remaining a candidate.  In [lambda_function.py], the selection that
    lets an expired breaker in again has reset its entry; a success then
    leaves 0 failures, a failure leaves 1 failure, and the service stays a
    candidate unless the threshold is 1. *)
Theorem C5_half_open_outcomes (e : env) (cfg : config) (s : service) :
  s ∈ services_of cfg →
  is_enabled s = true →
  0 < failure_threshold_of cfg →
  let n := name s in
  let thr := failure_threshold_of cfg in
  let rec := recovery_timeout_of cfg in
  (∀ (f l : Z) (wf : world Fixed.circuit_data),
     circuit_breakers wf !! n
       = Some (Fixed.CircuitData Fixed.half_open f l) →
     let ws := (Fixed.record_success n wf).2 in
     let wx := (Fixed.record_failure e cfg n wf).2 in
     let t := clock e (clock_reads wf) in
     circuit_breakers ws !! n = Some (Fixed.CircuitData Fixed.closed 0 0)
     ∧ circuit_breakers wx !! n
       = Some (Fixed.CircuitData
                 (if f + 1 >=? thr then Fixed.open else Fixed.half_open)
                 (f + 1) t)
     ∧ (thr ≤ f + 1 →
        s ∈ (Fixed.get_available_services e cfg wx).1
        ↔ rec ≤ clock e (clock_reads wx) - t)
     ∧ (f + 1 < thr → s ∈ (Fixed.get_available_services e cfg wx).1))
  ∧
  (∀ (fr lr : Z) (wr : world Router.cb_state),
     circuit_breakers wr !! n = Some (Router.CbState fr lr) →
     thr ≤ fr →
     rec ≤ clock e (clock_reads wr) - lr →
     let w1 := (Router.get_available_services e cfg wr).2 in
     let t1 := clock e (clock_reads w1) in
     let w2 := (Router.record_failure e n w1).2 in
     s ∈ (Router.get_available_services e cfg wr).1
     ∧ circuit_breakers (Router.record_success n w1).2 !! n
       = Some (Router.CbState 0 0)
     ∧ circuit_breakers w2 !! n = Some (Router.CbState 1 t1)
     ∧ (s ∈ (Router.get_available_services e cfg w2).1
        ↔ 1 < thr ∨ rec ≤ clock e (clock_reads w2) - t1)).
Proof.
  intros Hin Hen Hthr n thr rec. split.
  - intros f l wf Hf ws wx t.
    assert (circuit_breakers wx !! n
            = Some (Fixed.CircuitData
                      (if f + 1 >=? thr then Fixed.open else Fixed.half_open)
                      (f + 1) t)) as Hwx.
    { subst wx. rewrite fixed_record_failure_run. simpl.
      rewrite lookup_insert_eq. subst n. rewrite Hf. done. }
    split; [|split; [|split]].
    + subst ws. rewrite fixed_record_success_run. simpl. subst n.
      rewrite Hf. simpl. apply lookup_insert_eq.
    + exact Hwx.
    + intros Hge. rewrite fixed_candidate_iff by done.
      unfold Fixed.is_open. fold n. rewrite Hwx. simpl.
      replace (f + 1 >=? thr) with true
        by (symmetry; rewrite Z.geb_leb; apply Z.leb_le; lia).
      simpl. fold rec. rewrite Z.ltb_ge. done.
    + intros Hlt. rewrite fixed_candidate_iff by done.
      unfold Fixed.is_open. fold n. rewrite Hwx. simpl.
      replace (f + 1 >=? thr) with false; [done|].
      symmetry. rewrite Z.geb_leb. apply Z.leb_gt. lia.
  - intros fr lr wr Hr Hfr Hexp w1 t1 w2.
    assert (circuit_breakers w1 !! n = Some (Router.CbState 0 0)) as Hw1.
    { subst w1. rewrite router_get_available_services_run by done. simpl.
      apply router_sweep_lookup_expired; [done| |by exists s].
      unfold Router.expired, Router.entry. fold n. rewrite Hr. simpl.
      apply andb_true_iff. split.
      - rewrite Z.geb_leb. apply Z.leb_le. lia.
      - apply negb_true_iff, Z.ltb_ge. lia. }
    assert (circuit_breakers w2 !! n = Some (Router.CbState 1 t1)) as Hw2.
    { subst w2. rewrite router_record_failure_run. simpl.
      unfold Router.entry. rewrite Hw1. simpl. apply lookup_insert_eq. }
    split; [|split; [|split]].
    + rewrite router_candidate_iff by done.
      unfold Router.is_open, Router.entry. fold n. rewrite Hr. simpl.
      apply andb_false_iff. right. apply Z.ltb_ge. lia.
    + rewrite router_record_success_run. simpl. rewrite Hw1. simpl.
      apply lookup_insert_eq.
    + exact Hw2.
    + rewrite router_candidate_iff by done.
      unfold Router.is_open, Router.entry. fold n. rewrite Hw2. simpl.
      fold thr rec.
      rewrite andb_false_iff, Z.geb_leb, Z.leb_gt, Z.ltb_ge. done.
Qed.

(** C7, as amended.  In [lambda_function.py], [record_success] sets the
    failures of an existing entry to 0 and keeps its last failure time; it
    creates no entry.  In [lambda_function_fixed.py], [record_success] on an
    entry that is closed (or open), or on a service without entry, changes
    nothing: the failures recorded while closed are kept.  In both, on a
    service without failures the call leaves the world as it is. *)
Theorem C7_record_success_when_closed (n : string)
    (wr : world Router.cb_state) (wf : world Fixed.circuit_data) :
  (∀ c, circuit_breakers wr !! n = Some c →
        circuit_breakers (Router.record_success n wr).2
        = <[n := Router.CbState 0 (Router.last_failure c)]>
            (circuit_breakers wr))
  ∧ (Router.failures (Router.entry (circuit_breakers wr) n) = 0 →
     Router.record_success n wr = (tt, wr))
  ∧ (∀ c, circuit_breakers wf !! n = Some c →
          Fixed.status c ≠ Fixed.half_open →
          Fixed.record_success n wf = (tt, wf))
  ∧ (circuit_breakers wf !! n = None →
     Fixed.record_success n wf = (tt, wf)).
Proof.
  split; [|split; [|split]].
  - intros c Hc. rewrite router_record_success_run. simpl. by rewrite Hc.
  - intros Hz. rewrite router_record_success_run.
    unfold Router.entry in Hz.
    destruct (circuit_breakers wr !! n) as [[f l]|] eqn:Hc; simpl in *.
    + subst f. rewrite insert_id by done. by rewrite world_eta.
    + by rewrite world_eta.
  - intros c Hc Hst. rewrite fixed_record_success_run, Hc.
    rewrite decide_False by done. by rewrite world_eta.
  - intros Hc. rewrite fixed_record_success_run, Hc. by rewrite world_eta.
Qed.

(** ** Forwarding in [lambda_function.py] *)

Section RouterForwarding.
Context (e : env).
Implicit Types (w : world Router.cb_state) (s : service)
  (req : Router.request).

Lemma router_health_check_run s w :
  Router.health_check_service e s w
  = (match transport e (net_log w) (Router.health_call s) with
     | Responded response => bool_decide (status_code response = 200)
     | Raised _ => false
     end,
     logged w (Router.health_call s)).
Proof.
  unfold Router.health_check_service. run_m.
  fold (Router.health_call s).
  by destruct (transport e (net_log w) (Router.health_call s)).
Qed.

Lemma router_forward_request_run s req w :
  Router.forward_request e s (Router.path req) (Router.http_method req)
    (Router.req_headers req) (Router.req_body req) (Router.files req) w
  = if bool_decide (Router.http_method req ∈ Router.supported_methods)
    then (Router.forward_result
            (transport e (net_log w) (Router.forward_call s req)),
          logged w (Router.forward_call s req))
    else ((405, ∅, list_byte_of_string "Method not allowed"), w).
Proof.
  unfold Router.forward_request, Router.forward_call,
    Router.supported_methods, logged.
  destruct req as [m pth hs bd fl]. simpl.
  assert (∀ c : net_call,
    (let* r := (let* r := requests_call e c in ret (Some r)) in
     match r with
     | None => ret (405, ∅, list_byte_of_string "Method not allowed")
     | Some (Responded response) =>
       ret (status_code response,
            filter (λ kv : string * string,
                      lower kv.1 ∉ Router.response_hop_headers)
              (resp_headers response),
            content response)
     | Some (Raised (ExcTimeout _)) =>
       ret (504, ∅, list_byte_of_string "Gateway timeout")
     | Some (Raised (ExcConnectionError _)) =>
       ret (503, ∅, list_byte_of_string "Service unavailable")
     | Some (Raised _) =>
       ret (500, ∅, list_byte_of_string "Internal server error")
     end) w
    = (Router.forward_result (transport e (net_log w) c),
       World (circuit_breakers w) (net_log w ++ [c]) (clock_reads w)))
    as Hcall.
  { intros c. run_m. unfold Router.forward_result.
    by destruct (transport e (net_log w) c) as [?|[]]. }
  destruct (decide (m = "GET"%string)) as [->|HG].
  { rewrite bool_decide_eq_true_2 by set_solver. apply Hcall. }
  destruct (decide (m = "POST"%string)) as [->|HP].
  { rewrite bool_decide_eq_true_2 by set_solver. simpl.
    destruct (Router.truthy_files fl); apply Hcall. }
  destruct (decide (m = "PUT"%string)) as [->|HU].
  { rewrite bool_decide_eq_true_2 by set_solver. apply Hcall. }
  destruct (decide (m = "DELETE"%string)) as [->|HD].
  { rewrite bool_decide_eq_true_2 by set_solver. apply Hcall. }
  rewrite bool_decide_eq_false_2; [done|].
  intros Hm. repeat (apply elem_of_cons in Hm as [?|Hm]; [done|]).
  by apply elem_of_nil in Hm.
Qed.
End RouterForwarding.

(** ** The failover loop of [lambda_function.py] *)

Section RouterLoop.
Context (e : env).
Implicit Types (w : world Router.cb_state) (s : service)
  (req : Router.request).

#[local] Opaque Router.record_failure Router.record_success
  Router.forward_request Router.health_check_service.

(** One iteration of the loop, by cases. *)
Lemma router_try_services_cons req s rest last_error w :
  Router.try_services e req (s :: rest) last_error w
  = let hc :=
      if bool_decide (Router.path req ∈ Router.critical_paths)
      then Router.health_check_service e s w else (true, w) in
    if negb hc.1 then
      Router.try_services e req rest last_error
        (Router.record_failure e (name s) hc.2).2
    else
      let fw := Router.forward e s req hc.2 in
      let '(status_code, response_headers, response_body) := fw.1 in
      if status_code <? 400 then
        (match Router.decode_body response_body with
         | None => Router.LoopRaise (UnicodeDecodeError response_body)
         | Some text =>
           Router.LoopReturn
             (Router.success_response status_code response_headers
                response_body text)
         end,
         (Router.record_success (name s) fw.2).2)
      else
        Router.try_services e req rest
          (Some (Router.failure_description s status_code))
          (Router.record_failure e (name s) fw.2).2.
Proof.
  unfold Router.forward, Router.failure_description. simpl.
  unfold Router.critical_paths.
  unfold bind at 1.
  destruct (decide (Router.path req ∈ ["/upload"; "/download"]))
    as [Hcrit|Hcrit].
  - rewrite bool_decide_eq_true_2 by done.
    unfold bind at 1.
    destruct (Router.health_check_service e s w) as [healthy w0].
    unfold ret at 1. destruct healthy; simpl.
    + unfold bind at 1.
      destruct (Router.forward_request e s _ _ _ _ _ w0)
        as [[[st hs] bd] w1]. simpl.
      destruct (st <? 400).
      * unfold bind at 1.
        destruct (Router.record_success (name s) w1) as [[] w2]. simpl.
        unfold Router.success_response, any. simpl.
        destruct (Router.decode_body bd); [|done].
        by match goal with
           | |- context [if ?b then _ else _] => destruct b
           end.
      * unfold bind at 1.
        by destruct (Router.record_failure e (name s) w1) as [[] w2].
    + unfold bind at 1.
      by destruct (Router.record_failure e (name s) w0) as [[] w2].
  - rewrite bool_decide_eq_false_2 by done.
    unfold ret at 1. simpl.
    unfold bind at 1.
    destruct (Router.forward_request e s _ _ _ _ _ w)
      as [[[st hs] bd] w1]. simpl.
    destruct (st <? 400).
    + unfold bind at 1.
      destruct (Router.record_success (name s) w1) as [[] w2]. simpl.
      unfold Router.success_response, any. simpl.
      destruct (Router.decode_body bd); [|done].
      by match goal with
         | |- context [if ?b then _ else _] => destruct b
         end.
    + unfold bind at 1.
      by destruct (Router.record_failure e (name s) w1) as [[] w2].
Qed.

#[local] Transparent Router.record_failure Router.record_success
  Router.forward_request Router.health_check_service.

Lemma router_forward_run s req w :
  Router.forward e s req w
  = if bool_decide (Router.http_method req ∈ Router.supported_methods)
    then (Router.forward_result
            (transport e (net_log w) (Router.forward_call s req)),
          logged w (Router.forward_call s req))
    else ((405, ∅, list_byte_of_string "Method not allowed"), w).
Proof. apply router_forward_request_run. Qed.

Lemma router_forward_breakers s req w :
  circuit_breakers (Router.forward e s req w).2 = circuit_breakers w
  ∧ clock_reads (Router.forward e s req w).2 = clock_reads w.
Proof. rewrite router_forward_run. by case_bool_decide. Qed.

Lemma router_success_response_status st hs bd txt :
  Router.statusCode (Router.success_response st hs bd txt) = st
  ∧ Router.headers (Router.success_response st hs bd txt) = hs.
Proof. unfold Router.success_response. by destruct (any _ _). Qed.

Lemma occurrences_cons n s cands :
  occurrences n (s :: cands)
  = (if decide (name s = n) then 1 else 0) + occurrences n cands.
Proof.
  unfold occurrences. rewrite filter_cons.
  case_decide; simpl List.length; lia.
Qed.

Lemma router_failures_after_record n m w :
  Router.failures
    (Router.entry (circuit_breakers (Router.record_failure e m w).2) n)
  = Router.failures (Router.entry (circuit_breakers w) n)
    + (if decide (m = n) then 1 else 0).
Proof.
  rewrite router_record_failure_run. simpl.
  rewrite router_entry_insert. case_decide; [subst m; simpl|]; lia.
Qed.

(** When the loop runs out of candidates, a failure has been recorded for
    each of them. *)
Lemma router_exhausted_failures req cands last_error w last_error' w' :
  Router.try_services e req cands last_error w
    = (Router.LoopExhausted last_error', w') →
  ∀ n, Router.failures (Router.entry (circuit_breakers w') n)
       = Router.failures (Router.entry (circuit_breakers w) n)
         + occurrences n cands.
Proof.
  revert last_error w.
  induction cands as [|s rest IH]; intros last_error w Hrun n.
  { simpl in Hrun. injection Hrun as _ <-. unfold occurrences. simpl. lia. }
  rewrite router_try_services_cons in Hrun. cbv zeta in Hrun.
  rewrite occurrences_cons.
  set (hc := if bool_decide (Router.path req ∈ Router.critical_paths)
             then Router.health_check_service e s w else (true, w)) in *.
  assert (circuit_breakers hc.2 = circuit_breakers w) as Hhc.
  { subst hc. case_bool_decide; [|done].
    by rewrite router_health_check_run. }
  destruct (negb hc.1).
  { rewrite (IH _ _ Hrun n), router_failures_after_record, Hhc. lia. }
  destruct (router_forward_breakers s req hc.2) as [Hfw _].
  destruct (Router.forward e s req hc.2) as [[[st hs] bd] w1].
  cbn [fst snd] in *.
  destruct (st <? 400); [by destruct (Router.decode_body bd)|].
  rewrite (IH _ _ Hrun n), router_failures_after_record, Hfw, Hhc. lia.
Qed.

(** A response returned from inside the loop has a status below 400. *)
Lemma router_loop_return_status req cands last_error w r w' :
  Router.try_services e req cands last_error w = (Router.LoopReturn r, w') →
  Router.statusCode r < 400.
Proof.
  revert last_error w.
  induction cands as [|s rest IH]; intros last_error w Hrun; [done|].
  rewrite router_try_services_cons in Hrun. cbv zeta in Hrun.
  destruct (negb _); [by eapply IH|].
  destruct (Router.forward e s req _) as [[[st hs] bd] w1].
  cbn [fst snd] in *. destruct (Z.ltb_spec st 400); [|by eapply IH].
  destruct (Router.decode_body bd); [|done].
  injection Hrun as <- _.
  by rewrite (proj1 (router_success_response_status _ _ _ _)).
Qed.
End RouterLoop.

Section RouterLog.
Context (e : env).
Implicit Types (w : world Router.cb_state) (s : service)
  (req : Router.request).

Lemma router_record_failure_log n w :
  net_log (Router.record_failure e n w).2 = net_log w.
Proof. by rewrite router_record_failure_run. Qed.

Lemma router_record_success_log n w :
  net_log (Router.record_success n w).2 = net_log w.
Proof. by rewrite router_record_success_run. Qed.

Lemma router_forward_log s req w :
  net_log (Router.forward e s req w).2
  = net_log w
    ++ (if bool_decide (Router.http_method req ∈ Router.supported_methods)
        then [Router.forward_call s req] else []).
Proof.
  rewrite router_forward_run. case_bool_decide; simpl; [done|].
  by rewrite app_nil_r.
Qed.

(** The loop only adds calls to the log. *)
Lemma router_try_services_log req cands last_error w :
  ∃ l, net_log (Router.try_services e req cands last_error w).2
       = net_log w ++ l.
Proof.
  revert last_error w.
  induction cands as [|s rest IH]; intros last_error w.
  { exists []. simpl. by rewrite app_nil_r. }
  rewrite router_try_services_cons. cbv zeta.
  set (hc := if bool_decide (Router.path req ∈ Router.critical_paths)
             then Router.health_check_service e s w else (true, w)).
  assert (∃ l, net_log hc.2 = net_log w ++ l) as [l0 Hl0].
  { subst hc. case_bool_decide.
    - rewrite router_health_check_run. by eexists.
    - exists []. simpl. by rewrite app_nil_r. }
  destruct (negb hc.1).
  { destruct (IH last_error (Router.record_failure e (name s) hc.2).2)
      as [l Hl].
    exists (l0 ++ l).
    by rewrite Hl, router_record_failure_log, Hl0, app_assoc. }
  pose proof (router_forward_log s req hc.2) as Hfw.
  destruct (Router.forward e s req hc.2) as [[[st hs] bd] w1].
  cbn [fst snd] in *. destruct (st <? 400).
  - eexists. cbn [snd].
    by rewrite router_record_success_log, Hfw, Hl0, <- app_assoc.
  - destruct (IH (Some (Router.failure_description s st))
                (Router.record_failure e (name s) w1).2) as [l Hl].
    eexists.
    by rewrite Hl, router_record_failure_log, Hfw, Hl0, <- !app_assoc.
Qed.

(** Outside the critical paths and with a supported method, a loop that
    runs out of candidates has called each of them once, in order. *)
Lemma router_exhausted_log req cands last_error w last_error' w' :
  Router.path req ∉ Router.critical_paths →
  Router.http_method req ∈ Router.supported_methods →
  Router.try_services e req cands last_error w
    = (Router.LoopExhausted last_error', w') →
  net_log w' = net_log w ++ map (λ s, Router.forward_call s req) cands.
Proof.
  intros Hpath Hmeth. revert last_error w.
  induction cands as [|s rest IH]; intros last_error w Hrun.
  { simpl in Hrun. injection Hrun as _ <-. simpl. by rewrite app_nil_r. }
  rewrite router_try_services_cons in Hrun. cbv zeta in Hrun.
  rewrite bool_decide_eq_false_2 in Hrun by done. cbn [fst snd negb] in Hrun.
  pose proof (router_forward_log s req w) as Hfw.
  rewrite bool_decide_eq_true_2 in Hfw by done.
  destruct (Router.forward e s req w) as [[[st hs] bd] w1].
  cbn [fst snd] in *.
  destruct (st <? 400); [by destruct (Router.decode_body bd)|].
  rewrite (IH _ _ Hrun), router_record_failure_log, Hfw.
  simpl. by rewrite <- app_assoc.
Qed.

(** Outside the critical paths, the description left by a loop that runs
    out of candidates is the one of its last candidate. *)
Lemma router_exhausted_last_error req pre s last_error w last_error' w' :
  Router.path req ∉ Router.critical_paths →
  Router.try_services e req (pre ++ [s]) last_error w
    = (Router.LoopExhausted last_error', w') →
  ∃ st, 400 ≤ st ∧ last_error' = Some (Router.failure_description s st).
Proof.
  intros Hpath. revert last_error w.
  induction pre as [|s0 pre IH]; intros last_error w Hrun;
    cbn [app] in Hrun;
    rewrite router_try_services_cons in Hrun; cbv zeta in Hrun;
    rewrite bool_decide_eq_false_2 in Hrun by done;
    cbn [fst snd negb] in Hrun;
    destruct (Router.forward e _ req w) as [[[st hs] bd] w1];
    cbn [fst snd] in *;
    (destruct (Z.ltb_spec st 400);
      [by destruct (Router.decode_body bd)|]).
  - simpl in Hrun. injection Hrun as <- _. by exists st.
  - by eapply IH.
Qed.

(** When no probe is answered with status 200, a request for a critical
    path is forwarded to no candidate, and one failure is recorded for
    each. *)
Lemma router_all_probes_fail req cands last_error w :
  Router.path req ∈ Router.critical_paths →
  (∀ log s r, transport e log (Router.health_call s) = Responded r →
              status_code r ≠ 200) →
  let run := Router.try_services e req cands last_error w in
  run.1 = Router.LoopExhausted last_error
  ∧ net_log run.2 = net_log w ++ map Router.health_call cands.
Proof.
  intros Hpath Hbad. revert w.
  induction cands as [|s rest IH]; intros w.
  { simpl. by rewrite app_nil_r. }
  cbv zeta. rewrite router_try_services_cons. cbv zeta.
  rewrite bool_decide_eq_true_2 by done.
  rewrite router_health_check_run. cbn [fst snd].
  assert (match transport e (net_log w) (Router.health_call s) with
          | Responded response => bool_decide (status_code response = 200)
          | Raised _ => false
          end = false) as ->.
  { destruct (transport e (net_log w) (Router.health_call s)) eqn:Ht;
      [|done].
    apply bool_decide_eq_false_2. by eapply Hbad. }
  cbn [negb]. destruct (IH (Router.record_failure e (name s)
                              (logged w (Router.health_call s))).2)
    as [H1 H2].
  split; [exact H1|].
  rewrite H2, router_record_failure_log. simpl. by rewrite <- app_assoc.
Qed.
End RouterLog.

(** ** Forwarding in [lambda_function_fixed.py] *)

Section FixedForwarding.
Context (e : env) (cfg : config).
Context (path method : string) (headers : gmap string string)
  (body : option (list byte)) (query_params : option (gmap string string)).
Implicit Types (w : world Fixed.circuit_data) (s : service).

Abbreviation fixed_call :=
  (Fixed.service_call cfg path method headers body query_params).

Lemma fixed_dispatch_run s :
  Fixed.dispatch e method (url s ++ path) headers body query_params
    (Fixed.timeout_of cfg s)
  = if bool_decide (upper method ∈ Fixed.supported_methods)
    then Some (requests_call e (fixed_call s)) else None.
Proof.
  unfold Fixed.dispatch, Fixed.service_call, Fixed.call_of,
    Fixed.supported_methods.
  destruct (decide (upper method = "GET"%string)) as [HG|HG].
  { rewrite bool_decide_eq_true_2 by (rewrite HG; set_solver).
    by rewrite HG. }
  destruct (decide (upper method = "POST"%string)) as [HP|HP].
  { rewrite bool_decide_eq_true_2 by (rewrite HP; set_solver).
    by rewrite HP. }
  destruct (decide (upper method = "PUT"%string)) as [HU|HU].
  { rewrite bool_decide_eq_true_2 by (rewrite HU; set_solver).
    by rewrite HU. }
  destruct (decide (upper method = "DELETE"%string)) as [HD|HD].
  { rewrite bool_decide_eq_true_2 by (rewrite HD; set_solver).
    by rewrite HD. }
  rewrite bool_decide_eq_false_2; [done|].
  intros Hm. repeat (apply elem_of_cons in Hm as [?|Hm]; [done|]).
  by apply elem_of_nil in Hm.
Qed.

#[local] Opaque Fixed.record_failure Fixed.record_success
  Fixed.get_available_services Fixed.dispatch.

(** The fallback block, by cases, for a supported method. *)
Lemma fixed_try_next_run first more response w :
  upper method ∈ Fixed.supported_methods →
  Fixed.try_next e cfg path method headers body query_params
    (first :: more) (name first) response w
  = match filter (λ s, name s ≠ name first) more with
    | [] => (inr response, w)
    | next :: _ =>
      match transport e (net_log w) (fixed_call next) with
      | Responded response' =>
        if Fixed.is_success response' then
          (inl (Fixed.success_result response'),
           (Fixed.record_success (name next)
              (logged w (fixed_call next))).2)
        else
          (inr response',
           (Fixed.record_failure e cfg (name next)
              (logged w (fixed_call next))).2)
      | Raised _ =>
        (inr response,
         (Fixed.record_failure e cfg (name next)
            (logged w (fixed_call next))).2)
      end
    end.
Proof.
  intros Hm. unfold Fixed.try_next.
  rewrite filter_cons_False by (intros H; by apply H).
  destruct (filter (λ s, name s ≠ name first) more)
    as [|next rest] eqn:Hrem.
  { by destruct (1 <? List.length (first :: more))%nat. }
  assert ((1 <? List.length (first :: more))%nat = true) as ->.
  { apply Nat.ltb_lt. destruct more; simpl; [|lia].
    by rewrite filter_nil in Hrem. }
  rewrite fixed_dispatch_run, bool_decide_eq_true_2 by done.
  unfold bind at 1, requests_call at 1. fold (logged w (fixed_call next)).
  destruct (transport e (net_log w) (fixed_call next)) as [response'|ex].
  - unfold Fixed.success_result. destruct (Fixed.is_success response').
    + unfold bind, ret.
      by destruct (Fixed.record_success (name next) _) as [[] ?].
    + unfold bind, ret.
      by destruct (Fixed.record_failure e cfg (name next) _) as [[] ?].
  - unfold bind, ret.
    by destruct (Fixed.record_failure e cfg (name next) _) as [[] ?].
Qed.

(** [forward_request], by cases. *)
Lemma fixed_forward_request_run w :
  Fixed.forward_request e cfg path method headers body query_params w
  = let sel := Fixed.get_available_services e cfg w in
    match sel.1 with
    | [] =>
      ((503, ∅, Fixed.unavailable_body (clock e (clock_reads sel.2))),
       ticked sel.2)
    | first :: more =>
      if bool_decide (upper method ∈ Fixed.supported_methods) then
        let w1 := logged sel.2 (fixed_call first) in
        match transport e (net_log sel.2) (fixed_call first) with
        | Responded response =>
          if Fixed.is_success response then
            (Fixed.success_result response,
             (Fixed.record_success (name first) w1).2)
          else
            let w2 := (Fixed.record_failure e cfg (name first) w1).2 in
            let next :=
              Fixed.try_next e cfg path method headers body query_params
                (first :: more) (name first) response w2 in
            match next.1 with
            | inl result => (result, next.2)
            | inr response' =>
              Fixed.all_failed e
                (Fixed.failure_description (name first) response') next.2
            end
        | Raised ex =>
          Fixed.all_failed e
            ("Service " ++ name first ++ " error: " ++ exn_str ex)
            (Fixed.record_failure e cfg (name first) w1).2
        end
      else ((400, ∅, Fixed.bad_request_body method), sel.2)
    end.
Proof.
  unfold Fixed.forward_request. cbv zeta. unfold bind at 1.
  destruct (Fixed.get_available_services e cfg w) as [[|first more] w0];
    cbn [fst snd]; [done|].
  assert (∀ b : bool, (if b then first else first) = first) as ->
    by (by intros []).
  rewrite fixed_dispatch_run. case_bool_decide; [|done].
  unfold bind at 1, requests_call at 1.
  fold (logged w0 (fixed_call first)).
  destruct (transport e (net_log w0) (fixed_call first)) as [response|ex].
  - destruct (Fixed.is_success response).
    + unfold bind, ret.
      by destruct (Fixed.record_success (name first) _) as [[] ?].
    + unfold bind at 1.
      destruct (Fixed.record_failure e cfg (name first) _) as [[] w2].
      cbn [snd]. unfold bind at 1.
      destruct (Fixed.try_next _ _ _ _ _ _ _ _ _ _ w2) as [[res|resp'] w3];
        [done|].
      done.
  - unfold bind at 1.
    by destruct (Fixed.record_failure e cfg (name first) _) as [[] w2].
Qed.

#[local] Transparent Fixed.record_failure Fixed.record_success
  Fixed.get_available_services Fixed.dispatch.
End FixedForwarding.

(** ** No candidate *)

Lemma router_available_loop_disabled (cfg : config) (now : Z)
    (services available : list service) (w : world Router.cb_state) :
  Forall (λ s, enabled s = Some false) services →
  Router.available_loop cfg now services available w = (available, w).
Proof.
  induction 1 as [|s rest Hs _ IH]; [done|].
  simpl. unfold is_enabled. by rewrite Hs.
Qed.

Lemma fixed_available_loop_disabled (cfg : config) (now : Z)
    (services available : list service) (w : world Fixed.circuit_data) :
  Forall (λ s, enabled s = Some false) services →
  Fixed.available_loop cfg now services available w = (available, w).
Proof.
  induction 1 as [|s rest Hs _ IH]; [done|].
  simpl. unfold is_enabled. by rewrite Hs.
Qed.

(** With every service disabled there is no candidate. *)
Lemma no_enabled_no_candidate (e : env) (cfg : config)
    (wr : world Router.cb_state) (wf : world Fixed.circuit_data) :
  Forall (λ s, enabled s = Some false) (services_of cfg) →
  (Router.get_available_services e cfg wr).1 = []
  ∧ (Fixed.get_available_services e cfg wf).1 = [].
Proof.
  intros Hall.
  unfold Router.get_available_services, Fixed.get_available_services.
  unfold bind, time_time, ret. simpl.
  by rewrite router_available_loop_disabled, fixed_available_loop_disabled.
Qed.

Lemma router_available_loop_log (cfg : config) (now : Z)
    (services available : list service) (w : world Router.cb_state) :
  net_log (Router.available_loop cfg now services available w).2 = net_log w
  ∧ clock_reads (Router.available_loop cfg now services available w).2
    = clock_reads w.
Proof.
  revert available w. induction services as [|s rest IH]; intros available w;
    [done|].
  simpl. destruct (negb (is_enabled s)); [apply IH|].
  unfold bind. rewrite router_is_open_run.
  destruct (Router.is_open _ _ _ _);
    destruct (IH available
                (World (if Router.expired cfg now (circuit_breakers w) (name s)
                        then <[name s := Router.CbState 0 0]>
                               (circuit_breakers w)
                        else circuit_breakers w) (net_log w) (clock_reads w)));
    destruct (IH (available ++ [s])
                (World (if Router.expired cfg now (circuit_breakers w) (name s)
                        then <[name s := Router.CbState 0 0]>
                               (circuit_breakers w)
                        else circuit_breakers w) (net_log w) (clock_reads w)));
    done.
Qed.

Lemma router_get_available_services_log (e : env) (cfg : config)
    (w : world Router.cb_state) :
  net_log (Router.get_available_services e cfg w).2 = net_log w
  ∧ clock_reads (Router.get_available_services e cfg w).2
    = S (clock_reads w).
Proof.
  unfold Router.get_available_services, bind, time_time, ret. simpl.
  destruct (router_available_loop_log cfg (clock e (clock_reads w))
              (services_of cfg) []
              (World (circuit_breakers w) (net_log w) (S (clock_reads w))))
    as [Hlog Hreads].
  by destruct (Router.available_loop _ _ _ _ _).
Qed.

(** [route], by cases. *)
Lemma router_route_run (e : env) (cfg : config) (req : Router.request)
    (w : world Router.cb_state) :
  Router.route e cfg req w
  = let sel := Router.get_available_services e cfg w in
    match sel.1 with
    | [] =>
      (Router.unavailable_response (clock e (clock_reads sel.2)), ticked sel.2)
    | _ =>
      let lp := Router.try_services e req sel.1 None sel.2 in
      match lp.1 with
      | Router.LoopReturn response => (response, lp.2)
      | Router.LoopRaise ex => Router.internal_error e ex lp.2
      | Router.LoopExhausted last_error =>
        (Router.all_failed_response last_error (clock e (clock_reads lp.2)),
         ticked lp.2)
      end
    end.
Proof.
  unfold Router.route. cbv zeta. unfold bind at 1.
  destruct (Router.get_available_services e cfg w) as [[|s cands] w0];
    cbn [fst snd]; [done|].
  unfold bind at 1.
  by destruct (Router.try_services e req (s :: cands) None w0) as [[] w1].
Qed.

(** C8. When the candidate list is empty, [route] (the engine of
    [lambda_handler] in [lambda_function.py], [forward_request] in
    [lambda_function_fixed.py]) answers with status 503 and a body whose
    ["error"] is ["Service not reachable at this moment"], and the log of
    network calls is as it was: no call has been made. *)
Theorem C8_no_candidate_503_without_call (e : env) (cfg : config) :
  (∀ (req : Router.request) (wr : world Router.cb_state),
     (Router.get_available_services e cfg wr).1 = [] →
     let rr := Router.route e cfg req wr in
     Router.statusCode rr.1 = 503
     ∧ (∃ d, Router.body rr.1 = BodyJson d
             ∧ d !! 0%nat
               = Some ("error", JStr "Service not reachable at this moment"))
     ∧ net_log rr.2 = net_log wr)
  ∧
  (∀ (path method : string) (headers : gmap string string)
     (body : option (list byte)) (query_params : option (gmap string string))
     (wf : world Fixed.circuit_data),
     (Fixed.get_available_services e cfg wf).1 = [] →
     let rf :=
       Fixed.forward_request e cfg path method headers body query_params wf in
     rf.1.1.1 = 503
     ∧ (∃ d, rf.1.2 = BodyJson d
             ∧ d !! 0%nat
               = Some ("error", JStr "Service not reachable at this moment"))
     ∧ net_log rf.2 = net_log wf).
Proof.
  split.
  - intros req wr Hr rr. subst rr. rewrite router_route_run. cbv zeta.
    rewrite Hr.
    destruct (router_get_available_services_log e cfg wr) as [Hlog _].
    simpl. split; [done|]. split; [|done]. by eexists.
  - intros path method headers body query_params wf Hf rf. subst rf.
    rewrite fixed_forward_request_run. cbv zeta. rewrite Hf.
    rewrite fixed_get_available_services_run. simpl.
    split; [done|]. split; [|done]. by eexists.
Qed.

(** ** Health probes on the critical paths *)

(** C10. In [lambda_function.py], for a request whose path is ["/upload"]
    or ["/download"], the first call the loop makes for a candidate is the
    probe [GET url/health] with a timeout of 5.  When the probe is not
    answered with status 200 (another status, or an exception), one failure
    is recorded for the candidate and the loop goes on with the remaining
    candidates from a log that holds the probe only: the request is not
    forwarded to that candidate.  When no probe succeeds, the whole loop
    forwards nothing and records one failure for each candidate. *)
Theorem C10_health_probe_gates_forwarding
    (e : env) (req : Router.request) (s : service) (rest : list service)
    (last_error : option string) (w : world Router.cb_state) :
  Router.path req = "/upload"%string ∨ Router.path req = "/download"%string →
  let probe := Router.health_call s in
  let run := Router.try_services e req (s :: rest) last_error w in
  let w1 := (Router.record_failure e (name s) (logged w probe)).2 in
  (nc_method probe = "GET"%string
   ∧ nc_url probe = (url s ++ "/health")%string
   ∧ nc_timeout probe = 5)
  ∧ (∃ l, net_log run.2 = net_log w ++ probe :: l)
  ∧ ((∀ r, transport e (net_log w) probe = Responded r →
           status_code r ≠ 200) →
     run = Router.try_services e req rest last_error w1
     ∧ net_log w1 = net_log w ++ [probe]
     ∧ Router.failures (Router.entry (circuit_breakers w1) (name s))
       = Router.failures (Router.entry (circuit_breakers w) (name s)) + 1)
  ∧ ((∀ log s' r, transport e log (Router.health_call s') = Responded r →
                  status_code r ≠ 200) →
     run.1 = Router.LoopExhausted last_error
     ∧ net_log run.2 = net_log w ++ map Router.health_call (s :: rest)
     ∧ ∀ n, Router.failures (Router.entry (circuit_breakers run.2) n)
            = Router.failures (Router.entry (circuit_breakers w) n)
              + occurrences n (s :: rest)).
Proof.
  intros Hpath probe run w1.
  assert (Router.path req ∈ Router.critical_paths) as Hcrit.
  { unfold Router.critical_paths. destruct Hpath as [-> | ->]; set_solver. }
  split; [done|]. split; [|split].
  - subst run. rewrite router_try_services_cons. cbv zeta.
    rewrite bool_decide_eq_true_2 by done.
    rewrite router_health_check_run. cbn [fst snd]. fold probe.
    destruct (negb _).
    + destruct (router_try_services_log e req rest last_error
                  (Router.record_failure e (name s) (logged w probe)).2)
        as [l Hl].
      exists l. rewrite Hl, router_record_failure_log. simpl.
      by rewrite <- app_assoc.
    + pose proof (router_forward_log e s req (logged w probe)) as Hfw.
      destruct (Router.forward e s req (logged w probe))
        as [[[st hs] bd] w2].
      cbn [fst snd] in *. destruct (st <? 400).
      * eexists. cbn [snd]. rewrite router_record_success_log, Hfw. simpl.
        by rewrite <- app_assoc.
      * destruct (router_try_services_log e req rest
                    (Some (Router.failure_description s st))
                    (Router.record_failure e (name s) w2).2) as [l Hl].
        eexists. rewrite Hl, router_record_failure_log, Hfw. simpl.
        by rewrite <- !app_assoc.
  - intros Hbad. split; [|split].
    + subst run. rewrite router_try_services_cons. cbv zeta.
      rewrite bool_decide_eq_true_2 by done.
      rewrite router_health_check_run. cbn [fst snd]. fold probe.
      destruct (transport e (net_log w) probe) as [r|ex] eqn:Ht; [|done].
      by rewrite bool_decide_eq_false_2 by (by apply Hbad).
    + subst w1. by rewrite router_record_failure_log.
    + subst w1. rewrite router_failures_after_record. simpl.
      by rewrite decide_True.
  - intros Hbad.
    destruct (router_all_probes_fail e req (s :: rest) last_error w
                Hcrit Hbad) as [Hexit Hlog].
    split; [exact Hexit|]. split; [exact Hlog|].
    apply (router_exhausted_failures e req (s :: rest) last_error w
             last_error).
    rewrite <- Hexit. apply surjective_pairing.
Qed.

(** ** Success ends the attempt *)

Lemma router_candidate_success (e : env) (req : Router.request)
    (s : service) (rest : list service) (last_error : option string)
    (w : world Router.cb_state) (resp : http_response) :
  let hc :=
    if bool_decide (Router.path req ∈ Router.critical_paths)
    then Router.health_check_service e s w else (true, w) in
  let call := Router.forward_call s req in
  let hs :=
    filter (λ kv : string * string, lower kv.1 ∉ Router.response_hop_headers)
      (resp_headers resp) in
  hc.1 = true →
  Router.http_method req ∈ Router.supported_methods →
  transport e (net_log hc.2) call = Responded resp →
  status_code resp < 400 →
  Router.try_services e req (s :: rest) last_error w
  = (match Router.decode_body (content resp) with
     | Some txt =>
       Router.LoopReturn
         (Router.success_response (status_code resp) hs (content resp) txt)
     | None => Router.LoopRaise (UnicodeDecodeError (content resp))
     end,
     (Router.record_success (name s) (logged hc.2 call)).2).
Proof.
  intros hc call hs Hhc Hm Ht Hst.
  rewrite router_try_services_cons. cbv zeta. fold hc. rewrite Hhc.
  cbn [negb]. rewrite router_forward_run, bool_decide_eq_true_2 by done.
  fold call. rewrite Ht. cbn [fst snd Router.forward_result].
  by replace (status_code resp <? 400) with true
    by (symmetry; apply Z.ltb_lt; lia).
Qed.

(** C1, as amended.  In [lambda_function.py], when the backend answers a
    forwarded request with a status in [200, 400) (any status below 400),
    the loop calls [record_success] for that backend and stops: no further
    call is made; if the body is empty or decodes as UTF-8, the response
    returned has the backend's status, its headers (less [Connection] and
    [Transfer-Encoding]) and its body (as text, or base64 for a binary
    content type), and [route] returns it.  In
    [lambda_function_fixed.py], success is a status in [200, 300): the
    first candidate, or the fallback candidate, answering with such a
    status has [record_success] called and its response returned with no
    further call. *)
Theorem C1_success_recorded_and_returned (e : env) (cfg : config) :
  (∀ (req : Router.request) (s : service) (rest : list service)
     (last_error : option string) (wr : world Router.cb_state)
     (resp : http_response),
     let hc :=
       if bool_decide (Router.path req ∈ Router.critical_paths)
       then Router.health_check_service e s wr else (true, wr) in
     let call := Router.forward_call s req in
     hc.1 = true →
     Router.http_method req ∈ Router.supported_methods →
     transport e (net_log hc.2) call = Responded resp →
     200 ≤ status_code resp < 400 →
     let run := Router.try_services e req (s :: rest) last_error wr in
     run.2 = (Router.record_success (name s) (logged hc.2 call)).2
     ∧ net_log run.2 = net_log hc.2 ++ [call]
     ∧ (∀ txt, Router.decode_body (content resp) = Some txt →
          ∃ r, run.1 = Router.LoopReturn r
               ∧ Router.statusCode r = status_code resp
               ∧ Router.headers r
                 = filter (λ kv : string * string,
                             lower kv.1 ∉ Router.response_hop_headers)
                     (resp_headers resp)
               ∧ (Router.body r = BodyStr txt
                  ∨ Router.body r = BodyStr (b64encode (content resp))))
     ∧ (∀ w r, (Router.get_available_services e cfg w).1 = s :: rest →
               (Router.get_available_services e cfg w).2 = wr →
               last_error = None →
               run.1 = Router.LoopReturn r →
               Router.route e cfg req w = (r, run.2)))
  ∧
  (∀ (path method : string) (headers : gmap string string)
     (body : option (list byte)) (query_params : option (gmap string string))
     (wf : world Fixed.circuit_data) (first : service) (more : list service)
     (respf : http_response),
     let sel := Fixed.get_available_services e cfg wf in
     let callf :=
       Fixed.service_call cfg path method headers body query_params in
     sel.1 = first :: more →
     upper method ∈ Fixed.supported_methods →
     transport e (net_log sel.2) (callf first) = Responded respf →
     let rf :=
       Fixed.forward_request e cfg path method headers body query_params wf in
     let w1 := (Fixed.record_failure e cfg (name first)
                  (logged sel.2 (callf first))).2 in
     (200 ≤ status_code respf < 300 →
      rf = (Fixed.success_result respf,
            (Fixed.record_success (name first)
               (logged sel.2 (callf first))).2)
      ∧ net_log rf.2 = net_log sel.2 ++ [callf first])
     ∧ (∀ next others respn,
          ¬ (200 ≤ status_code respf < 300) →
          filter (λ s, name s ≠ name first) more = next :: others →
          transport e (net_log w1) (callf next) = Responded respn →
          200 ≤ status_code respn < 300 →
          rf = (Fixed.success_result respn,
                (Fixed.record_success (name next)
                   (logged w1 (callf next))).2)
          ∧ net_log rf.2 = net_log sel.2 ++ [callf first; callf next])).
Proof.
  assert (∀ r, Fixed.is_success r = true ↔ 200 ≤ status_code r < 300)
    as Hsucc.
  { intros r. unfold Fixed.is_success.
    rewrite andb_true_iff, Z.leb_le, Z.ltb_lt. done. }
  split.
  - intros req s rest last_error wr resp hc call Hhc Hm Ht Hst run.
    assert (run = (match Router.decode_body (content resp) with
                   | Some txt =>
                     Router.LoopReturn
                       (Router.success_response (status_code resp)
                          (filter (λ kv : string * string,
                                     lower kv.1 ∉ Router.response_hop_headers)
                             (resp_headers resp)) (content resp) txt)
                   | None => Router.LoopRaise
                               (UnicodeDecodeError (content resp))
                   end,
                   (Router.record_success (name s) (logged hc.2 call)).2))
      as Hrun.
    { subst run. apply router_candidate_success; try done. lia. }
    split; [by rewrite Hrun|]. split; [|split].
    + rewrite Hrun. cbn [snd]. by rewrite router_record_success_log.
    + intros txt Htxt. rewrite Hrun, Htxt. cbn [fst]. eexists.
      split; [done|].
      destruct (router_success_response_status (status_code resp)
                  (filter (λ kv : string * string,
                             lower kv.1 ∉ Router.response_hop_headers)
                     (resp_headers resp)) (content resp) txt) as [-> ->].
      split; [done|]. split; [done|].
      unfold Router.success_response. destruct (any _ _); simpl; auto.
    + intros w r Hc Hw -> Hr. rewrite router_route_run. cbv zeta.
      rewrite Hc, Hw. fold run. by rewrite Hr.
  - intros path method headers body query_params wf first more respf
      sel callf Hsel Hmf Htf rf w1. split.
    + intros Hok. apply Hsucc in Hok.
      assert (rf = (Fixed.success_result respf,
                    (Fixed.record_success (name first)
                       (logged sel.2 (callf first))).2)) as Hrf.
      { subst rf. rewrite fixed_forward_request_run. cbv zeta. fold sel.
        rewrite Hsel, bool_decide_eq_true_2 by done.
        fold callf. by rewrite Htf, Hok. }
      split; [done|]. rewrite Hrf. cbn [snd].
      by rewrite fixed_record_success_run.
    + intros next others respn Hbad Hrem Htn Hokn.
      apply Hsucc in Hokn.
      assert (Fixed.is_success respf = false) as Hbad'.
      { apply not_true_is_false. by rewrite Hsucc. }
      assert (rf = (Fixed.success_result respn,
                    (Fixed.record_success (name next)
                       (logged w1 (callf next))).2)) as Hrf.
      { subst rf. rewrite fixed_forward_request_run. cbv zeta. fold sel.
        rewrite Hsel, bool_decide_eq_true_2 by done.
        fold callf. rewrite Htf, Hbad'. fold w1.
        rewrite fixed_try_next_run by done. rewrite Hrem.
        fold callf. by rewrite Htn, Hokn. }
      split; [done|]. rewrite Hrf. cbn [snd].
      rewrite fixed_record_success_run. unfold logged at 1.
      cbn [snd net_log]. subst w1.
      rewrite fixed_record_failure_run. simpl. by rewrite <- app_assoc.
Qed.

(** ** Failure and failover *)

Lemma router_forward_result_failed (answer : net_result) :
  match answer with
  | Responded r => 400 ≤ status_code r
  | Raised _ => True
  end →
  400 ≤ (Router.forward_result answer).1.1.
Proof. destruct answer as [r|[]]; simpl; lia. Qed.

Lemma router_candidate_failure (e : env) (req : Router.request)
    (s : service) (rest : list service) (last_error : option string)
    (w : world Router.cb_state) :
  let hc :=
    if bool_decide (Router.path req ∈ Router.critical_paths)
    then Router.health_check_service e s w else (true, w) in
  let call := Router.forward_call s req in
  let st := (Router.forward_result (transport e (net_log hc.2) call)).1.1 in
  hc.1 = true →
  Router.http_method req ∈ Router.supported_methods →
  400 ≤ st →
  Router.try_services e req (s :: rest) last_error w
  = Router.try_services e req rest
      (Some (Router.failure_description s st))
      (Router.record_failure e (name s) (logged hc.2 call)).2.
Proof.
  intros hc call st Hhc Hm Hst.
  rewrite router_try_services_cons. cbv zeta. fold hc. rewrite Hhc.
  cbn [negb]. rewrite router_forward_run, bool_decide_eq_true_2 by done.
  fold call. cbn [fst snd]. subst st.
  destruct (Router.forward_result (transport e (net_log hc.2) call))
    as [[st hs] bd].
  cbn [fst] in *.
  by replace (st <? 400) with false by (symmetry; apply Z.ltb_ge; lia).
Qed.

(** A 503 from [route] with candidates: the loop has run out of them. *)
Lemma router_route_503 (e : env) (cfg : config) (req : Router.request)
    (w : world Router.cb_state) :
  let sel := Router.get_available_services e cfg w in
  let rr := Router.route e cfg req w in
  sel.1 ≠ [] →
  Router.statusCode rr.1 = 503 →
  ∃ last_error w1,
    Router.try_services e req sel.1 None sel.2
      = (Router.LoopExhausted last_error, w1)
    ∧ rr = (Router.all_failed_response last_error (clock e (clock_reads w1)),
            ticked w1).
Proof.
  intros sel rr Hne Hst. subst rr. rewrite router_route_run in *.
  cbv zeta in *. fold sel in Hst |- *.
  destruct sel.1 as [|s cands] eqn:Hsel; [done|].
  destruct (Router.try_services e req (s :: cands) None sel.2)
    as [[r|ex|le] w1] eqn:Hlp; cbn [fst snd] in *.
  - apply router_loop_return_status in Hlp. lia.
  - done.
  - by exists le, w1.
Qed.

(** In [lambda_function_fixed.py], [record_failure] on another name leaves
    an entry as it is. *)
Lemma fixed_record_lookup_ne (e : env) (cfg : config) (n m : string)
    (w : world Fixed.circuit_data) :
  n ≠ m →
  circuit_breakers (Fixed.record_failure e cfg n w).2 !! m
    = circuit_breakers w !! m
  ∧ circuit_breakers (Fixed.record_success n w).2 !! m
    = circuit_breakers w !! m.
Proof.
  intros Hne. rewrite fixed_record_failure_run, fixed_record_success_run.
  simpl. rewrite lookup_insert_ne by done. split; [done|].
  destruct (circuit_breakers w !! n) as [c|]; [|done].
  case_decide; [|done]. by rewrite lookup_insert_ne.
Qed.

Section FixedFailover.
Context (e : env) (cfg : config).
Context (path method : string) (headers : gmap string string)
  (body : option (list byte)) (query_params : option (gmap string string)).

Abbreviation callf :=
  (Fixed.service_call cfg path method headers body query_params).

(** The first candidate answers with a status outside [200, 300): a
    failure is recorded for it, at most one other candidate is called (the
    first one of another name), and unless that one succeeds the result is
    the 503 with a last error and a timestamp. *)
Lemma fixed_first_failure (w : world Fixed.circuit_data)
    (first : service) (more : list service) (respf : http_response) :
  let sel := Fixed.get_available_services e cfg w in
  let rf :=
    Fixed.forward_request e cfg path method headers body query_params w in
  let w1 := (Fixed.record_failure e cfg (name first)
               (logged sel.2 (callf first))).2 in
  sel.1 = first :: more →
  upper method ∈ Fixed.supported_methods →
  transport e (net_log sel.2) (callf first) = Responded respf →
  Fixed.is_success respf = false →
  circuit_breakers rf.2 !! name first
    = Some (Fixed.failed cfg (clock e (clock_reads sel.2))
              (default (Fixed.CircuitData Fixed.closed 0 0)
                 (circuit_breakers sel.2 !! name first)))
  ∧ net_log rf.2
    = net_log sel.2
      ++ callf first
         :: match filter (λ s, name s ≠ name first) more with
            | next :: _ => [callf next]
            | [] => []
            end
  ∧ (rf.1.1.1 = 503 →
     (∃ last_error t, rf.1 = (503, ∅, Fixed.all_failed_body last_error t))
     ∧ match filter (λ s, name s ≠ name first) more with
       | next :: _ =>
         circuit_breakers rf.2 !! name next
         = Some (Fixed.failed cfg (clock e (clock_reads w1))
                   (default (Fixed.CircuitData Fixed.closed 0 0)
                      (circuit_breakers w1 !! name next)))
       | [] =>
         rf.1 = (503, ∅,
                 Fixed.all_failed_body
                   (Fixed.failure_description (name first) respf)
                   (clock e (clock_reads w1)))
       end).
Proof.
  intros sel rf w1 Hsel Hm Ht Hbad.
  assert (circuit_breakers w1 !! name first
          = Some (Fixed.failed cfg (clock e (clock_reads sel.2))
                    (default (Fixed.CircuitData Fixed.closed 0 0)
                       (circuit_breakers sel.2 !! name first)))) as Hw1.
  { subst w1. rewrite fixed_record_failure_run. simpl.
    apply lookup_insert_eq. }
  assert (net_log w1 = net_log sel.2 ++ [callf first]) as Hlog1.
  { subst w1. by rewrite fixed_record_failure_run. }
  subst rf. rewrite fixed_forward_request_run. cbv zeta. fold sel.
  rewrite Hsel, bool_decide_eq_true_2 by done.
  rewrite Ht, Hbad. fold w1.
  rewrite fixed_try_next_run by done.
  destruct (filter (λ s, name s ≠ name first) more) as [|next others]
    eqn:Hrem.
  { cbn [fst snd]. unfold Fixed.all_failed. cbn [fst snd].
    unfold ticked at 1 2. cbn [circuit_breakers net_log].
    split; [done|]. split; [by rewrite Hlog1|]. intros _.
    split; [by eexists _, _|done]. }
  assert (name next ≠ name first) as Hne.
  { assert (next ∈ filter (λ s, name s ≠ name first) more) as Hin
      by (rewrite Hrem; left).
    by apply list_elem_of_filter in Hin as [? _]. }
  assert (net_log (logged w1 (callf next))
          = net_log sel.2 ++ [callf first; callf next]) as Hlog2.
  { unfold logged. cbn [net_log]. by rewrite Hlog1, <- app_assoc. }
  destruct (fixed_record_lookup_ne e cfg (name next) (name first)
              (logged w1 (callf next)) Hne) as [Hkf Hks].
  assert (circuit_breakers
            (Fixed.record_failure e cfg (name next)
               (logged w1 (callf next))).2 !! name next
          = Some (Fixed.failed cfg (clock e (clock_reads w1))
                    (default (Fixed.CircuitData Fixed.closed 0 0)
                       (circuit_breakers w1 !! name next)))) as Hnext.
  { rewrite fixed_record_failure_run. simpl. apply lookup_insert_eq. }
  assert (net_log (Fixed.record_failure e cfg (name next)
                     (logged w1 (callf next))).2
          = net_log sel.2 ++ [callf first; callf next]) as Hlog3.
  { rewrite fixed_record_failure_run. exact Hlog2. }
  destruct (transport e (net_log w1) (callf next)) as [respn|ex].
  - destruct (Fixed.is_success respn) eqn:Hok; cbn [fst snd].
    + rewrite Hks. split; [exact Hw1|].
      split; [by rewrite fixed_record_success_run|].
      unfold Fixed.success_result. cbn [fst]. intros H503.
      unfold Fixed.is_success in Hok. rewrite H503 in Hok. done.
    + unfold Fixed.all_failed. cbn [fst snd].
      unfold ticked at 1 2 3. cbn [circuit_breakers net_log].
      rewrite Hkf. split; [exact Hw1|]. split; [exact Hlog3|].
      intros _. split; [by eexists _, _|exact Hnext].
  - cbn [fst snd]. unfold Fixed.all_failed. cbn [fst snd].
    unfold ticked at 1 2 3. cbn [circuit_breakers net_log].
    rewrite Hkf. split; [exact Hw1|]. split; [exact Hlog3|].
    intros _. split; [by eexists _, _|exact Hnext].
Qed.
End FixedFailover.

(** C2, as amended.  In [lambda_function.py], a candidate whose forwarded
    request fails (a status of 400 or more, or a failure of the transport,
    which [forward_request] turns into 504, 503 or 500) has a failure
    recorded and the loop goes on with the next candidate, keeping the
    description of this failure; [route] answers with the synthetic 503
    only when the loop has run out of candidates, a failure having been
    recorded for every candidate of the computed list, and the body of that
    503 holds the last description kept and a timestamp (outside the
    critical paths: the description of the last candidate, every candidate
    having been called once, in order).  In [lambda_function_fixed.py], a
    first candidate answering with a status outside [200, 300) has a
    failure recorded, and one more candidate at most is called, the first
    one of another name; the 503, with a last error and a timestamp, comes
    after that. *)
Theorem C2_failure_recorded_then_next_candidate (e : env) (cfg : config) :
  (∀ (req : Router.request) (s : service) (rest : list service)
     (last_error : option string) (wr : world Router.cb_state),
     let hc :=
       if bool_decide (Router.path req ∈ Router.critical_paths)
       then Router.health_check_service e s wr else (true, wr) in
     let call := Router.forward_call s req in
     let answer := transport e (net_log hc.2) call in
     let st := (Router.forward_result answer).1.1 in
     hc.1 = true →
     Router.http_method req ∈ Router.supported_methods →
     match answer with
     | Responded r => 400 ≤ status_code r
     | Raised _ => True
     end →
     400 ≤ st
     ∧ Router.try_services e req (s :: rest) last_error wr
       = Router.try_services e req rest
           (Some (Router.failure_description s st))
           (Router.record_failure e (name s) (logged hc.2 call)).2)
  ∧
  (∀ (req : Router.request) (w : world Router.cb_state),
     let selr := Router.get_available_services e cfg w in
     let rr := Router.route e cfg req w in
     selr.1 ≠ [] →
     Router.statusCode rr.1 = 503 →
     ∃ last_error' t,
       rr.1 = Router.all_failed_response last_error' t
       ∧ (∀ n, Router.failures (Router.entry (circuit_breakers rr.2) n)
               = Router.failures (Router.entry (circuit_breakers selr.2) n)
                 + occurrences n selr.1)
       ∧ (Router.path req ∉ Router.critical_paths →
          (∃ s' st', last selr.1 = Some s' ∧ 400 ≤ st'
                     ∧ last_error'
                       = Some (Router.failure_description s' st'))
          ∧ (Router.http_method req ∈ Router.supported_methods →
             net_log rr.2
             = net_log w ++ map (λ s, Router.forward_call s req) selr.1)))
  ∧
  (∀ (path method : string) (headers : gmap string string)
     (body : option (list byte)) (query_params : option (gmap string string))
     (wf : world Fixed.circuit_data) (first : service) (more : list service)
     (respf : http_response),
     let sel := Fixed.get_available_services e cfg wf in
     let callf :=
       Fixed.service_call cfg path method headers body query_params in
     sel.1 = first :: more →
     upper method ∈ Fixed.supported_methods →
     transport e (net_log sel.2) (callf first) = Responded respf →
     ¬ (200 ≤ status_code respf < 300) →
     let rf :=
       Fixed.forward_request e cfg path method headers body query_params wf in
     let w1 := (Fixed.record_failure e cfg (name first)
                  (logged sel.2 (callf first))).2 in
     circuit_breakers rf.2 !! name first
       = Some (Fixed.failed cfg (clock e (clock_reads sel.2))
                 (default (Fixed.CircuitData Fixed.closed 0 0)
                    (circuit_breakers sel.2 !! name first)))
     ∧ net_log rf.2
       = net_log sel.2
         ++ callf first
            :: match filter (λ s, name s ≠ name first) more with
               | next :: _ => [callf next]
               | [] => []
               end
     ∧ (rf.1.1.1 = 503 →
        (∃ last_error' t,
           rf.1 = (503, ∅, Fixed.all_failed_body last_error' t))
        ∧ match filter (λ s, name s ≠ name first) more with
          | next :: _ =>
            circuit_breakers rf.2 !! name next
            = Some (Fixed.failed cfg (clock e (clock_reads w1))
                      (default (Fixed.CircuitData Fixed.closed 0 0)
                         (circuit_breakers w1 !! name next)))
          | [] =>
            rf.1 = (503, ∅,
                    Fixed.all_failed_body
                      (Fixed.failure_description (name first) respf)
                      (clock e (clock_reads w1)))
          end)).
Proof.
  split; [|split].
  - intros req s rest last_error wr hc call answer st Hhc Hm Hfail.
    assert (400 ≤ st) as Hst by (by apply router_forward_result_failed).
    split; [exact Hst|by apply router_candidate_failure].
  - intros req w selr rr Hne H503.
    destruct (router_route_503 e cfg req w Hne H503)
      as (le & wl & Hlp & Hrr).
    fold selr in Hlp. fold rr in Hrr.
    exists le, (clock e (clock_reads wl)). rewrite Hrr. cbn [fst snd].
    split; [done|]. split; [|intros Hpath; split].
    + intros n. unfold ticked. cbn [circuit_breakers].
      by apply (router_exhausted_failures e req selr.1 None selr.2 le wl).
    + destruct (decide (selr.1 = [])) as [|Hne']; [done|].
      destruct (exists_last Hne') as (pre & s' & Hlast).
      rewrite Hlast in Hlp |- *.
      destruct (router_exhausted_last_error e req pre s' None selr.2 le wl
                  Hpath Hlp) as (st' & Hst' & Hle).
      exists s', st'. by rewrite last_snoc.
    + intros Hm'. unfold ticked. cbn [net_log].
      rewrite (router_exhausted_log e req selr.1 None selr.2 le wl
                 Hpath Hm' Hlp).
      destruct (router_get_available_services_log e cfg w) as [Hl _].
      unfold selr. by rewrite Hl.
  - intros path method headers body query_params wf first more respf
      sel callf Hsel Hmf Htf Hbad rf w1.
    apply fixed_first_failure; try done.
    apply not_true_is_false. unfold Fixed.is_success.
    rewrite andb_true_iff, Z.leb_le, Z.ltb_lt. done.
Qed.

(** ** Headers *)

Lemma hop_filter_lookup (hop : list string) (m : gmap string string)
    (k : string) :
  filter (λ kv : string * string, lower kv.1 ∉ hop) m !! k
  = if bool_decide (lower k ∈ hop) then None else m !! k.
Proof.
  rewrite map_lookup_filter. destruct (m !! k) as [v|]; simpl.
  - case_bool_decide.
    + by rewrite option_guard_False by (simpl; tauto).
    + by rewrite option_guard_True.
  - by case_bool_decide.
Qed.

(** Every call made by [forward_request] of [lambda_function_fixed.py]
    carries the headers it was given. *)
Lemma fixed_forward_request_calls (e : env) (cfg : config)
    (path method : string) (headers : gmap string string)
    (body : option (list byte)) (query_params : option (gmap string string))
    (w : world Fixed.circuit_data) :
  ∃ calls,
    net_log (Fixed.forward_request e cfg path method headers body
               query_params w).2 = net_log w ++ calls
    ∧ Forall (λ c, nc_headers c = Some headers) calls
    ∧ (List.length calls ≤ 2)%nat.
Proof.
  rewrite fixed_forward_request_run. cbv zeta.
  assert (net_log (Fixed.get_available_services e cfg w).2 = net_log w)
    as Hsel by (by rewrite fixed_get_available_services_run).
  destruct (Fixed.get_available_services e cfg w) as [[|first more] w0];
    cbn [fst snd] in *.
  { exists []. rewrite app_nil_r. unfold ticked. simpl. split; [done|].
    split; [constructor|lia]. }
  case_bool_decide as Hm.
  2:{ exists []. rewrite app_nil_r. simpl. split; [done|].
      split; [constructor|lia]. }
  set (c1 := Fixed.service_call cfg path method headers body query_params
               first).
  destruct (transport e (net_log w0) c1) as [resp|ex].
  2:{ exists [c1]. unfold Fixed.all_failed, ticked. cbn [fst snd net_log].
      rewrite fixed_record_failure_run. simpl. rewrite Hsel.
      split; [done|]. split; [by repeat constructor|lia]. }
  destruct (Fixed.is_success resp).
  { exists [c1]. cbn [snd]. rewrite fixed_record_success_run. simpl.
    rewrite Hsel. split; [done|]. split; [by repeat constructor|lia]. }
  rewrite fixed_try_next_run by done.
  set (w2 := (Fixed.record_failure e cfg (name first) (logged w0 c1)).2).
  assert (net_log w2 = net_log w ++ [c1]) as Hw2.
  { subst w2. rewrite fixed_record_failure_run. simpl. by rewrite Hsel. }
  clearbody w2.
  destruct (filter (λ s, name s ≠ name first) more) as [|next others].
  { exists [c1]. cbn [fst snd]. unfold Fixed.all_failed, ticked.
    cbn [fst snd net_log]. split; [done|].
    split; [by repeat constructor|simpl; lia]. }
  set (c2 := Fixed.service_call cfg path method headers body query_params
               next).
  exists [c1; c2].
  split; [|split; [by repeat constructor|simpl; lia]].
  destruct (transport e (net_log w2) c2) as [respn|ex];
    [destruct (Fixed.is_success respn)|]; cbn [fst snd];
    unfold Fixed.all_failed, ticked; cbn [fst snd net_log];
    rewrite ?fixed_record_failure_run, ?fixed_record_success_run; simpl;
    by rewrite Hw2, <- app_assoc.
Qed.

(** C9, as amended.  In [lambda_function.py], the request forwarded to the
    backend carries the headers of the inbound request except those whose
    lower-cased name is [host], [connection] or [content-length], and the
    headers returned are those of the backend's response except those whose
    lower-cased name is [connection] or [transfer-encoding]; every other
    header passes unchanged, in both directions.  In
    [lambda_function_fixed.py] no header is stripped: the calls carry the
    inbound headers, and a successful response is returned with all its
    headers. *)
Theorem C9_hop_headers_by_direction (e : env) (cfg : config) :
  (∀ (s : service) (req : Router.request) (wr : world Router.cb_state)
     (resp : http_response),
     let call := Router.forward_call s req in
     Router.http_method req ∈ Router.supported_methods →
     transport e (net_log wr) call = Responded resp →
     let fw :=
       Router.forward_request e s (Router.path req) (Router.http_method req)
         (Router.req_headers req) (Router.req_body req) (Router.files req)
         wr in
     net_log fw.2 = net_log wr ++ [call]
     ∧ (∃ forwarded, nc_headers call = Some forwarded
          ∧ ∀ k, forwarded !! k
                 = if bool_decide
                        (lower k ∈ ["host"; "connection"; "content-length"])
                   then None else Router.req_headers req !! k)
     ∧ fw.1.1.1 = status_code resp
     ∧ fw.1.2 = content resp
     ∧ ∀ k, fw.1.1.2 !! k
            = if bool_decide (lower k ∈ ["connection"; "transfer-encoding"])
              then None else resp_headers resp !! k)
  ∧
  (∀ (path method : string) (headers : gmap string string)
     (body : option (list byte)) (query_params : option (gmap string string))
     (wf : world Fixed.circuit_data),
     let sel := Fixed.get_available_services e cfg wf in
     let callf :=
       Fixed.service_call cfg path method headers body query_params in
     let rf :=
       Fixed.forward_request e cfg path method headers body query_params wf in
     (∃ calls, net_log rf.2 = net_log wf ++ calls
               ∧ Forall (λ c, nc_headers c = Some headers) calls)
     ∧ (∀ first more respf,
          sel.1 = first :: more →
          upper method ∈ Fixed.supported_methods →
          transport e (net_log sel.2) (callf first) = Responded respf →
          200 ≤ status_code respf < 300 →
          rf.1.1.2 = resp_headers respf)).
Proof.
  split.
  - intros s req wr resp call Hm Ht fw.
    subst fw. rewrite router_forward_request_run.
    rewrite bool_decide_eq_true_2 by done. fold call. rewrite Ht.
    cbn [fst snd Router.forward_result]. split; [done|].
    split; [|split; [done|split; [done|]]].
    + eexists. split; [reflexivity|]. intros k. apply hop_filter_lookup.
    + intros k. apply hop_filter_lookup.
  - intros path method headers body query_params wf sel callf rf. split.
    + destruct (fixed_forward_request_calls e cfg path method headers body
                  query_params wf) as (calls & Hlog & Hall & _).
      by exists calls.
    + intros first more respf Hsel Hmf Htf Hok.
      subst rf. rewrite fixed_forward_request_run. cbv zeta. fold sel.
      rewrite Hsel, bool_decide_eq_true_2 by done. fold callf.
      rewrite Htf.
      replace (Fixed.is_success respf) with true; [done|].
      symmetry. unfold Fixed.is_success.
      rewrite andb_true_iff, Z.leb_le, Z.ltb_lt. done.
Qed.

(** ** The handler and the manager around the engine *)

(** [lambda_handler] of [lambda_function.py] runs the engine on a manager
    without breaker entries, unless the base64 body does not decode. *)
Lemma router_lambda_handler_route (e : env) (cfg : config)
    (ev : Router.event) (w : world Router.cb_state) :
  Router.ev_body ev ≠ Router.Base64Body None →
  ∃ body,
    Router.lambda_handler e cfg ev w
    = Router.route e cfg
        {| Router.http_method := default "GET"%string (Router.ev_httpMethod ev);
           Router.path := default "/"%string (Router.ev_path ev);
           Router.req_headers := default ∅ (Router.ev_headers ev);
           Router.req_body := body; Router.files := None |}
        (World ∅ (net_log w) (clock_reads w)).
Proof.
  intros Hbody. unfold Router.lambda_handler. run_m.
  destruct (Router.ev_body ev) as [|[|c s]|[bs|]]; try done; by eexists.
Qed.

(** [forward_request] of [lambda_function_fixed.py] keeps the manager among
    the reachable worlds. *)
Lemma fixed_forward_request_reachable (e : env) (cfg : config)
    (path method : string) (headers : gmap string string)
    (body : option (list byte)) (query_params : option (gmap string string))
    (w : world Fixed.circuit_data) :
  Fixed.reachable e cfg w →
  Fixed.reachable e cfg
    (Fixed.forward_request e cfg path method headers body query_params w).2.
Proof.
  intros Hw. rewrite fixed_forward_request_run. cbv zeta.
  pose proof (Fixed.reach_select e cfg w Hw) as Hsel.
  destruct (Fixed.get_available_services e cfg w) as [[|first more] w0];
    cbn [fst snd] in *.
  { by apply (Fixed.reach_time e cfg w0). }
  case_bool_decide as Hm; [|done].
  set (c1 := Fixed.service_call cfg path method headers body query_params
               first).
  pose proof (Fixed.reach_call e cfg w0 c1 Hsel) as Hc1.
  change (requests_call e c1 w0).2 with (logged w0 c1) in Hc1.
  destruct (transport e (net_log w0) c1) as [resp|ex].
  2:{ apply (Fixed.reach_time e cfg). by apply Fixed.reach_failure. }
  destruct (Fixed.is_success resp).
  { by apply Fixed.reach_success. }
  rewrite fixed_try_next_run by done.
  pose proof (Fixed.reach_failure e cfg _ (name first) Hc1) as Hw2.
  set (w2 := (Fixed.record_failure e cfg (name first) (logged w0 c1)).2) in *.
  clearbody w2.
  destruct (filter (λ s, name s ≠ name first) more) as [|next others].
  { by apply (Fixed.reach_time e cfg w2). }
  set (c2 := Fixed.service_call cfg path method headers body query_params
               next).
  pose proof (Fixed.reach_call e cfg w2 c2 Hw2) as Hc2.
  change (requests_call e c2 w2).2 with (logged w2 c2) in Hc2.
  destruct (transport e (net_log w2) c2) as [respn|ex];
    [destruct (Fixed.is_success respn)|]; cbn [fst snd].
  - by apply Fixed.reach_success.
  - apply (Fixed.reach_time e cfg). by apply Fixed.reach_failure.
  - apply (Fixed.reach_time e cfg). by apply Fixed.reach_failure.
Qed.

(** ** The claims on the sample configuration *)

Lemma C6_witness :
  0 < failure_threshold_of Sample.cfg
  ∧ (Router.get_available_services (Sample.env_status 200) Sample.cfg
       Sample.fresh).1 = [Sample.A; Sample.B; Sample.C]
  ∧ (Fixed.get_available_services (Sample.env_status 200) Sample.cfg
       Sample.fresh).1 = [Sample.A; Sample.B; Sample.C].
Proof.
  assert (0 < failure_threshold_of Sample.cfg) as Hthr by reflexivity.
  split; [exact Hthr|].
  destruct (C6_get_available_services_enabled_by_priority
              (Sample.env_status 200) Sample.cfg Sample.fresh Sample.fresh
              Hthr) as (_ & _ & _ & _ & Hr & Hf).
  split; [rewrite Hr by reflexivity|rewrite Hf by reflexivity];
    vm_compute; reflexivity.
Defined.

Lemma C1_witness :
  let e := Sample.env_status 200 in
  let run :=
    Router.try_services e Sample.get_x [Sample.A; Sample.B; Sample.C] None
      Sample.selected in
  let rf :=
    Fixed.forward_request e Sample.cfg "/x" "GET" ∅ None None Sample.fresh in
  map nc_url (net_log run.2) = ["http://a/x"%string]
  ∧ Router.route e Sample.cfg Sample.get_x Sample.fresh
    = (Router.success_response 200 {[ "Content-Length" := "2";
                                      "X-Backend" := "1" ]}
         (list_byte_of_string "ok") "ok", run.2)
  ∧ rf.1 = Fixed.success_result (Sample.answer 200)
  ∧ map nc_url (net_log rf.2) = ["http://a/x"%string].
Proof.
  intros e run rf.
  destruct (C1_success_recorded_and_returned e Sample.cfg)
    as [Hrouter Hfixed].
  destruct (Hrouter Sample.get_x Sample.A [Sample.B; Sample.C] None
              Sample.selected (Sample.answer 200))
    as (Hw & Hlog & Hret & Hroute).
  { reflexivity. } { by_computation. } { reflexivity. } { simpl; lia. }
  destruct (Hfixed "/x"%string "GET"%string ∅ None None Sample.fresh
              Sample.A [Sample.B; Sample.C] (Sample.answer 200))
    as [Hfirst _].
  { vm_compute; reflexivity. } { by_computation. } { reflexivity. }
  - destruct (Hfirst ltac:(simpl; lia)) as [Hrf Hflog].
    split; [fold run in Hlog; rewrite Hlog; vm_compute; reflexivity|].
    split; [|split].
    + destruct (Hret "ok"%string eq_refl) as (r & Hr & _).
      rewrite (Hroute Sample.fresh r); [|vm_compute; reflexivity
                                        |vm_compute; reflexivity
                                        |reflexivity|exact Hr].
      f_equal. fold run in Hr. vm_compute in Hr. injection Hr as <-.
      vm_compute. reflexivity.
    + fold rf in Hrf. by rewrite Hrf.
    + fold rf in Hflog. rewrite Hflog. vm_compute. reflexivity.
Defined.

Lemma C2_witness :
  let e := Sample.env_status 500 in
  let rr := Router.route e Sample.cfg Sample.get_x Sample.fresh in
  let rf :=
    Fixed.forward_request e Sample.cfg_two "/x"
      "GET" ∅ None None Sample.fresh in
  (∃ st t, 400 ≤ st
           ∧ Router.body rr.1
             = Router.all_failed_body
                 (Some (Router.failure_description Sample.C st)) t)
  ∧ map nc_url (net_log rr.2)
    = ["http://a/x"; "http://b/x"; "http://c/x"]%string
  ∧ (∀ n, n ∈ ["A"; "B"; "C"]%string →
          Router.failures (Router.entry (circuit_breakers rr.2) n) = 1)
  ∧ map nc_url (net_log rf.2) = ["http://a/x"; "http://b/x"]%string
  ∧ rf.1.1.1 = 503.
Proof.
  intros e rr rf.
  destruct (C2_failure_recorded_then_next_candidate e
              Sample.cfg_two)
    as (_ & _ & Hfixed).
  destruct (Hfixed "/x"%string "GET"%string ∅ None None Sample.fresh
              Sample.A [Sample.B] (Sample.answer 500))
    as (_ & Hflog & _).
  { vm_compute; reflexivity. } { by_computation. } { reflexivity. }
  { simpl; lia. }
  destruct (C2_failure_recorded_then_next_candidate e Sample.cfg)
    as (_ & Hexh & _).
  destruct (Hexh Sample.get_x Sample.fresh)
    as (le & t & Hrr & Hcount & Hrest);
    [by vm_compute|vm_compute; reflexivity|].
  destruct Hrest as [(s' & st' & Hlast & Hst' & Hle) Hlog];
    [by_computation|].
  fold rr in Hrr, Hcount, Hlog. fold rf in Hflog.
  split; [|split; [|split; [|split]]].
  - vm_compute in Hlast. injection Hlast as <-.
    exists st', t. split; [exact Hst'|]. by rewrite Hrr, Hle.
  - rewrite Hlog by by_computation. vm_compute. reflexivity.
  - intros n Hn. rewrite Hcount.
    apply elem_of_cons in Hn as [->|Hn]; [vm_compute; reflexivity|].
    apply elem_of_cons in Hn as [->|Hn]; [vm_compute; reflexivity|].
    apply elem_of_cons in Hn as [->|Hn]; [vm_compute; reflexivity|].
    apply elem_of_nil in Hn. destruct Hn.
  - rewrite Hflog. vm_compute. reflexivity.
  - vm_compute. reflexivity.
Defined.

Lemma C3_witness :
  let e := Sample.env_status 500 in
  let wf := Sample.fixed_four_failures e in
  let wr := Sample.router_four_failures in
  Fixed.reachable e Sample.cfg wf
  ∧ Fixed.status <$> circuit_breakers wf !! "A" = Some Fixed.closed
  ∧ circuit_breakers (Fixed.record_failure e Sample.cfg "A" wf).2 !! "A"
    = Some (Fixed.CircuitData Fixed.open 5 1004)
  ∧ (Router._is_circuit_breaker_open Sample.cfg "A" 1001 wr).1 = false
  ∧ (Router._is_circuit_breaker_open Sample.cfg "A" 1001
       (Router.record_failure e "A" wr).2).1 = true.
Proof.
  intros e wf wr.
  assert (Fixed.reachable e Sample.cfg wf) as Hreach.
  { unfold wf, Sample.fixed_four_failures.
    repeat apply Fixed.reach_failure. apply Fixed.reach_fresh. }
  assert (0 < failure_threshold_of Sample.cfg) as Hthr by reflexivity.
  destruct (C3_breaker_opens_at_threshold e Sample.cfg "A" wf wr Hreach Hthr)
    as (_ & (st' & Hlk & Hopen & _) & _ & Hiff & _).
  split; [exact Hreach|]. split; [vm_compute; reflexivity|].
  split; [|split].
  - rewrite Hlk. f_equal.
    replace st' with Fixed.open
      by (symmetry; apply Hopen; vm_compute; discriminate).
    vm_compute. reflexivity.
  - vm_compute. reflexivity.
  - apply Hiff. split; vm_compute; [discriminate|reflexivity].
Defined.

Lemma C4_witness :
  let e := Sample.env_status 200 in
  (Router.get_available_services e Sample.cfg Sample.router_tripped).1
    = [Sample.B; Sample.C]
  ∧ (Fixed.get_available_services e Sample.cfg Sample.fixed_tripped).1
    = [Sample.B; Sample.C]
  ∧ Sample.A
    ∈ (Router.get_available_services e Sample.cfg Sample.router_expired).1
  ∧ circuit_breakers
      (Router.get_available_services e Sample.cfg Sample.router_expired).2
      !! "A" = Some (Router.CbState 0 0)
  ∧ Sample.A
    ∈ (Fixed.get_available_services e Sample.cfg Sample.fixed_expired).1
  ∧ circuit_breakers
      (Fixed.get_available_services e Sample.cfg Sample.fixed_expired).2
      !! "A" = Some (Fixed.CircuitData Fixed.half_open 0 0).
Proof.
  intros e.
  assert (Sample.A ∈ services_of Sample.cfg) as Hin
    by (apply list_elem_of_In; vm_compute; tauto).
  assert (0 < failure_threshold_of Sample.cfg) as Hthr by reflexivity.
  assert (failure_threshold_of Sample.cfg ≤ 5) as Hf
    by (vm_compute; discriminate).
  destruct (C4_open_breaker_excluded_until_recovery e Sample.cfg Sample.A
              5 900 Hin eq_refl Hthr Hf) as [Hrouter Hfixed].
  destruct (Hrouter Sample.router_expired eq_refl) as [_ Hr].
  destruct (Hfixed Sample.fixed_expired eq_refl) as [_ Hx].
  destruct Hr as [Hr1 Hr2]; [vm_compute; discriminate|].
  destruct Hx as [Hx1 Hx2]; [vm_compute; discriminate|].
  split; [vm_compute; reflexivity|]. split; [vm_compute; reflexivity|].
  split; [exact Hr1|]. split; [exact Hr2|]. split; [exact Hx1|exact Hx2].
Defined.

Lemma C5_witness :
  let e := Sample.env_status 500 in
  let wx := (Fixed.record_failure e Sample.cfg "A" Sample.fixed_half_open).2 in
  let w1 :=
    (Router.get_available_services e Sample.cfg Sample.router_expired).2 in
  circuit_breakers
    (Fixed.record_success "A" Sample.fixed_half_open).2 !! "A"
    = Some (Fixed.CircuitData Fixed.closed 0 0)
  ∧ circuit_breakers wx !! "A"
    = Some (Fixed.CircuitData Fixed.half_open 1 1000)
  ∧ Sample.A ∈ (Fixed.get_available_services e Sample.cfg wx).1
  ∧ circuit_breakers (Router.record_failure e "A" w1).2 !! "A"
    = Some (Router.CbState 1 1001)
  ∧ Sample.A
    ∈ (Router.get_available_services e Sample.cfg
         (Router.record_failure e "A" w1).2).1.
Proof.
  intros e wx w1.
  assert (Sample.A ∈ services_of Sample.cfg) as Hin
    by (apply list_elem_of_In; vm_compute; tauto).
  assert (0 < failure_threshold_of Sample.cfg) as Hthr by reflexivity.
  destruct (C5_half_open_outcomes e Sample.cfg Sample.A Hin eq_refl Hthr)
    as [Hfixed Hrouter].
  destruct (Hfixed 0 0 Sample.fixed_half_open eq_refl)
    as (Hs & Hx & _ & Hkeep).
  destruct (Hrouter 5 900 Sample.router_expired eq_refl)
    as (_ & _ & Hr & Hiff).
  - vm_compute; discriminate.
  - vm_compute; discriminate.
  - split; [exact Hs|]. split; [exact Hx|].
    split; [apply Hkeep; reflexivity|]. split; [exact Hr|].
    apply Hiff. left. reflexivity.
Defined.

Lemma C7_witness :
  circuit_breakers (Router.record_success "A" Sample.router_tripped).2
  = {[ "A" := Router.CbState 0 990 ]}
  ∧ Router.record_success "A" Sample.fresh = (tt, Sample.fresh)
  ∧ Fixed.record_success "A" Sample.fixed_closed_three
    = (tt, Sample.fixed_closed_three)
  ∧ Fixed.record_success "A" Sample.fresh = (tt, Sample.fresh).
Proof.
  destruct (C7_record_success_when_closed "A" Sample.router_tripped
              Sample.fixed_closed_three) as (Hr & _ & Hf & _).
  destruct (C7_record_success_when_closed "A" Sample.fresh Sample.fresh)
    as (_ & Hr0 & _ & Hf0).
  split; [|split; [|split]].
  - rewrite (Hr (Router.CbState 5 990)) by reflexivity.
    vm_compute. reflexivity.
  - apply Hr0. reflexivity.
  - apply (Hf (Fixed.CircuitData Fixed.closed 3 990)); [reflexivity|].
    discriminate.
  - apply Hf0. reflexivity.
Defined.

Lemma C8_witness :
  let e := Sample.env_status 200 in
  let rr := Router.route e Sample.cfg_disabled Sample.get_x Sample.fresh in
  let rf :=
    Fixed.forward_request e Sample.cfg_disabled "/x" "GET" ∅ None None
      Sample.fresh in
  Router.statusCode rr.1 = 503 ∧ net_log rr.2 = []
  ∧ rf.1.1.1 = 503 ∧ net_log rf.2 = [].
Proof.
  intros e rr rf.
  destruct (no_enabled_no_candidate e Sample.cfg_disabled Sample.fresh
              Sample.fresh) as [Hr Hf].
  { repeat constructor. }
  destruct (C8_no_candidate_503_without_call e Sample.cfg_disabled)
    as [Hrouter Hfixed].
  destruct (Hrouter Sample.get_x Sample.fresh Hr) as (H1 & _ & H2).
  destruct (Hfixed "/x"%string "GET"%string ∅ None None Sample.fresh Hf)
    as (H3 & _ & H4).
  split; [exact H1|]. split; [exact H2|]. split; [exact H3|exact H4].
Defined.

Lemma C9_witness :
  let e := Sample.env_status 200 in
  let hs := Router.req_headers Sample.get_x in
  let fw :=
    Router.forward_request e Sample.A "/x" "GET" hs None None Sample.fresh in
  let rf :=
    Fixed.forward_request e Sample.cfg "/x" "GET" hs None None Sample.fresh in
  map (λ c, map_to_list <$> nc_headers c) (net_log fw.2)
    = [Some [("Transfer-Encoding", "chunked"); ("X-Trace", "1")]]%string
  ∧ map_to_list fw.1.1.2
    = [("Content-Length", "2"); ("X-Backend", "1")]%string
  ∧ map (λ c, map_to_list <$> nc_headers c) (net_log rf.2)
    = [Some (map_to_list hs)]
  ∧ rf.1.1.2 = resp_headers (Sample.answer 200).
Proof.
  intros e hs fw rf.
  destruct (C9_hop_headers_by_direction e Sample.cfg) as [Hrouter Hfixed].
  destruct (Hrouter Sample.A Sample.get_x Sample.fresh (Sample.answer 200))
    as (Hlog & _).
  { by_computation. } { reflexivity. }
  destruct (Hfixed "/x"%string "GET"%string hs None None Sample.fresh)
    as [_ Hfix].
  split; [|split; [|split]].
  - change (net_log fw.2) with
      (net_log (Router.forward_request e Sample.A
                  (Router.path Sample.get_x)
                  (Router.http_method Sample.get_x)
                  (Router.req_headers Sample.get_x)
                  (Router.req_body Sample.get_x)
                  (Router.files Sample.get_x) Sample.fresh).2).
    rewrite Hlog. vm_compute. reflexivity.
  - vm_compute. reflexivity.
  - vm_compute. reflexivity.
  - apply (Hfix Sample.A [Sample.B; Sample.C] (Sample.answer 200)).
    + vm_compute; reflexivity.
    + by_computation.
    + reflexivity.
    + simpl; lia.
Defined.

Lemma C10_witness :
  let e := Sample.env_status 503 in
  let run :=
    Router.try_services e Sample.get_upload [Sample.A; Sample.B] None
      Sample.selected in
  run.1 = Router.LoopExhausted None
  ∧ map nc_url (net_log run.2) = ["http://a/health"; "http://b/health"]%string
  ∧ Router.failures (Router.entry (circuit_breakers run.2) "A") = 1.
Proof.
  intros e run.
  destruct (C10_health_probe_gates_forwarding e Sample.get_upload Sample.A
              [Sample.B] None Sample.selected (or_introl eq_refl))
    as (_ & _ & _ & Hall).
  destruct Hall as (Hexit & Hlog & Hcount).
  { intros log s' r [= <-]. simpl. lia. }
  fold run in Hexit, Hlog, Hcount.
  split; [exact Hexit|]. split.
  - rewrite Hlog. vm_compute. reflexivity.
  - rewrite Hcount. vm_compute. reflexivity.
Defined.

(** Service A, of priority 1, answers 500 and service B, of priority 2,
    answers 200: both routers return the answer of B after one call to each,
    with one failure on record for A. *)
Example failover_to_second_service :
  let rr := Router.route Sample.env_a_down Sample.cfg_two Sample.get_x
              Sample.fresh in
  let rf := Fixed.forward_request Sample.env_a_down Sample.cfg_two "/x" "GET"
              ∅ None None Sample.fresh in
  Router.statusCode rr.1 = 200
  ∧ Router.body rr.1 = BodyStr "ok"
  ∧ map nc_url (net_log rr.2) = ["http://a/x"; "http://b/x"]%string
  ∧ Router.failures (Router.entry (circuit_breakers rr.2) "A") = 1
  ∧ Router.failures (Router.entry (circuit_breakers rr.2) "B") = 0
  ∧ rf.1.1.1 = 200
  ∧ rf.1.2 = BodyStr "ok"
  ∧ map nc_url (net_log rf.2) = ["http://a/x"; "http://b/x"]%string
  ∧ Fixed.failures <$> circuit_breakers rf.2 !! "A" = Some 1
  ∧ circuit_breakers rf.2 !! "B" = None.
Proof. repeat split; vm_compute; reflexivity. Qed.

(** ** Where the code departs from the claims as first stated *)

(** C1 as stated fails in [lambda_function_fixed.py]: service A answers
    304, a status in [200, 400); a failure is recorded for it, service B is
    called next, and the caller gets a 503. *)
Lemma C1_counterexample :
  let e := Sample.env_status 304 in
  let sel := Fixed.get_available_services e Sample.cfg Sample.fresh in
  let rf :=
    Fixed.forward_request e Sample.cfg "/x" "GET" ∅ None None Sample.fresh in
  sel.1 = [Sample.A; Sample.B; Sample.C]
  ∧ transport e (net_log sel.2)
      (Fixed.service_call Sample.cfg "/x" "GET" ∅ None None Sample.A)
    = Responded (Sample.answer 304)
  ∧ 200 ≤ status_code (Sample.answer 304) < 400
  ∧ rf.1.1.1 = 503
  ∧ rf.1.1.1 ≠ status_code (Sample.answer 304)
  ∧ circuit_breakers rf.2 !! "A"
    = Some (Fixed.CircuitData Fixed.closed 1 1001)
  ∧ map nc_url (net_log rf.2) = ["http://a/x"; "http://b/x"]%string.
Proof. vm_compute. repeat split; (reflexivity || discriminate). Qed.

(** C2 as stated fails in [lambda_function_fixed.py]: with three candidates
    that all answer 500, the 503 is returned after two attempts; service C
    is never called and nothing is recorded for it. *)
Lemma C2_counterexample :
  let e := Sample.env_status 500 in
  let sel := Fixed.get_available_services e Sample.cfg Sample.fresh in
  let rf :=
    Fixed.forward_request e Sample.cfg "/x" "GET" ∅ None None Sample.fresh in
  sel.1 = [Sample.A; Sample.B; Sample.C]
  ∧ rf.1.1.1 = 503
  ∧ map nc_url (net_log rf.2) = ["http://a/x"; "http://b/x"]%string
  ∧ circuit_breakers rf.2 !! "C" = None.
Proof. vm_compute. repeat split; reflexivity. Qed.

(** C4 as stated fails in both files: the selection that takes service A
    again, its recovery window over, sets its failures from 5 to 0, before
    any outcome is recorded. *)
Lemma C4_counterexample :
  let e := Sample.env_status 200 in
  let r := Router.get_available_services e Sample.cfg Sample.router_expired in
  let f := Fixed.get_available_services e Sample.cfg Sample.fixed_expired in
  r.1 = [Sample.A; Sample.B; Sample.C]
  ∧ f.1 = [Sample.A; Sample.B; Sample.C]
  ∧ Router.failures <$> circuit_breakers Sample.router_expired !! "A" = Some 5
  ∧ Router.failures <$> circuit_breakers r.2 !! "A" = Some 0
  ∧ Fixed.failures <$> circuit_breakers Sample.fixed_expired !! "A" = Some 5
  ∧ Fixed.failures <$> circuit_breakers f.2 !! "A" = Some 0
  ∧ net_log r.2 = [] ∧ net_log f.2 = [].
Proof. vm_compute. repeat split; reflexivity. Qed.

(** C5 as stated fails in [lambda_function_fixed.py]: service A, half-open
    after its recovery, fails at time 1001; its status stays half-open, and
    the selection made at time 1002, one tick into the recovery window of
    60, has it as first candidate. *)
Lemma C5_counterexample :
  let e := Sample.env_status 500 in
  let w1 :=
    (Fixed.get_available_services e Sample.cfg Sample.fixed_expired).2 in
  let w2 := (Fixed.record_failure e Sample.cfg "A" w1).2 in
  let sel := Fixed.get_available_services e Sample.cfg w2 in
  circuit_breakers w1 !! "A" = Some (Fixed.CircuitData Fixed.half_open 0 0)
  ∧ circuit_breakers w2 !! "A"
    = Some (Fixed.CircuitData Fixed.half_open 1 1001)
  ∧ Fixed.status <$> circuit_breakers w2 !! "A" ≠ Some Fixed.open
  ∧ clock e (clock_reads w2) - 1001 < recovery_timeout_of Sample.cfg
  ∧ sel.1 = [Sample.A; Sample.B; Sample.C].
Proof. vm_compute. repeat split; (reflexivity || discriminate). Qed.

(** C7 as stated fails in [lambda_function_fixed.py]: [record_success] on
    the closed entry of service A, which has 3 failures, leaves them. *)
Lemma C7_counterexample :
  let w := (Fixed.record_success "A" Sample.fixed_closed_three).2 in
  Fixed.status <$> circuit_breakers Sample.fixed_closed_three !! "A"
    = Some Fixed.closed
  ∧ Fixed.failures <$> circuit_breakers w !! "A" = Some 3
  ∧ Fixed.failures <$> circuit_breakers w !! "A" ≠ Some 0.
Proof. vm_compute. repeat split; (reflexivity || discriminate). Qed.

(** C9 as stated fails in both files: [lambda_function.py] forwards the
    request header [Transfer-Encoding] and returns the response header
    [Content-Length]; [lambda_function_fixed.py] forwards [Host] and returns
    [Connection]. *)
Lemma C9_counterexample :
  let e := Sample.env_status 200 in
  let hs := Router.req_headers Sample.get_x in
  let fw :=
    Router.forward_request e Sample.A "/x" "GET" hs None None Sample.fresh in
  let rf :=
    Fixed.forward_request e Sample.cfg "/x" "GET" hs None None Sample.fresh in
  hs !! "Transfer-Encoding" = Some "chunked"%string
  ∧ map (λ c, default ∅ (nc_headers c) !! "Transfer-Encoding")
      (net_log fw.2) = [Some "chunked"%string]
  ∧ resp_headers (Sample.answer 200) !! "Content-Length" = Some "2"%string
  ∧ fw.1.1.2 !! "Content-Length" = Some "2"%string
  ∧ map (λ c, default ∅ (nc_headers c) !! "Host") (net_log rf.2)
    = [Some "router"%string]
  ∧ rf.1.1.2 !! "Connection" = Some "close"%string.
Proof. repeat split; vm_compute; reflexivity. Qed.

(** * Further properties *)

(** ** Recording outcomes *)

(** X1. Recording a success or a failure for one service makes no network
    call and leaves the breaker entry of every other service as it was, in
    both routers. *)
Theorem X1_recording_touches_one_entry (e : env) (cfg : config)
    (n m : string) :
  n ≠ m →
  (∀ w : world Router.cb_state,
     circuit_breakers (Router.record_failure e n w).2 !! m
       = circuit_breakers w !! m
     ∧ circuit_breakers (Router.record_success n w).2 !! m
       = circuit_breakers w !! m
     ∧ net_log (Router.record_failure e n w).2 = net_log w
     ∧ net_log (Router.record_success n w).2 = net_log w)
  ∧
  (∀ w : world Fixed.circuit_data,
     circuit_breakers (Fixed.record_failure e cfg n w).2 !! m
       = circuit_breakers w !! m
     ∧ circuit_breakers (Fixed.record_success n w).2 !! m
       = circuit_breakers w !! m
     ∧ net_log (Fixed.record_failure e cfg n w).2 = net_log w
     ∧ net_log (Fixed.record_success n w).2 = net_log w).
Proof.
  intros Hne. split; intros w.
  - rewrite router_record_failure_run, router_record_success_run. simpl.
    rewrite lookup_insert_ne by done. repeat split; try done.
    destruct (circuit_breakers w !! n); [|done].
    by rewrite lookup_insert_ne.
  - rewrite fixed_record_failure_run, fixed_record_success_run. simpl.
    rewrite lookup_insert_ne by done. repeat split; try done.
    destruct (circuit_breakers w !! n); [|done].
    case_decide; [|done]. by rewrite lookup_insert_ne.
Qed.

Lemma router_record_outcomes_failures (e : env) (n : string)
    (outcomes : list outcome) (w : world Router.cb_state) :
  Router.failures
    (Router.entry
       (circuit_breakers (Router.record_outcomes e n outcomes w).2) n)
  = foldl (λ k o, match o with Succeeded => 0 | Failed => k + 1 end)
      (Router.failures (Router.entry (circuit_breakers w) n)) outcomes.
Proof.
  revert w. induction outcomes as [|o rest IH]; intros w; [done|].
  destruct o; cbn [Router.record_outcomes foldl]; unfold bind at 1.
  - pose proof (router_record_success_run n w) as Hrun.
    destruct (Router.record_success n w) as [[] w1]. rewrite IH.
    f_equal. injection Hrun as ->. simpl. unfold Router.entry.
    destruct (circuit_breakers w !! n) as [c|] eqn:Hc.
    + by rewrite lookup_insert_eq.
    + by rewrite Hc.
  - pose proof (router_record_failure_run e n w) as Hrun.
    destruct (Router.record_failure e n w) as [[] w1]. rewrite IH.
    f_equal. injection Hrun as ->. simpl. unfold Router.entry at 1.
    by rewrite lookup_insert_eq.
Qed.

(** X2. [lambda_function.py] counts consecutive failures: after any
    sequence of recorded successes and failures for a service that had no
    entry, its failure count is the number of failures since the last
    success; the service, if enabled and configured, is then a candidate
    exactly when that number is below the threshold or the recovery window
    since the last failure has elapsed. *)
Theorem X2_router_counts_consecutive_failures (e : env) (cfg : config)
    (s : service) (outcomes : list outcome) (w : world Router.cb_state) :
  0 < failure_threshold_of cfg →
  s ∈ services_of cfg →
  is_enabled s = true →
  circuit_breakers w !! name s = None →
  let w' := (Router.record_outcomes e (name s) outcomes w).2 in
  let c := Router.entry (circuit_breakers w') (name s) in
  Router.failures c = trailing_failures outcomes
  ∧ (s ∈ (Router.get_available_services e cfg w').1
     ↔ trailing_failures outcomes < failure_threshold_of cfg
       ∨ recovery_timeout_of cfg
         ≤ clock e (clock_reads w') - Router.last_failure c).
Proof.
  intros Hthr Hin Hen Hnone w' c.
  assert (Router.failures c = trailing_failures outcomes) as Hc.
  { subst c w'. rewrite router_record_outcomes_failures.
    unfold Router.entry at 1. by rewrite Hnone. }
  split; [done|].
  rewrite router_candidate_iff by done. unfold Router.is_open. fold c.
  rewrite Hc, andb_false_iff, Z.geb_leb, Z.leb_gt, Z.ltb_ge. lia.
Qed.

Lemma fixed_record_outcomes_entry (e : env) (cfg : config) (n : string)
    (outcomes : list outcome) (w : world Fixed.circuit_data) :
  0 < failure_threshold_of cfg →
  Fixed.status (Fixed.entry (circuit_breakers w) n)
    = (if failure_threshold_of cfg
          <=? Fixed.failures (Fixed.entry (circuit_breakers w) n)
       then Fixed.open else Fixed.closed) →
  let c :=
    Fixed.entry
      (circuit_breakers (Fixed.record_outcomes e cfg n outcomes w).2) n in
  Fixed.failures c
    = foldl (λ k o, match o with Succeeded => k | Failed => k + 1 end)
        (Fixed.failures (Fixed.entry (circuit_breakers w) n)) outcomes
  ∧ Fixed.status c
    = (if failure_threshold_of cfg <=? Fixed.failures c
       then Fixed.open else Fixed.closed).
Proof.
  intros Hthr. revert w.
  induction outcomes as [|o rest IH]; intros w Hst c; [done|].
  subst c. destruct o; cbn [Fixed.record_outcomes foldl]; unfold bind.
  - pose proof (fixed_record_success_run n w) as Hrun.
    destruct (Fixed.record_success n w) as [[] w1]. injection Hrun as Hw1.
    assert (Fixed.entry (circuit_breakers w1) n
            = Fixed.entry (circuit_breakers w) n) as Hsame.
    { subst w1. unfold Fixed.entry in *. simpl.
      destruct (circuit_breakers w !! n) as [c|] eqn:Hc; [|by rewrite Hc].
      case_decide as Hho; [|by rewrite Hc].
      simpl in Hst. rewrite Hho in Hst. by destruct (_ <=? _). }
    rewrite <- Hsame. apply IH. by rewrite Hsame.
  - pose proof (fixed_record_failure_run e cfg n w) as Hrun.
    destruct (Fixed.record_failure e cfg n w) as [[] w1].
    injection Hrun as Hw1.
    fold (Fixed.entry (circuit_breakers w) n) in Hw1.
    set (c0 := Fixed.entry (circuit_breakers w) n) in *.
    assert (Fixed.entry (circuit_breakers w1) n
            = Fixed.failed cfg (clock e (clock_reads w)) c0) as Hw1n.
    { subst w1. unfold Fixed.entry at 1. simpl.
      by rewrite lookup_insert_eq. }
    assert (Fixed.failures (Fixed.entry (circuit_breakers w1) n)
            = Fixed.failures c0 + 1) as Hf by (by rewrite Hw1n).
    rewrite <- Hf. apply IH. rewrite Hw1n. unfold Fixed.failed. simpl.
    rewrite Z.geb_leb.
    destruct (Z.leb_spec (failure_threshold_of cfg) (Fixed.failures c0 + 1));
      [done|].
    rewrite Hst.
    destruct (Z.leb_spec (failure_threshold_of cfg) (Fixed.failures c0));
      [lia|done].
Qed.

(** X3. [lambda_function_fixed.py] counts all failures: in any sequence of
    recorded successes and failures for a service that had no entry, the
    successes change nothing, so that the failure count is the number of
    failures recorded and the breaker is open exactly when that number has
    reached the threshold; the service, if enabled and configured, is then
    a candidate exactly when the number is below the threshold or the
    recovery window since the last failure has elapsed. *)
Theorem X3_fixed_counts_all_failures (e : env) (cfg : config)
    (s : service) (outcomes : list outcome)
    (w : world Fixed.circuit_data) :
  0 < failure_threshold_of cfg →
  s ∈ services_of cfg →
  is_enabled s = true →
  circuit_breakers w !! name s = None →
  let w' := (Fixed.record_outcomes e cfg (name s) outcomes w).2 in
  let c := Fixed.entry (circuit_breakers w') (name s) in
  Fixed.failures c = total_failures outcomes
  ∧ (Fixed.status c = Fixed.open
     ↔ failure_threshold_of cfg ≤ total_failures outcomes)
  ∧ (s ∈ (Fixed.get_available_services e cfg w').1
     ↔ total_failures outcomes < failure_threshold_of cfg
       ∨ recovery_timeout_of cfg
         ≤ clock e (clock_reads w') - Fixed.last_failure c).
Proof.
  intros Hthr Hin Hen Hnone w' c.
  destruct (fixed_record_outcomes_entry e cfg (name s) outcomes w Hthr)
    as [Hf Hs].
  { unfold Fixed.entry. rewrite Hnone. simpl.
    by replace (failure_threshold_of cfg <=? 0) with false
      by (symmetry; apply Z.leb_gt; lia). }
  fold w' in Hf, Hs. fold c in Hf, Hs.
  replace (Fixed.entry (circuit_breakers w) (name s))
    with (Fixed.CircuitData Fixed.closed 0 0) in Hf
    by (unfold Fixed.entry; by rewrite Hnone).
  simpl in Hf. fold (total_failures outcomes) in Hf.
  assert (Fixed.status c = Fixed.open
          ↔ failure_threshold_of cfg ≤ total_failures outcomes) as Hopen.
  { rewrite Hs, Hf. destruct (Z.leb_spec (failure_threshold_of cfg)
                                 (total_failures outcomes)).
    - tauto.
    - split; [done|lia]. }
  split; [done|]. split; [done|].
  rewrite fixed_candidate_iff by done. unfold Fixed.is_open.
  subst c. unfold Fixed.entry in *.
  destruct (circuit_breakers w' !! name s) as [c|] eqn:Hc; simpl in *.
  - rewrite andb_false_iff, bool_decide_eq_false, Z.ltb_ge. rewrite Hopen.
    lia.
  - split; [|done]. intros _. left. lia.
Qed.
(** ** Selection, whatever the store and the thresholds *)

Lemma router_available_loop_sound (cfg : config) (now : Z)
    (services available : list service) (w : world Router.cb_state) :
  let run := Router.available_loop cfg now services available w in
  (∃ l, run.1 = available ++ l
        ∧ ∀ s, s ∈ l → s ∈ services ∧ is_enabled s = true)
  ∧ ∀ m, circuit_breakers run.2 !! m = circuit_breakers w !! m
         ∨ (circuit_breakers run.2 !! m = Some (Router.CbState 0 0)
            ∧ ∃ s, s ∈ services ∧ is_enabled s = true ∧ name s = m).
Proof.
  revert available w.
  induction services as [|s rest IH]; intros available w run; subst run.
  { split; [|by left]. exists []. split; [by rewrite app_nil_r|].
    intros s Hs. by apply elem_of_nil in Hs. }
  simpl. destruct (is_enabled s) eqn:Hen; simpl.
  2:{ destruct (IH available w) as [(l & Hl & Hin) Hst]. split.
      - exists l. split; [done|]. intros s' Hs'.
        destruct (Hin s' Hs'). split; [by right|done].
      - intros m. destruct (Hst m) as [?|[? (s' & ? & ? & ?)]]; [by left|].
        right. split; [done|]. exists s'. split; [by right|done]. }
  unfold bind. rewrite router_is_open_run.
  set (w1 := World _ (net_log w) (clock_reads w)).
  assert (∀ m, circuit_breakers w1 !! m = circuit_breakers w !! m
               ∨ (circuit_breakers w1 !! m = Some (Router.CbState 0 0)
                  ∧ name s = m)) as Hw1.
  { intros m. subst w1. simpl. destruct (Router.expired _ _ _ _); [|by left].
    destruct (decide (name s = m)) as [<-|Hne].
    - right. by rewrite lookup_insert_eq.
    - left. by rewrite lookup_insert_ne. }
  clearbody w1.
  assert (∀ av,
    let run := Router.available_loop cfg now rest av w1 in
    ∀ m, circuit_breakers run.2 !! m = circuit_breakers w !! m
         ∨ (circuit_breakers run.2 !! m = Some (Router.CbState 0 0)
            ∧ ∃ s0, s0 ∈ s :: rest ∧ is_enabled s0 = true ∧ name s0 = m))
    as Hstore.
  { intros av run m. subst run.
    destruct (IH av w1) as [_ Hst].
    destruct (Hst m) as [Hsame|[Hreset (s' & ? & ? & ?)]].
    - rewrite Hsame. destruct (Hw1 m) as [?|[? ?]]; [by left|].
      right. split; [done|]. exists s. split; [by left|done].
    - right. split; [done|]. exists s'. split; [by right|done]. }
  destruct (Router.is_open cfg now (circuit_breakers w) (name s)).
  - split; [|apply Hstore].
    destruct (IH available w1) as [(l & Hl & Hin) _].
    exists l. split; [done|]. intros s' Hs'.
    destruct (Hin s' Hs'). split; [by right|done].
  - split; [|apply Hstore].
    destruct (IH (available ++ [s]) w1) as [(l & Hl & Hin) _].
    exists (s :: l). split; [by rewrite Hl, <- app_assoc|].
    intros s' [->|Hs']%elem_of_cons; [split; [by left|done]|].
    destruct (Hin s' Hs'). split; [by right|done].
Qed.

Lemma fixed_sweep_lookup_frame (cfg : config) (now : Z)
    (services : list service) (cbs : gmap string Fixed.circuit_data)
    (m : string) :
  (∀ s, s ∈ services → is_enabled s = true → name s ≠ m) →
  Fixed.sweep cfg now services cbs !! m = cbs !! m.
Proof.
  revert cbs. induction services as [|s rest IH]; intros cbs Hno; [done|].
  simpl.
  assert (∀ s', s' ∈ rest → is_enabled s' = true → name s' ≠ m) as Hrest.
  { intros s' Hs'. apply Hno. by right. }
  destruct (is_enabled s) eqn:Hen; simpl; [|by apply IH].
  destruct (Fixed.expired cfg now cbs (name s)); [|by apply IH].
  rewrite IH by done. apply lookup_insert_ne. apply Hno; [by left|done].
Qed.

Lemma router_candidates_configured (e : env) (cfg : config)
    (w : world Router.cb_state) (s : service) :
  s ∈ (Router.get_available_services e cfg w).1 →
  s ∈ services_of cfg ∧ is_enabled s = true.
Proof.
  unfold Router.get_available_services, bind, time_time, ret. simpl.
  destruct (router_available_loop_sound cfg (clock e (clock_reads w))
              (services_of cfg) []
              (World (circuit_breakers w) (net_log w)
                 (S (clock_reads w)))) as [(l & Hl & Hin) _].
  destruct (Router.available_loop _ _ _ _ _) as [l' w1].
  simpl in *. subst l'. rewrite elem_of_sorted. apply Hin.
Qed.

Lemma fixed_candidates_configured (e : env) (cfg : config)
    (w : world Fixed.circuit_data) (s : service) :
  s ∈ (Fixed.get_available_services e cfg w).1 →
  s ∈ services_of cfg ∧ is_enabled s = true.
Proof.
  rewrite fixed_get_available_services_run. simpl.
  rewrite elem_of_sorted, list_elem_of_filter.
  unfold Fixed.kept. intros [Hk Hin]. split; [done|].
  by destruct (is_enabled s).
Qed.

(** X4. Whatever the breaker store and the thresholds, the candidates of
    [get_available_services] are enabled services of the configuration, in
    ascending order of priority; selecting them makes no network call and
    reads the clock once.  This holds for both routers. *)
Theorem X4_candidates_enabled_configured_ascending
    (e : env) (cfg : config) :
  (∀ w : world Router.cb_state,
     let sel := Router.get_available_services e cfg w in
     ascending priority_key sel.1
     ∧ (∀ s, s ∈ sel.1 → s ∈ services_of cfg ∧ is_enabled s = true)
     ∧ net_log sel.2 = net_log w
     ∧ clock_reads sel.2 = S (clock_reads w))
  ∧
  (∀ w : world Fixed.circuit_data,
     let sel := Fixed.get_available_services e cfg w in
     ascending priority_key sel.1
     ∧ (∀ s, s ∈ sel.1 → s ∈ services_of cfg ∧ is_enabled s = true)
     ∧ net_log sel.2 = net_log w
     ∧ clock_reads sel.2 = S (clock_reads w)).
Proof.
  split; intros w sel.
  - destruct (router_get_available_services_log e cfg w) as [Hlog Hreads].
    fold sel in Hlog, Hreads. split; [|split; [|done]].
    + subst sel. unfold Router.get_available_services, bind, time_time, ret.
      simpl. destruct (Router.available_loop _ _ _ _ _) as [l w1].
      apply sorted_ascending.
    + intros s. apply router_candidates_configured.
  - split; [|split].
    + subst sel. rewrite fixed_get_available_services_run. simpl.
      apply sorted_ascending.
    + intros s. apply fixed_candidates_configured.
    + subst sel. by rewrite fixed_get_available_services_run.
Qed.

(** X5. [get_available_services] never creates or changes the breaker
    entry of a name that is not the name of an enabled service of the
    configuration; an entry it changes is reset, to no failures in
    [lambda_function.py] and to half-open without failures in
    [lambda_function_fixed.py]. *)
Theorem X5_selection_resets_or_keeps_entries (e : env) (cfg : config)
    (m : string) :
  (∀ w : world Router.cb_state,
     let cbs' := circuit_breakers (Router.get_available_services e cfg w).2 in
     (cbs' !! m = circuit_breakers w !! m
      ∨ cbs' !! m = Some (Router.CbState 0 0))
     ∧ ((∀ s, s ∈ services_of cfg → is_enabled s = true → name s ≠ m) →
        cbs' !! m = circuit_breakers w !! m))
  ∧
  (∀ w : world Fixed.circuit_data,
     let cbs' := circuit_breakers (Fixed.get_available_services e cfg w).2 in
     (cbs' !! m = circuit_breakers w !! m
      ∨ cbs' !! m = Some (Fixed.CircuitData Fixed.half_open 0 0))
     ∧ ((∀ s, s ∈ services_of cfg → is_enabled s = true → name s ≠ m) →
        cbs' !! m = circuit_breakers w !! m)).
Proof.
  split; intros w cbs'; subst cbs'.
  - unfold Router.get_available_services, bind, time_time, ret. simpl.
    destruct (router_available_loop_sound cfg (clock e (clock_reads w))
                (services_of cfg) []
                (World (circuit_breakers w) (net_log w)
                   (S (clock_reads w)))) as [_ Hst].
    destruct (Router.available_loop _ _ _ _ _) as [l' w1].
    simpl in *. specialize (Hst m). split.
    + destruct Hst as [?|[? _]]; [by left|by right].
    + intros Hno. destruct Hst as [?|[_ (s & Hin & Hen & Hname)]]; [done|].
      by destruct (Hno s Hin Hen).
  - rewrite fixed_get_available_services_run. simpl. split.
    + apply fixed_sweep_lookup_cases.
    + apply fixed_sweep_lookup_frame.
Qed.
(** ** What the handler of [lambda_function.py] can answer *)

Lemma router_success_response_body st hs bd txt :
  ∃ text, Router.body (Router.success_response st hs bd txt) = BodyStr text.
Proof. unfold Router.success_response. destruct (any _ _); by eexists. Qed.

(** A response returned from inside the loop carries a status below 400
    and a text. *)
Lemma router_loop_return_shape (e : env) (req : Router.request)
    (cands : list service) (last_error : option string)
    (w : world Router.cb_state) r w' :
  Router.try_services e req cands last_error w = (Router.LoopReturn r, w') →
  Router.statusCode r < 400 ∧ ∃ text, Router.body r = BodyStr text.
Proof.
  revert last_error w.
  induction cands as [|s rest IH]; intros last_error w Hrun; [done|].
  rewrite router_try_services_cons in Hrun. cbv zeta in Hrun.
  destruct (negb _); [by eapply IH|].
  destruct (Router.forward e s req _) as [[[st hs] bd] w1].
  cbn [fst snd] in *. destruct (Z.ltb_spec st 400); [|by eapply IH].
  destruct (Router.decode_body bd); [|done].
  injection Hrun as <- _.
  rewrite (proj1 (router_success_response_status _ _ _ _)).
  split; [done|apply router_success_response_body].
Qed.

Lemma router_route_shape (e : env) (cfg : config) (req : Router.request)
    (w : world Router.cb_state) :
  let r := (Router.route e cfg req w).1 in
  (Router.statusCode r < 400 ∧ ∃ text, Router.body r = BodyStr text)
  ∨ ((Router.statusCode r = 500 ∨ Router.statusCode r = 503)
     ∧ Router.headers r = Router.json_headers
     ∧ Router.isBase64Encoded r = None
     ∧ ∃ d, Router.body r = BodyJson d).
Proof.
  cbv zeta. rewrite router_route_run. cbv zeta.
  destruct (Router.get_available_services e cfg w) as [[|s cands] w0];
    cbn [fst snd].
  { right. split; [by right|]. split; [done|]. split; [done|by eexists]. }
  destruct (Router.try_services e req (s :: cands) None w0)
    as [[r|ex|le] w1] eqn:Hrun; cbn [fst snd].
  - left. by eapply router_loop_return_shape.
  - right. split; [by left|]. split; [done|]. split; [done|by eexists].
  - right. split; [by right|]. split; [done|]. split; [done|by eexists].
Qed.

(** X6. Whatever the event, the backends and the stored breakers,
    [lambda_handler] of [lambda_function.py] answers either with a status
    below 400 and a text body (a backend's response), or with status 500 or
    503, the JSON headers and a JSON body of its own.  A backend's status of
    400 or more, and the 405 and 504 of [forward_request], never reach the
    caller. *)
Theorem X6_router_handler_status_and_shape (e : env) (cfg : config)
    (ev : Router.event) (w : world Router.cb_state) :
  let r := (Router.lambda_handler e cfg ev w).1 in
  (Router.statusCode r < 400 ∧ ∃ text, Router.body r = BodyStr text)
  ∨ ((Router.statusCode r = 500 ∨ Router.statusCode r = 503)
     ∧ Router.headers r = Router.json_headers
     ∧ Router.isBase64Encoded r = None
     ∧ ∃ d, Router.body r = BodyJson d).
Proof.
  cbv zeta. unfold Router.lambda_handler, bind at 1, put_breakers.
  destruct (Router.ev_body ev) as [|[|c s]|[bs|]];
    try apply router_route_shape.
  right. split; [by left|]. split; [done|]. split; [done|by eexists].
Qed.

(** ** The calls of a request in [lambda_function.py] *)

Lemma router_try_services_calls (e : env) (req : Router.request)
    (cands : list service) (last_error : option string)
    (w : world Router.cb_state) :
  ∃ calls,
    net_log (Router.try_services e req cands last_error w).2
      = net_log w ++ calls
    ∧ calls `sublist_of`
        flat_map (λ s, [Router.health_call s; Router.forward_call s req])
          cands.
Proof.
  revert last_error w.
  induction cands as [|s rest IH]; intros last_error w.
  { exists []. simpl. by rewrite app_nil_r. }
  rewrite router_try_services_cons. cbv zeta.
  set (hc := if bool_decide (Router.path req ∈ Router.critical_paths)
             then Router.health_check_service e s w else (true, w)).
  assert (∃ l0, net_log hc.2 = net_log w ++ l0
                ∧ l0 `sublist_of` [Router.health_call s]) as (l0 & Hl0 & Hs0).
  { subst hc. case_bool_decide.
    - rewrite router_health_check_run. by eexists.
    - exists []. simpl. rewrite app_nil_r. split; [done|].
      apply sublist_nil_l. }
  cbn [flat_map].
  destruct (negb hc.1).
  { destruct (IH last_error (Router.record_failure e (name s) hc.2).2)
      as (l & Hl & Hsub).
    exists (l0 ++ l). split.
    - by rewrite Hl, router_record_failure_log, Hl0, app_assoc.
    - change ([Router.health_call s; Router.forward_call s req] ++ ?r)
        with ([Router.health_call s] ++ Router.forward_call s req :: r).
      apply sublist_app; [done|]. by apply sublist_cons. }
  pose proof (router_forward_log e s req hc.2) as Hfw.
  assert (∃ l1, net_log (Router.forward e s req hc.2).2 = net_log w ++ l1
                ∧ l1 `sublist_of`
                    [Router.health_call s; Router.forward_call s req])
    as (l1 & Hl1 & Hs1).
  { exists (l0 ++ if bool_decide
                       (Router.http_method req ∈ Router.supported_methods)
                  then [Router.forward_call s req] else []).
    split; [by rewrite Hfw, Hl0, app_assoc|].
    change [Router.health_call s; Router.forward_call s req]
      with ([Router.health_call s] ++ [Router.forward_call s req]).
    apply sublist_app; [done|]. case_bool_decide; [done|].
    apply sublist_nil_l. }
  clear Hfw.
  destruct (Router.forward e s req hc.2) as [[[st hs] bd] w1].
  cbn [fst snd] in *. destruct (st <? 400).
  - exists l1. cbn [snd]. rewrite router_record_success_log.
    split; [done|].
    change ([Router.health_call s; Router.forward_call s req] ++ ?r)
      with ([Router.health_call s; Router.forward_call s req] ++ r).
    rewrite <- (app_nil_r l1). apply sublist_app; [done|apply sublist_nil_l].
  - destruct (IH (Some (Router.failure_description s st))
                (Router.record_failure e (name s) w1).2) as (l & Hl & Hsub).
    exists (l1 ++ l). split.
    + by rewrite Hl, router_record_failure_log, Hl1, app_assoc.
    + by apply sublist_app.
Qed.

Lemma router_route_calls (e : env) (cfg : config)
    (req : Router.request) (w : world Router.cb_state) :
  let sel := Router.get_available_services e cfg w in
  ∃ calls,
    net_log (Router.route e cfg req w).2 = net_log w ++ calls
    ∧ calls `sublist_of`
        flat_map (λ s, [Router.health_call s; Router.forward_call s req])
          sel.1.
Proof.
  intros sel. rewrite router_route_run. cbv zeta. fold sel.
  destruct (router_get_available_services_log e cfg w) as [Hsel _].
  fold sel in Hsel.
  destruct (router_try_services_calls e req sel.1 None sel.2)
    as (calls & Hlog & Hsub).
  rewrite Hsel in Hlog.
  destruct sel.1 as [|s cands] eqn:Hcands.
  { exists []. cbn [fst snd ticked net_log]. rewrite app_nil_r.
    split; [done|apply sublist_nil_l]. }
  exists calls. split; [|done].
  destruct (Router.try_services e req (s :: cands) None sel.2)
    as [[r|ex|le] w1]; cbn [fst snd] in *; try done.
Qed.

(** X7. The calls [route] of [lambda_function.py] makes for a request are,
    in this order, a subsequence of: for each candidate in priority order,
    its health probe, then the forwarded request.  So no service outside
    the candidates is called, no candidate is probed or forwarded to more
    often than it occurs in the list, and a candidate is never called after
    a candidate that follows it; there are at most two calls for each
    candidate. *)
Theorem X7_router_calls_follow_candidates (e : env) (cfg : config)
    (req : Router.request) (w : world Router.cb_state) :
  let sel := Router.get_available_services e cfg w in
  ∃ calls,
    net_log (Router.route e cfg req w).2 = net_log w ++ calls
    ∧ calls `sublist_of`
        flat_map (λ s, [Router.health_call s; Router.forward_call s req])
          sel.1
    ∧ (List.length calls ≤ 2 * List.length sel.1)%nat.
Proof.
  intros sel.
  destruct (router_route_calls e cfg req w) as (calls & Hlog & Hsub).
  fold sel in Hsub.
  exists calls. split; [done|]. split; [done|].
  apply sublist_length in Hsub. rewrite Hsub.
  clear. induction sel.1 as [|s l IH]; simpl; lia.
Qed.

Lemma router_try_services_prefix (e : env) (req : Router.request)
    (cands : list service) (last_error : option string)
    (w : world Router.cb_state) :
  Router.path req ∉ Router.critical_paths →
  Router.http_method req ∈ Router.supported_methods →
  let run := Router.try_services e req cands last_error w in
  ∃ tried rest,
    cands = tried ++ rest
    ∧ net_log run.2
      = net_log w ++ map (λ s, Router.forward_call s req) tried
    ∧ match run.1 with
      | Router.LoopExhausted _ => rest = []
      | _ => tried ≠ []
      end.
Proof.
  intros Hpath Hmeth. revert last_error w.
  induction cands as [|s rest IH]; intros last_error w run; subst run.
  { exists [], []. simpl. by rewrite app_nil_r. }
  rewrite router_try_services_cons. cbv zeta.
  rewrite bool_decide_eq_false_2 by done. cbn [fst snd negb].
  pose proof (router_forward_log e s req w) as Hfw.
  rewrite bool_decide_eq_true_2 in Hfw by done.
  destruct (Router.forward e s req w) as [[[st hs] bd] w1].
  cbn [fst snd] in *.
  destruct (st <? 400).
  - exists [s], rest. cbn [fst snd]. rewrite router_record_success_log.
    split; [done|]. split; [done|]. by destruct (Router.decode_body bd).
  - destruct (IH (Some (Router.failure_description s st))
                (Router.record_failure e (name s) w1).2)
      as (tried & rest' & -> & Hlog & Hexit).
    exists (s :: tried), rest'. split; [done|]. split.
    + rewrite Hlog, router_record_failure_log, Hfw. simpl.
      by rewrite <- app_assoc.
    + destruct (Router.try_services e req _ _ _).1; done.
Qed.

(** The calls of [route] are those of its loop. *)
Lemma router_route_log (e : env) (cfg : config) (req : Router.request)
    (w : world Router.cb_state) :
  let sel := Router.get_available_services e cfg w in
  net_log (Router.route e cfg req w).2
  = net_log (Router.try_services e req sel.1 None sel.2).2.
Proof.
  intros sel. rewrite router_route_run. cbv zeta. fold sel.
  destruct sel.1 as [|s cands]; [done|].
  by destruct (Router.try_services e req (s :: cands) None sel.2)
    as [[r|ex|le] w1].
Qed.

(** X8. In [lambda_function.py], a request with a supported method for a
    path other than [/upload] and [/download] is forwarded to the
    candidates one after the other in priority order, without skipping any,
    until one answers with a status below 400: the calls made are the
    forwarded requests of an initial segment of the candidate list.  The
    answer is a 503 only if that segment is the whole list, and a request
    answered otherwise has been forwarded at least once. *)
Theorem X8_router_forwards_to_initial_segment (e : env) (cfg : config)
    (req : Router.request) (w : world Router.cb_state) :
  Router.path req ∉ Router.critical_paths →
  Router.http_method req ∈ Router.supported_methods →
  let sel := Router.get_available_services e cfg w in
  let run := Router.route e cfg req w in
  ∃ tried rest,
    sel.1 = tried ++ rest
    ∧ net_log run.2
      = net_log w ++ map (λ s, Router.forward_call s req) tried
    ∧ (Router.statusCode run.1 = 503 → rest = [])
    ∧ (Router.statusCode run.1 ≠ 503 → tried ≠ []).
Proof.
  intros Hpath Hmeth sel run. subst run.
  rewrite router_route_run. cbv zeta. fold sel.
  destruct (router_get_available_services_log e cfg w) as [Hsel _].
  fold sel in Hsel.
  destruct (router_try_services_prefix e req sel.1 None sel.2 Hpath Hmeth)
    as (tried & rest & Hcands & Hlog & Hexit).
  rewrite Hsel in Hlog.
  destruct sel.1 as [|s cands] eqn:Hc.
  { exists [], []. cbn [fst snd ticked net_log map]. rewrite !app_nil_r.
    split; [done|]. split; [done|]. split; [done|].
    intros Hno. by destruct Hno. }
  exists tried, rest. split; [done|].
  destruct (Router.try_services e req (s :: cands) None sel.2)
    as [[r|ex|le] w1] eqn:Hrun; cbn [fst snd] in *.
  - split; [done|]. split; [|done].
    intros H503. apply router_loop_return_shape in Hrun as [Hlt _]. lia.
  - unfold Router.internal_error, bind, time_time, ret. cbn [fst snd].
    split; [done|]. split; [done|]. done.
  - split; [done|]. split; [done|]. intros Hno. by destruct Hno.
Qed.

(** ** Unsupported methods and undecodable bodies in [lambda_function.py] *)

Lemma router_try_services_unsupported (e : env) (req : Router.request)
    (cands : list service) (last_error : option string)
    (w : world Router.cb_state) :
  Router.path req ∉ Router.critical_paths →
  Router.http_method req ∉ Router.supported_methods →
  let run := Router.try_services e req cands last_error w in
  run.1 = Router.LoopExhausted
            (match last cands with
             | Some s => Some (Router.failure_description s 405)
             | None => last_error
             end)
  ∧ net_log run.2 = net_log w.
Proof.
  intros Hpath Hmeth. revert last_error w.
  induction cands as [|s rest IH]; intros last_error w run; subst run;
    [done|].
  rewrite router_try_services_cons. cbv zeta.
  rewrite bool_decide_eq_false_2 by done. cbn [fst snd negb].
  rewrite router_forward_run, bool_decide_eq_false_2 by done.
  cbn [fst snd]. change (405 <? 400) with false. cbv iota.
  destruct (IH (Some (Router.failure_description s 405))
              (Router.record_failure e (name s) w).2) as [Hexit Hlog].
  rewrite Hexit, Hlog, router_record_failure_log. split; [|done].
  f_equal. rewrite last_cons. by destruct (last rest).
Qed.

(** X9. In [lambda_function.py], a request whose method is not [GET],
    [POST], [PUT] or [DELETE] (the comparison is exact: [get] is not
    [GET]), for a path other than [/upload] and [/download], is sent to no
    backend; yet a failure is recorded for every candidate, and the answer
    is the 503 whose [last_error] names the last candidate and the status
    405. *)
Theorem X9_router_unsupported_method_fails_every_candidate
    (e : env) (cfg : config) (req : Router.request)
    (w : world Router.cb_state) (s : service) :
  Router.path req ∉ Router.critical_paths →
  Router.http_method req ∉ Router.supported_methods →
  let sel := Router.get_available_services e cfg w in
  let run := Router.route e cfg req w in
  last sel.1 = Some s →
  (∃ t, run.1 = Router.all_failed_response
                  (Some ("Service " ++ name s ++ " returned status 405")%string)
                  t)
  ∧ net_log run.2 = net_log w
  ∧ ∀ n, Router.failures (Router.entry (circuit_breakers run.2) n)
         = Router.failures (Router.entry (circuit_breakers sel.2) n)
           + occurrences n sel.1.
Proof.
  intros Hpath Hmeth sel run Hlast. subst run.
  rewrite router_route_run. cbv zeta. fold sel.
  destruct (router_get_available_services_log e cfg w) as [Hsel _].
  fold sel in Hsel.
  destruct (router_try_services_unsupported e req sel.1 None sel.2
              Hpath Hmeth) as [Hexit Hlog].
  rewrite Hlast in Hexit.
  pose proof (router_exhausted_failures e req sel.1 None sel.2) as Hcount.
  destruct sel.1 as [|s0 cands] eqn:Hc; [done|].
  destruct (Router.try_services e req (s0 :: cands) None sel.2)
    as [ex w1]. cbn [fst snd] in *. subst ex.
  cbn [fst snd ticked net_log circuit_breakers].
  split; [by eexists|]. split; [by rewrite Hlog|].
  by eapply Hcount.
Qed.

(** X10. In [lambda_function.py], when a candidate answers a forwarded
    request with a status below 400 and a non-empty body that is not valid
    UTF-8, whatever its content type, the success is recorded and the
    handler then answers 500 with the decoding error; no other candidate is
    tried. *)
Theorem X10_router_undecodable_body_is_500 (e : env) (cfg : config)
    (req : Router.request) (w : world Router.cb_state)
    (s : service) (rest : list service) (resp : http_response) :
  Router.path req ∉ Router.critical_paths →
  Router.http_method req ∈ Router.supported_methods →
  let sel := Router.get_available_services e cfg w in
  let call := Router.forward_call s req in
  let run := Router.route e cfg req w in
  sel.1 = s :: rest →
  transport e (net_log sel.2) call = Responded resp →
  status_code resp < 400 →
  utf8_valid (content resp) = false →
  (∃ t, run.1
        = {| Router.statusCode := 500;
             Router.headers := Router.json_headers;
             Router.body :=
               Router.internal_error_body
                 (UnicodeDecodeError (content resp)) t;
             Router.isBase64Encoded := None |})
  ∧ net_log run.2 = net_log w ++ [call]
  ∧ circuit_breakers run.2
    = circuit_breakers (Router.record_success (name s) sel.2).2.
Proof.
  intros Hpath Hmeth sel call run Hsel Ht Hst Hbad. subst run.
  rewrite router_route_run. cbv zeta. fold sel. rewrite Hsel.
  destruct (router_get_available_services_log e cfg w) as [Hlog _].
  fold sel in Hlog.
  pose proof (router_candidate_success e req s rest None sel.2 resp) as Hrun.
  cbv zeta in Hrun. rewrite bool_decide_eq_false_2 in Hrun by done.
  cbn [fst snd] in Hrun. fold call in Hrun.
  rewrite (Hrun eq_refl Hmeth Ht Hst).
  assert (Router.decode_body (content resp) = None) as ->.
  { unfold Router.decode_body, decode_utf8. rewrite Hbad.
    destruct (content resp); [done|done]. }
  cbn [fst snd]. unfold Router.internal_error, bind, time_time, ret.
  cbn [fst snd net_log circuit_breakers].
  rewrite !router_record_success_run. cbn [snd net_log circuit_breakers].
  unfold logged. cbn [net_log circuit_breakers]. rewrite Hlog.
  split; [by eexists|]. done.
Qed.

(** X11. In [lambda_function.py], a successful answer is returned base64
    encoded exactly when its header of the exact name [content-type], in
    lower case, holds one of [application/pdf], [image/], [video/],
    [audio/]; the name of the header is compared as it is, so that an
    answer that declares its type under another spelling, as in
    [Content-Type], is returned as text. *)
Theorem X11_router_binary_by_lower_case_header_name (e : env) (cfg : config)
    (req : Router.request) (w : world Router.cb_state)
    (s : service) (rest : list service) (resp : http_response)
    (text : string) :
  Router.path req ∉ Router.critical_paths →
  Router.http_method req ∈ Router.supported_methods →
  let sel := Router.get_available_services e cfg w in
  let run := Router.route e cfg req w in
  let binary :=
    any (λ marker,
           str_contains marker
             (lower (default EmptyString
                       (resp_headers resp !! "content-type"))))
      ["application/pdf"; "image/"; "video/"; "audio/"]%string in
  sel.1 = s :: rest →
  transport e (net_log sel.2) (Router.forward_call s req) = Responded resp →
  status_code resp < 400 →
  Router.decode_body (content resp) = Some text →
  Router.statusCode run.1 = status_code resp
  ∧ Router.body run.1
    = (if binary then BodyStr (b64encode (content resp)) else BodyStr text)
  ∧ Router.isBase64Encoded run.1 = (if binary then Some true else None)
  ∧ (resp_headers resp !! "content-type" = None →
     Router.body run.1 = BodyStr text
     ∧ Router.isBase64Encoded run.1 = None).
Proof.
  intros Hpath Hmeth sel run binary Hsel Ht Hst Htext. subst run.
  rewrite router_route_run. cbv zeta. fold sel. rewrite Hsel.
  pose proof (router_candidate_success e req s rest None sel.2 resp) as Hrun.
  cbv zeta in Hrun. rewrite bool_decide_eq_false_2 in Hrun by done.
  cbn [fst snd] in Hrun.
  rewrite (Hrun eq_refl Hmeth Ht Hst), Htext. cbn [fst snd].
  unfold Router.success_response.
  rewrite hop_filter_lookup.
  rewrite bool_decide_eq_false_2
    by (intros Hin; repeat (apply elem_of_cons in Hin as [?|Hin]; [done|]);
        by apply elem_of_nil in Hin).
  change (any _ Router.binary_content_types) with binary.
  assert (resp_headers resp !! "content-type" = None → binary = false)
    as Hnone.
  { intros Hn. subst binary. rewrite Hn. by vm_compute. }
  clearbody binary.
  destruct binary; cbn; (split; [done|]); (split; [done|]);
    (split; [done|]); intros Hn; by specialize (Hnone Hn).
Qed.
(** ** What [forward_request] of [lambda_function_fixed.py] can answer *)

Lemma fixed_is_success_iff (r : http_response) :
  Fixed.is_success r = true ↔ 200 ≤ status_code r < 300.
Proof.
  unfold Fixed.is_success. rewrite andb_true_iff, Z.leb_le, Z.ltb_lt. done.
Qed.

Lemma fixed_forward_request_shape (e : env) (cfg : config)
    (path method : string) (headers : gmap string string)
    (body : option (list byte)) (query_params : option (gmap string string))
    (w : world Fixed.circuit_data) :
  let r :=
    (Fixed.forward_request e cfg path method headers body query_params w).1 in
  (200 ≤ r.1.1 < 300 ∧ ∃ text, r.2 = BodyStr text)
  ∨ ((r.1.1 = 400 ∨ r.1.1 = 503) ∧ r.1.2 = ∅ ∧ ∃ d, r.2 = BodyJson d).
Proof.
  cbv zeta. rewrite fixed_forward_request_run. cbv zeta.
  destruct (Fixed.get_available_services e cfg w) as [[|first more] w0];
    cbn [fst snd].
  { right. split; [by right|]. split; [done|by eexists]. }
  case_bool_decide as Hm.
  2:{ right. split; [by left|]. split; [done|by eexists]. }
  set (c1 := Fixed.service_call cfg path method headers body query_params
               first).
  destruct (transport e (net_log w0) c1) as [resp|ex].
  2:{ right. split; [by right|]. split; [done|by eexists]. }
  destruct (Fixed.is_success resp) eqn:Hok.
  { left. apply fixed_is_success_iff in Hok. split; [done|by eexists]. }
  rewrite fixed_try_next_run by done.
  set (w2 := (Fixed.record_failure e cfg (name first) (logged w0 c1)).2).
  clearbody w2.
  destruct (filter (λ s, name s ≠ name first) more) as [|next others].
  { right. split; [by right|]. split; [done|by eexists]. }
  set (c2 := Fixed.service_call cfg path method headers body query_params
               next).
  destruct (transport e (net_log w2) c2) as [respn|ex];
    [destruct (Fixed.is_success respn) eqn:Hokn|]; cbn [fst snd].
  - left. apply fixed_is_success_iff in Hokn. split; [done|by eexists].
  - right. split; [by right|]. split; [done|by eexists].
  - right. split; [by right|]. split; [done|by eexists].
Qed.

(** X12. Whatever the request, the backends and the stored breakers,
    [forward_request] of [lambda_function_fixed.py] answers either with a
    status in [200, 300) and a text body (a backend's response), or with
    status 400 or 503, no header and a JSON body of its own; a backend's
    status outside [200, 300) never reaches the caller.  It makes at most
    two network calls. *)
Theorem X12_fixed_forward_request_status_and_shape (e : env) (cfg : config)
    (path method : string) (headers : gmap string string)
    (body : option (list byte)) (query_params : option (gmap string string))
    (w : world Fixed.circuit_data) :
  let run :=
    Fixed.forward_request e cfg path method headers body query_params w in
  ((200 ≤ run.1.1.1 < 300 ∧ ∃ text, run.1.2 = BodyStr text)
   ∨ ((run.1.1.1 = 400 ∨ run.1.1.1 = 503)
      ∧ run.1.1.2 = ∅ ∧ ∃ d, run.1.2 = BodyJson d))
  ∧ ∃ calls, net_log run.2 = net_log w ++ calls
             ∧ (List.length calls ≤ 2)%nat.
Proof.
  intros run. split; [apply fixed_forward_request_shape|].
  destruct (fixed_forward_request_calls e cfg path method headers body
              query_params w) as (calls & Hlog & _ & Hlen).
  by exists calls.
Qed.

(** X13. In [lambda_function_fixed.py], a request whose method, in upper
    case, is not [GET], [POST], [PUT] or [DELETE] is answered 400 "Bad
    request" as soon as there is a candidate: no call is made and no
    failure is recorded, the manager being left as the selection left
    it. *)
Theorem X13_fixed_unsupported_method_is_400 (e : env) (cfg : config)
    (path method : string) (headers : gmap string string)
    (body : option (list byte)) (query_params : option (gmap string string))
    (w : world Fixed.circuit_data) :
  upper method ∉ Fixed.supported_methods →
  let sel := Fixed.get_available_services e cfg w in
  let run :=
    Fixed.forward_request e cfg path method headers body query_params w in
  sel.1 ≠ [] →
  run.1 = (400, ∅,
           BodyJson [("error", JStr "Bad request");
                     ("message",
                      JStr ("Unsupported HTTP method: " ++ method))])
  ∧ run.2 = sel.2
  ∧ net_log run.2 = net_log w.
Proof.
  intros Hm sel run Hne. subst run.
  rewrite fixed_forward_request_run. cbv zeta. fold sel.
  assert (net_log sel.2 = net_log w) as Hlog
    by (subst sel; by rewrite fixed_get_available_services_run).
  destruct sel.1 as [|first more]; [done|].
  by rewrite bool_decide_eq_false_2 by done.
Qed.

(** X14. In [lambda_function_fixed.py], when the call to the first
    candidate raises (a timeout, a refused connection, any exception), a
    failure is recorded for it and the request is answered 503 at once,
    with the exception's message in [last_error]: no other candidate is
    called, however many there are. *)
Theorem X14_fixed_exception_is_503_without_fallback (e : env) (cfg : config)
    (path method : string) (headers : gmap string string)
    (body : option (list byte)) (query_params : option (gmap string string))
    (w : world Fixed.circuit_data) (first : service) (more : list service)
    (ex : exn) :
  let sel := Fixed.get_available_services e cfg w in
  let call :=
    Fixed.service_call cfg path method headers body query_params first in
  let run :=
    Fixed.forward_request e cfg path method headers body query_params w in
  let w1 := (Fixed.record_failure e cfg (name first) (logged sel.2 call)).2 in
  sel.1 = first :: more →
  upper method ∈ Fixed.supported_methods →
  transport e (net_log sel.2) call = Raised ex →
  run.1 = (503, ∅,
           Fixed.all_failed_body
             ("Service " ++ name first ++ " error: " ++ exn_str ex)
             (clock e (clock_reads w1)))
  ∧ net_log run.2 = net_log w ++ [call]
  ∧ circuit_breakers run.2 = circuit_breakers w1
  ∧ Fixed.failures (Fixed.entry (circuit_breakers run.2) (name first))
    = Fixed.failures (Fixed.entry (circuit_breakers sel.2) (name first)) + 1.
Proof.
  intros sel call run w1 Hsel Hm Ht. subst run.
  rewrite fixed_forward_request_run. cbv zeta. fold sel.
  assert (net_log sel.2 = net_log w) as Hlog
    by (subst sel; by rewrite fixed_get_available_services_run).
  rewrite Hsel, bool_decide_eq_true_2 by done. fold call. rewrite Ht.
  fold w1. unfold Fixed.all_failed. cbn [fst snd].
  unfold ticked. cbn [net_log circuit_breakers].
  split; [done|]. subst w1. rewrite fixed_record_failure_run.
  cbn [snd net_log circuit_breakers logged]. rewrite Hlog.
  split; [done|]. split; [done|].
  unfold Fixed.entry at 1. by rewrite lookup_insert_eq.
Qed.

(** X15. In [lambda_function_fixed.py], when the first candidate and the
    fallback candidate both fail, the [last_error] of the 503 names the
    first candidate, with the status of the fallback's answer if the
    fallback answered, and with the status of the first candidate's answer
    if the call to the fallback raised; a failure is recorded for both. *)
Theorem X15_fixed_last_error_after_fallback (e : env) (cfg : config)
    (path method : string) (headers : gmap string string)
    (body : option (list byte)) (query_params : option (gmap string string))
    (w : world Fixed.circuit_data) (first next : service)
    (more others : list service) (respf : http_response) :
  let sel := Fixed.get_available_services e cfg w in
  let callf :=
    Fixed.service_call cfg path method headers body query_params in
  let run :=
    Fixed.forward_request e cfg path method headers body query_params w in
  let w1 :=
    (Fixed.record_failure e cfg (name first)
       (logged sel.2 (callf first))).2 in
  let w2 :=
    (Fixed.record_failure e cfg (name next) (logged w1 (callf next))).2 in
  sel.1 = first :: more →
  upper method ∈ Fixed.supported_methods →
  transport e (net_log sel.2) (callf first) = Responded respf →
  ¬ (200 ≤ status_code respf < 300) →
  filter (λ s, name s ≠ name first) more = next :: others →
  (∀ respn,
     transport e (net_log w1) (callf next) = Responded respn →
     ¬ (200 ≤ status_code respn < 300) →
     run = ((503, ∅,
             Fixed.all_failed_body
               ("Service " ++ name first ++ " returned status "
                ++ pretty (status_code respn))
               (clock e (clock_reads w2))), ticked w2))
  ∧ (∀ ex,
       transport e (net_log w1) (callf next) = Raised ex →
       run = ((503, ∅,
               Fixed.all_failed_body
                 ("Service " ++ name first ++ " returned status "
                  ++ pretty (status_code respf))
                 (clock e (clock_reads w2))), ticked w2)).
Proof.
  intros sel callf run w1 w2 Hsel Hm Ht Hbad Hrem.
  assert (Fixed.is_success respf = false) as Hbad'.
  { apply not_true_is_false. by rewrite fixed_is_success_iff. }
  assert (run
          = let next' :=
              Fixed.try_next e cfg path method headers body query_params
                (first :: more) (name first) respf w1 in
            match next'.1 with
            | inl result => (result, next'.2)
            | inr response' =>
              Fixed.all_failed e
                (Fixed.failure_description (name first) response') next'.2
            end) as Hrun.
  { subst run. rewrite fixed_forward_request_run. cbv zeta. fold sel.
    rewrite Hsel, bool_decide_eq_true_2 by done. fold callf.
    by rewrite Ht, Hbad'. }
  cbv zeta in Hrun. rewrite fixed_try_next_run, Hrem in Hrun by done.
  fold callf in Hrun. split.
  - intros respn Htn Hbadn. rewrite Htn in Hrun.
    assert (Fixed.is_success respn = false) as Hbadn'.
    { apply not_true_is_false. by rewrite fixed_is_success_iff. }
    rewrite Hbadn' in Hrun. exact Hrun.
  - intros ex Htn. rewrite Htn in Hrun. exact Hrun.
Qed.
(** ** The handler of [lambda_function_fixed.py] *)

(** [lambda_handler], once the configuration is loaded and the body
    decoded: [forward_request] on a manager without breaker entries, and
    the response built from its result. *)
Lemma fixed_lambda_handler_run (read_file : string → file_read) (e : env)
    (ev : Fixed.event) (w : world Fixed.circuit_data) (cfg : config) :
  read_file "config.json"%string = Loaded cfg →
  ¬ (default "GET"%string (Fixed.ev_httpMethod ev) = "POST"%string
     ∧ Fixed.ev_body ev = Fixed.Base64Body None) →
  Fixed.lambda_handler read_file e ev w
  = let fw :=
      Fixed.forward_request e cfg
        (default EmptyString (Fixed.ev_path ev))
        (default "GET"%string (Fixed.ev_httpMethod ev))
        (default ∅ (Fixed.ev_headers ev))
        (Fixed.forwarded_body ev)
        (default (Some ∅) (Fixed.ev_queryStringParameters ev))
        (World ∅ (net_log w) (clock_reads w)) in
    (Fixed.response_of fw.1, fw.2).
Proof.
  intros Hcfg Hbody. unfold Fixed.lambda_handler, Fixed.forwarded_body.
  rewrite Hcfg. cbv zeta. unfold bind at 1, put_breakers at 1.
  assert (∀ b,
    (let* r :=
       Fixed.forward_request e cfg
         (default EmptyString (Fixed.ev_path ev))
         (default "GET"%string (Fixed.ev_httpMethod ev))
         (default ∅ (Fixed.ev_headers ev)) b
         (default (Some ∅) (Fixed.ev_queryStringParameters ev)) in
     let '(status_code, response_headers, response_body) := r in
     if Fixed.is_binary
          (default EmptyString (response_headers !! "Content-Type"))
     then ret {| Fixed.statusCode := status_code;
                 Fixed.headers := Some response_headers;
                 Fixed.body := Fixed.encode_response_body response_body;
                 Fixed.isBase64Encoded := Some true |}
     else ret {| Fixed.statusCode := status_code;
                 Fixed.headers := Some response_headers;
                 Fixed.body := response_body;
                 Fixed.isBase64Encoded := Some false |})
      (World ∅ (net_log w) (clock_reads w))
    = let fw :=
        Fixed.forward_request e cfg
          (default EmptyString (Fixed.ev_path ev))
          (default "GET"%string (Fixed.ev_httpMethod ev))
          (default ∅ (Fixed.ev_headers ev)) b
          (default (Some ∅) (Fixed.ev_queryStringParameters ev))
          (World ∅ (net_log w) (clock_reads w)) in
      (Fixed.response_of fw.1, fw.2)) as Hfw.
  { intros b. cbv zeta. unfold bind at 1.
    destruct (Fixed.forward_request _ _ _ _ _ _ _ _) as [[[st hs] bd] w1].
    unfold Fixed.response_of. cbn [fst snd].
    by destruct (Fixed.is_binary _). }
  case_decide as Hpost; [|apply Hfw].
  destruct (Fixed.ev_body ev) as [|s|[bs|]]; try apply Hfw.
  by destruct Hbody.
Qed.

Lemma fixed_lambda_handler_500 (read_file : string → file_read) (e : env)
    (ev : Fixed.event) (w : world Fixed.circuit_data) :
  (∀ cfg, read_file "config.json"%string ≠ Loaded cfg)
  ∨ (default "GET"%string (Fixed.ev_httpMethod ev) = "POST"%string
     ∧ Fixed.ev_body ev = Fixed.Base64Body None) →
  let run := Fixed.lambda_handler read_file e ev w in
  (∃ error, run.1 = Fixed.internal_error_response error)
  ∧ net_log run.2 = net_log w
  ∧ clock_reads run.2 = clock_reads w.
Proof.
  intros Hcase run. subst run. unfold Fixed.lambda_handler.
  destruct (read_file "config.json"%string) as [|msg|cfg] eqn:Hread.
  - split; [by eexists|done].
  - split; [by eexists|done].
  - destruct Hcase as [Hno|[Hpost Hbody]]; [by destruct (Hno cfg)|].
    cbv zeta. rewrite Hpost, Hbody. unfold bind, put_breakers, ret. simpl.
    split; [by eexists|done].
Qed.

(** The calls of [forward_request] are the calls for candidates. *)
Lemma fixed_forward_request_service_calls (e : env) (cfg : config)
    (path method : string) (headers : gmap string string)
    (body : option (list byte)) (query_params : option (gmap string string))
    (w : world Fixed.circuit_data) :
  let sel := Fixed.get_available_services e cfg w in
  let callf :=
    Fixed.service_call cfg path method headers body query_params in
  ∃ called,
    net_log (Fixed.forward_request e cfg path method headers body
               query_params w).2 = net_log w ++ map callf called
    ∧ called `sublist_of` sel.1
    ∧ (upper method ∈ Fixed.supported_methods → head called = head sel.1).
Proof.
  intros sel callf. rewrite fixed_forward_request_run. cbv zeta. fold sel.
  assert (net_log sel.2 = net_log w) as Hsel
    by (subst sel; by rewrite fixed_get_available_services_run).
  destruct sel.1 as [|first more].
  { exists []. cbn [fst snd ticked net_log map]. rewrite app_nil_r.
    split; [done|]. split; [done|]. done. }
  case_bool_decide as Hm.
  2:{ exists []. cbn [fst snd map]. rewrite app_nil_r.
      split; [done|]. split; [apply sublist_nil_l|]. by intros ?. }
  fold callf.
  assert ([first] `sublist_of` first :: more) as Hone
    by (apply sublist_skip, sublist_nil_l).
  destruct (transport e (net_log sel.2) (callf first)) as [resp|ex].
  2:{ exists [first]. unfold Fixed.all_failed, ticked.
      cbn [fst snd net_log]. rewrite fixed_record_failure_run. simpl.
      rewrite Hsel. split; [done|]. split; [done|]. done. }
  destruct (Fixed.is_success resp).
  { exists [first]. cbn [snd]. rewrite fixed_record_success_run. simpl.
    rewrite Hsel. split; [done|]. split; [done|]. done. }
  rewrite fixed_try_next_run by done. fold callf.
  set (w2 := (Fixed.record_failure e cfg (name first)
                (logged sel.2 (callf first))).2).
  assert (net_log w2 = net_log w ++ [callf first]) as Hw2.
  { subst w2. rewrite fixed_record_failure_run. simpl. by rewrite Hsel. }
  clearbody w2.
  destruct (filter (λ s, name s ≠ name first) more) as [|next others]
    eqn:Hrem.
  { exists [first]. cbn [fst snd]. unfold Fixed.all_failed, ticked.
    cbn [fst snd net_log]. split; [done|]. split; [done|]. done. }
  exists [first; next].
  split; [|split; [|done]].
  - destruct (transport e (net_log w2) (callf next)) as [respn|ex];
      [destruct (Fixed.is_success respn)|]; cbn [fst snd];
      unfold Fixed.all_failed, ticked; cbn [fst snd net_log];
      rewrite ?fixed_record_failure_run, ?fixed_record_success_run; simpl;
      by rewrite Hw2, <- app_assoc.
  - apply sublist_skip.
    assert ([next] `sublist_of` next :: others) as Hn
      by (apply sublist_skip, sublist_nil_l).
    rewrite <- Hrem in Hn. etrans; [exact Hn|]. apply sublist_filter.
Qed.

(** X16. [lambda_handler] of [lambda_function_fixed.py] reads the body of
    the event only when the method is exactly [POST]: for any other method,
    [PUT] and [post] included, no call it makes carries a body. *)
Theorem X16_fixed_handler_body_only_for_POST
    (read_file : string → file_read) (e : env) (ev : Fixed.event)
    (w : world Fixed.circuit_data) :
  default "GET"%string (Fixed.ev_httpMethod ev) ≠ "POST"%string →
  ∃ calls,
    net_log (Fixed.lambda_handler read_file e ev w).2 = net_log w ++ calls
    ∧ Forall (λ c, nc_data c = None) calls.
Proof.
  intros Hpost.
  destruct (read_file "config.json"%string) as [|msg|cfg] eqn:Hread.
  1,2: exists []; rewrite app_nil_r; split; [|constructor];
       apply fixed_lambda_handler_500; left; intros cfg; by rewrite Hread.
  rewrite (fixed_lambda_handler_run read_file e ev w cfg Hread)
    by (by intros [? _]).
  cbv zeta. cbn [snd].
  assert (Fixed.forwarded_body ev = None) as ->.
  { unfold Fixed.forwarded_body. by rewrite decide_False. }
  destruct (fixed_forward_request_service_calls e cfg
              (default EmptyString (Fixed.ev_path ev))
              (default "GET"%string (Fixed.ev_httpMethod ev))
              (default ∅ (Fixed.ev_headers ev)) None
              (default (Some ∅) (Fixed.ev_queryStringParameters ev))
              (World ∅ (net_log w) (clock_reads w)))
    as (called & Hlog & _).
  eexists. split; [exact Hlog|].
  apply Forall_forall. intros c (s & -> & _)%list_elem_of_fmap.
  unfold Fixed.service_call, Fixed.call_of. simpl.
  by destruct (_ || _).
Qed.

(** X17. [lambda_handler] of [lambda_function_fixed.py] answers in one of
    three ways: a backend's response, with a status in [200, 300) and a
    text body; a 400 or 503 of [forward_request], with an empty header
    dictionary, a JSON body and [isBase64Encoded] false; or a 500 without
    [headers] and [isBase64Encoded], made without any network call.  The
    500 is the answer exactly when [config.json] cannot be loaded or the
    base64 body of a [POST] does not decode. *)
Theorem X17_fixed_handler_status_and_shape
    (read_file : string → file_read) (e : env) (ev : Fixed.event)
    (w : world Fixed.circuit_data) :
  let run := Fixed.lambda_handler read_file e ev w in
  let r := run.1 in
  ((200 ≤ Fixed.statusCode r < 300
    ∧ (∃ text, Fixed.body r = BodyStr text)
    ∧ ∃ hs b, Fixed.headers r = Some hs ∧ Fixed.isBase64Encoded r = Some b)
   ∨ ((Fixed.statusCode r = 400 ∨ Fixed.statusCode r = 503)
      ∧ Fixed.headers r = Some ∅
      ∧ Fixed.isBase64Encoded r = Some false
      ∧ ∃ d, Fixed.body r = BodyJson d)
   ∨ (Fixed.statusCode r = 500
      ∧ Fixed.headers r = None
      ∧ Fixed.isBase64Encoded r = None
      ∧ net_log run.2 = net_log w))
  ∧ (Fixed.statusCode r = 500
     ↔ (∀ cfg, read_file "config.json"%string ≠ Loaded cfg)
       ∨ (default "GET"%string (Fixed.ev_httpMethod ev) = "POST"%string
          ∧ Fixed.ev_body ev = Fixed.Base64Body None)).
Proof.
  intros run r.
  assert (((∀ cfg, read_file "config.json"%string ≠ Loaded cfg)
           ∨ (default "GET"%string (Fixed.ev_httpMethod ev) = "POST"%string
              ∧ Fixed.ev_body ev = Fixed.Base64Body None))
          ∨ ∃ cfg,
              read_file "config.json"%string = Loaded cfg
              ∧ ¬ (default "GET"%string (Fixed.ev_httpMethod ev)
                   = "POST"%string
                   ∧ Fixed.ev_body ev = Fixed.Base64Body None))
    as [Hcase|(cfg & Hread & Hbody)].
  { destruct (read_file "config.json"%string) as [|msg|cfg] eqn:Hread.
    - left. by left.
    - left. by left.
    - destruct (decide
        (default "GET"%string (Fixed.ev_httpMethod ev) = "POST"%string))
        as [Hp|Hp].
      + destruct (Fixed.ev_body ev) as [|s|[bs|]].
        * right. exists cfg. split; [done|]. by intros [_ ?].
        * right. exists cfg. split; [done|]. by intros [_ ?].
        * right. exists cfg. split; [done|]. by intros [_ ?].
        * left. by right.
      + right. exists cfg. split; [done|]. by intros [? _]. }
  - destruct (fixed_lambda_handler_500 read_file e ev w Hcase)
      as ((error & Hr) & Hlog & _).
    fold run in Hr, Hlog. fold r in Hr. rewrite Hr. cbn.
    split; [|done]. right. right. done.
  - assert (¬ ((∀ cfg, read_file "config.json"%string ≠ Loaded cfg)
               ∨ (default "GET"%string (Fixed.ev_httpMethod ev)
                  = "POST"%string
                  ∧ Fixed.ev_body ev = Fixed.Base64Body None))) as Hcase.
    { intros [Hno|?]; [by destruct (Hno cfg)|done]. }
    subst r run.
    rewrite (fixed_lambda_handler_run read_file e ev w cfg Hread Hbody).
    cbv zeta. cbn [fst snd].
    pose proof (fixed_forward_request_shape e cfg
                  (default EmptyString (Fixed.ev_path ev))
                  (default "GET"%string (Fixed.ev_httpMethod ev))
                  (default ∅ (Fixed.ev_headers ev))
                  (Fixed.forwarded_body ev)
                  (default (Some ∅) (Fixed.ev_queryStringParameters ev))
                  (World ∅ (net_log w) (clock_reads w))) as Hshape.
    cbv zeta in Hshape.
    destruct (Fixed.forward_request _ _ _ _ _ _ _ _).1 as [[st hs] bd].
    cbn [fst snd] in Hshape. unfold Fixed.response_of.
    destruct Hshape as [[Hst [text ->]]|[Hst [-> [d ->]]]].
    + split; [|split; [intros H500|done]].
      * left. destruct (Fixed.is_binary _); simpl;
          (split; [done|]); (split; [by eexists|]);
          eexists _, _; split; reflexivity.
      * destruct (Fixed.is_binary _); cbn in H500; lia.
    + rewrite lookup_empty.
      change (Fixed.is_binary (default EmptyString None)) with false.
      cbn.
      split; [|split; [intros H500; lia|done]].
      right. left. split; [done|]. split; [done|]. split; [done|].
      by eexists.
Qed.
(** ** A new manager for each event *)

Lemma router_fresh_candidates (e : env) (cfg : config)
    (log : list net_call) (reads : nat) :
  0 < failure_threshold_of cfg →
  (Router.get_available_services e cfg (World ∅ log reads)).1
  = sorted priority_key (filter (λ s, is_enabled s) (services_of cfg)).
Proof.
  intros Hthr. rewrite router_get_available_services_run by done.
  cbn [fst circuit_breakers]. f_equal. apply list_filter_iff. intros s.
  by rewrite router_kept_fresh.
Qed.

Lemma fixed_fresh_candidates (e : env) (cfg : config)
    (log : list net_call) (reads : nat) :
  (Fixed.get_available_services e cfg (World ∅ log reads)).1
  = sorted priority_key (filter (λ s, is_enabled s) (services_of cfg)).
Proof.
  rewrite fixed_get_available_services_run.
  cbn [fst circuit_breakers]. f_equal. apply list_filter_iff. intros s.
  by rewrite fixed_kept_fresh.
Qed.

(** X18. Both handlers build a new [ServiceManager] for each event, so
    that failures recorded while serving earlier events exclude no
    service: whatever the breaker store before the event, the first call
    for a forwardable request goes to the enabled service of highest
    priority (the first one declared, among equals). *)
Theorem X18_handlers_ignore_earlier_failures (e : env) (cfg : config) :
  (∀ (ev : Router.event) (w : world Router.cb_state)
     (first : service) (more : list service),
     let path := default "/"%string (Router.ev_path ev) in
     0 < failure_threshold_of cfg →
     sorted priority_key (filter (λ s, is_enabled s) (services_of cfg))
       = first :: more →
     Router.ev_body ev ≠ Router.Base64Body None →
     path ∉ Router.critical_paths →
     default "GET"%string (Router.ev_httpMethod ev)
       ∈ Router.supported_methods →
     ∃ c calls,
       net_log (Router.lambda_handler e cfg ev w).2 = net_log w ++ c :: calls
       ∧ nc_url c = (url first ++ path)%string)
  ∧
  (∀ (read_file : string → file_read) (ev : Fixed.event)
     (w : world Fixed.circuit_data) (first : service) (more : list service),
     let method := default "GET"%string (Fixed.ev_httpMethod ev) in
     let path := default EmptyString (Fixed.ev_path ev) in
     read_file "config.json"%string = Loaded cfg →
     sorted priority_key (filter (λ s, is_enabled s) (services_of cfg))
       = first :: more →
     ¬ (method = "POST"%string ∧ Fixed.ev_body ev = Fixed.Base64Body None) →
     upper method ∈ Fixed.supported_methods →
     ∃ c calls,
       net_log (Fixed.lambda_handler read_file e ev w).2
         = net_log w ++ c :: calls
       ∧ nc_url c = (url first ++ path)%string).
Proof.
  split.
  - intros ev w first more path Hthr Hsorted Hbody Hpath Hmeth.
    destruct (router_lambda_handler_route e cfg ev w Hbody) as [body ->].
    set (req := {| Router.http_method := _ |}).
    set (w0 := World ∅ (net_log w) (clock_reads w)).
    rewrite router_route_log.
    destruct (router_get_available_services_log e cfg w0) as [Hsel0 _].
    destruct (router_try_services_prefix e req
                (Router.get_available_services e cfg w0).1 None
                (Router.get_available_services e cfg w0).2 Hpath Hmeth)
      as (tried & rest & Hsel & Hlog & Hexit).
    rewrite Hsel0 in Hlog.
    unfold w0 in Hsel at 1. rewrite router_fresh_candidates in Hsel by done.
    rewrite Hsorted in Hsel.
    assert (∃ tried', tried = first :: tried') as [tried' ->].
    { destruct tried as [|t tried'].
      - destruct (Router.try_services e req _ _ _).1; try done.
        by rewrite Hexit in Hsel.
      - injection Hsel as <- _. by eexists. }
    eexists _, _. split; [exact Hlog|done].
  - intros read_file ev w first more method path Hread Hsorted Hbody Hmeth.
    rewrite (fixed_lambda_handler_run read_file e ev w cfg Hread Hbody).
    cbv zeta. cbn [snd]. fold method path.
    destruct (fixed_forward_request_service_calls e cfg path method
                (default ∅ (Fixed.ev_headers ev)) (Fixed.forwarded_body ev)
                (default (Some ∅) (Fixed.ev_queryStringParameters ev))
                (World ∅ (net_log w) (clock_reads w)))
      as (called & Hlog & _ & Hhead).
    rewrite fixed_fresh_candidates, Hsorted in Hhead.
    specialize (Hhead Hmeth). cbn [net_log] in Hlog.
    destruct called as [|c0 called']; [done|].
    injection Hhead as ->.
    eexists _, _. split; [exact Hlog|done].
Qed.

(** ** [load_config] *)

Lemma router_load_loop_sound (h : Router.host) (paths : list (option string))
    (cfg : config) :
  Router.load_loop h paths = Some cfg →
  ∃ p, Some p ∈ paths ∧ p ≠ EmptyString
       ∧ Router.read_file h p = Loaded cfg.
Proof.
  induction paths as [|[p|] rest IH]; intros Hload; [done| |].
  - cbn [Router.load_loop] in Hload.
    assert (Router.load_loop h rest = Some cfg →
            ∃ p0, Some p0 ∈ Some p :: rest ∧ p0 ≠ EmptyString
                  ∧ Router.read_file h p0 = Loaded cfg) as Hrest.
    { intros Hr. destruct (IH Hr) as (p0 & Hin & Hne & Hp0).
      exists p0. split; [by right|done]. }
    destruct p as [|c p']; [by apply Hrest|].
    destruct (Router.read_file h (String c p')) as [|msg|cfg'] eqn:Hread;
      try by apply Hrest.
    injection Hload as <-. exists (String c p'). split; [by left|done].
  - cbn [Router.load_loop] in Hload.
    destruct (IH Hload) as (p0 & Hin & Hne & Hp0).
    exists p0. split; [by right|done].
Qed.


(** X20. When no configuration file loads, the handler of
    [lambda_function.py] calls nothing but the local backend: the calls it
    makes for an event, at most two, go to [http://localhost:5001], for the
    path of the request or for the health probe. *)
Theorem X20_router_fallback_routes_to_localhost (h : Router.host) (e : env)
    (ev : Router.event) (w : world Router.cb_state) :
  (∀ p cfg, Some p ∈ Router.candidate_paths h → p ≠ EmptyString →
            Router.read_file h p ≠ Loaded cfg) →
  let path := default "/"%string (Router.ev_path ev) in
  ∃ calls,
    net_log (Router.lambda_handler e (Router.load_config h) ev w).2
      = net_log w ++ calls
    ∧ Forall (λ c, nc_url c = ("http://localhost:5001" ++ path)%string
                   ∨ nc_url c = "http://localhost:5001/health"%string) calls
    ∧ (List.length calls ≤ 2)%nat.
Proof.
  intros Hno path.
  assert (Router.load_config h = Router.fallback_config) as ->.
  { unfold Router.load_config.
    destruct (Router.load_loop h (Router.candidate_paths h)) as [cfg|] eqn:Hl;
      [|done].
    apply router_load_loop_sound in Hl as (p & Hin & Hne & Hread).
    by destruct (Hno p cfg Hin Hne). }
  assert (Router.ev_body ev = Router.Base64Body None
          ∨ Router.ev_body ev ≠ Router.Base64Body None) as [Hbody|Hbody].
  { destruct (Router.ev_body ev) as [| |[|]]; [right|right|right|left];
      done. }
  { exists []. rewrite app_nil_r. unfold Router.lambda_handler.
    rewrite Hbody. split; [done|]. split; [constructor|simpl; lia]. }
  destruct (router_lambda_handler_route e Router.fallback_config ev w Hbody)
    as [body ->].
  set (req := {| Router.http_method := _ |}).
  destruct (router_route_calls e Router.fallback_config req
              (World ∅ (net_log w) (clock_reads w)))
    as (calls & Hlog & Hsub).
  rewrite router_fresh_candidates in Hsub by done.
  exists calls. split; [exact Hlog|].
  change (sorted priority_key _) with (services_of Router.fallback_config)
    in Hsub.
  cbn [flat_map services_of Router.fallback_config ai_services default
       from_option app] in Hsub.
  split.
  - apply Forall_forall. intros c Hc.
    assert (c ∈ [Router.health_call
                   {| name := "ngrok-local"; url := "http://localhost:5001";
                      priority := Some 1; timeout := Some 300;
                      enabled := Some true |};
                 Router.forward_call
                   {| name := "ngrok-local"; url := "http://localhost:5001";
                      priority := Some 1; timeout := Some 300;
                      enabled := Some true |} req]) as Hin
      by (eapply elem_of_sublist; [exact Hc|exact Hsub]).
    apply elem_of_cons in Hin as [->|Hin]; [by right|].
    apply elem_of_cons in Hin as [->|Hin]; [by left|].
    by apply elem_of_nil in Hin.
  - by apply sublist_length in Hsub.
Qed.

(** ** Configuration keys without effect *)

(** X21. The key [load_balancing] of the configuration has no effect on
    either engine (the round-robin strategy of [lambda_function_fixed.py]
    picks the same first candidate as the priority strategy), and the key
    [default_timeout] has none on [lambda_function.py]. *)
Theorem X21_configuration_keys_without_effect (e : env) (cfg : config)
    (lb : option load_balancing_config) (dt : option Z) :
  (∀ (req : Router.request) (w : world Router.cb_state),
     Router.route e
       {| ai_services := ai_services cfg;
          circuit_breaker := circuit_breaker cfg;
          load_balancing := lb; default_timeout := dt |} req w
     = Router.route e cfg req w)
  ∧
  (∀ (path method : string) (headers : gmap string string)
     (body : option (list byte)) (query_params : option (gmap string string))
     (w : world Fixed.circuit_data),
     Fixed.forward_request e
       {| ai_services := ai_services cfg;
          circuit_breaker := circuit_breaker cfg;
          load_balancing := lb;
          default_timeout := default_timeout cfg |}
       path method headers body query_params w
     = Fixed.forward_request e cfg path method headers body query_params w).
Proof.
  split.
  - intros req w. reflexivity.
  - intros path method headers body query_params w.
    rewrite !fixed_forward_request_run. reflexivity.
Qed.
(** X22. In [lambda_function_fixed.py], when the first candidate answers
    with a status in [200, 300), the handler returns that status, all the
    headers of the answer and its text; the text is replaced by the base64
    of its UTF-8 encoding, and [isBase64Encoded] set, exactly when the
    header of the exact name [Content-Type] holds [image/] or
    [application/octet-stream], compared as they are. *)
Theorem X22_fixed_handler_returns_first_success
    (read_file : string → file_read) (e : env) (cfg : config)
    (ev : Fixed.event) (w : world Fixed.circuit_data)
    (first : service) (more : list service) (resp : http_response) :
  let method := default "GET"%string (Fixed.ev_httpMethod ev) in
  let path := default EmptyString (Fixed.ev_path ev) in
  let call :=
    Fixed.service_call cfg path method (default ∅ (Fixed.ev_headers ev))
      (Fixed.forwarded_body ev)
      (default (Some ∅) (Fixed.ev_queryStringParameters ev)) first in
  let content_type :=
    default EmptyString (resp_headers resp !! "Content-Type") in
  let binary :=
    negb (bool_decide (content_type = EmptyString))
    && (str_contains "image/" content_type
        || str_contains "application/octet-stream" content_type) in
  read_file "config.json"%string = Loaded cfg →
  sorted priority_key (filter (λ s, is_enabled s) (services_of cfg))
    = first :: more →
  ¬ (method = "POST"%string ∧ Fixed.ev_body ev = Fixed.Base64Body None) →
  upper method ∈ Fixed.supported_methods →
  transport e (net_log w) call = Responded resp →
  200 ≤ status_code resp < 300 →
  (Fixed.lambda_handler read_file e ev w).1
  = {| Fixed.statusCode := status_code resp;
       Fixed.headers := Some (resp_headers resp);
       Fixed.body :=
         BodyStr (if binary then b64encode (encode_utf8 (text resp))
                  else text resp);
       Fixed.isBase64Encoded := Some binary |}.
Proof.
  intros method path call content_type binary Hread Hsorted Hbody Hmeth Ht
    Hok.
  rewrite (fixed_lambda_handler_run read_file e ev w cfg Hread Hbody).
  cbv zeta. cbn [fst]. fold method path.
  rewrite fixed_forward_request_run. cbv zeta.
  rewrite fixed_fresh_candidates, Hsorted.
  rewrite bool_decide_eq_true_2 by done.
  assert (net_log (Fixed.get_available_services e cfg
                     (World ∅ (net_log w) (clock_reads w))).2 = net_log w)
    as -> by (by rewrite fixed_get_available_services_run).
  fold call. rewrite Ht.
  apply fixed_is_success_iff in Hok. rewrite Hok. cbn [fst].
  unfold Fixed.success_result, Fixed.response_of, Fixed.is_binary.
  fold content_type. fold binary. by destruct binary.
Qed.
(** ** The calls of the handlers *)

Lemma router_lambda_handler_calls (e : env) (cfg : config)
    (ev : Router.event) (w : world Router.cb_state) :
  ∃ calls,
    net_log (Router.lambda_handler e cfg ev w).2 = net_log w ++ calls
    ∧ Forall (λ c, ∃ s req,
                s ∈ services_of cfg ∧ is_enabled s = true
                ∧ Router.path req = default "/"%string (Router.ev_path ev)
                ∧ Router.files req = None
                ∧ (c = Router.health_call s ∨ c = Router.forward_call s req))
        calls.
Proof.
  assert (Router.ev_body ev = Router.Base64Body None
          ∨ Router.ev_body ev ≠ Router.Base64Body None) as [Hbody|Hbody].
  { destruct (Router.ev_body ev) as [| |[|]]; [right|right|right|left];
      done. }
  { exists []. rewrite app_nil_r. unfold Router.lambda_handler.
    rewrite Hbody. split; [done|constructor]. }
  destruct (router_lambda_handler_route e cfg ev w Hbody) as [body ->].
  set (req := {| Router.http_method := _ |}).
  set (w0 := World ∅ (net_log w) (clock_reads w)).
  destruct (router_route_calls e cfg req w0) as (calls & Hlog & Hsub).
  exists calls. split; [exact Hlog|].
  apply Forall_forall. intros c Hc.
  pose proof (elem_of_sublist _ _ _ Hc Hsub) as Hin.
  apply list_elem_of_In, in_flat_map in Hin as (s & Hs & Hcs).
  apply list_elem_of_In, router_candidates_configured in Hs as [Hs Hen].
  apply list_elem_of_In in Hcs.
  exists s, req. split; [done|]. split; [done|]. split; [done|].
  split; [done|].
  apply elem_of_cons in Hcs as [->|Hcs]; [by left|].
  apply elem_of_cons in Hcs as [->|Hcs]; [by right|].
  by apply elem_of_nil in Hcs.
Qed.

Lemma fixed_lambda_handler_calls (read_file : string → file_read) (e : env)
    (ev : Fixed.event) (w : world Fixed.circuit_data) :
  ∃ calls,
    net_log (Fixed.lambda_handler read_file e ev w).2 = net_log w ++ calls
    ∧ Forall (λ c, ∃ cfg s,
                read_file "config.json"%string = Loaded cfg
                ∧ s ∈ services_of cfg ∧ is_enabled s = true
                ∧ c = Fixed.service_call cfg
                        (default EmptyString (Fixed.ev_path ev))
                        (default "GET"%string (Fixed.ev_httpMethod ev))
                        (default ∅ (Fixed.ev_headers ev))
                        (Fixed.forwarded_body ev)
                        (default (Some ∅) (Fixed.ev_queryStringParameters ev))
                        s)
        calls.
Proof.
  assert (((∀ cfg, read_file "config.json"%string ≠ Loaded cfg)
           ∨ (default "GET"%string (Fixed.ev_httpMethod ev) = "POST"%string
              ∧ Fixed.ev_body ev = Fixed.Base64Body None))
          ∨ ∃ cfg,
              read_file "config.json"%string = Loaded cfg
              ∧ ¬ (default "GET"%string (Fixed.ev_httpMethod ev)
                   = "POST"%string
                   ∧ Fixed.ev_body ev = Fixed.Base64Body None))
    as [Hcase|(cfg & Hread & Hbody)].
  { destruct (read_file "config.json"%string) as [|msg|cfg] eqn:Hread.
    - left. by left.
    - left. by left.
    - destruct (decide
        (default "GET"%string (Fixed.ev_httpMethod ev) = "POST"%string))
        as [Hp|Hp].
      + destruct (Fixed.ev_body ev) as [|s|[bs|]].
        * right. exists cfg. split; [done|]. by intros [_ ?].
        * right. exists cfg. split; [done|]. by intros [_ ?].
        * right. exists cfg. split; [done|]. by intros [_ ?].
        * left. by right.
      + right. exists cfg. split; [done|]. by intros [? _]. }
  { exists []. rewrite app_nil_r. split; [|constructor].
    by apply fixed_lambda_handler_500. }
  rewrite (fixed_lambda_handler_run read_file e ev w cfg Hread Hbody).
  cbv zeta. cbn [snd].
  destruct (fixed_forward_request_service_calls e cfg
              (default EmptyString (Fixed.ev_path ev))
              (default "GET"%string (Fixed.ev_httpMethod ev))
              (default ∅ (Fixed.ev_headers ev)) (Fixed.forwarded_body ev)
              (default (Some ∅) (Fixed.ev_queryStringParameters ev))
              (World ∅ (net_log w) (clock_reads w)))
    as (called & Hlog & Hsub & _).
  eexists. split; [exact Hlog|].
  apply Forall_forall. intros c (s & -> & Hs)%list_elem_of_fmap.
  pose proof (elem_of_sublist _ _ _ Hs Hsub) as Hin.
  apply fixed_candidates_configured in Hin as [Hin Hen].
  by exists cfg, s.
Qed.

(** X23. The handler of [lambda_function.py] forwards neither the query
    string of the event nor files: every call it makes is without [params]
    and without [files].  The handler of [lambda_function_fixed.py] passes
    the query parameters and the headers of the event, as they are, with
    every call it makes (an empty dictionary when the event has none). *)
Theorem X23_query_parameters_by_handler (e : env) :
  (∀ (cfg : config) (ev : Router.event) (w : world Router.cb_state),
     ∃ calls,
       net_log (Router.lambda_handler e cfg ev w).2 = net_log w ++ calls
       ∧ Forall (λ c, nc_params c = None ∧ nc_files c = None) calls)
  ∧
  (∀ (read_file : string → file_read) (ev : Fixed.event)
     (w : world Fixed.circuit_data),
     ∃ calls,
       net_log (Fixed.lambda_handler read_file e ev w).2 = net_log w ++ calls
       ∧ Forall (λ c,
                   nc_params c
                     = default (Some ∅) (Fixed.ev_queryStringParameters ev)
                   ∧ nc_headers c = Some (default ∅ (Fixed.ev_headers ev))
                   ∧ nc_files c = None) calls).
Proof.
  split.
  - intros cfg ev w.
    destruct (router_lambda_handler_calls e cfg ev w) as (calls & Hlog & Hall).
    exists calls. split; [exact Hlog|].
    eapply Forall_impl; [exact Hall|].
    intros c (s & req & _ & _ & _ & Hfiles & [-> | ->]); [done|].
    split; [done|]. unfold Router.forward_call. cbn [nc_files].
    rewrite Hfiles. by destruct (bool_decide _ && _).
  - intros read_file ev w.
    destruct (fixed_lambda_handler_calls read_file e ev w)
      as (calls & Hlog & Hall).
    exists calls. split; [exact Hlog|].
    eapply Forall_impl; [exact Hall|].
    by intros c (cfg & s & _ & _ & _ & ->).
Qed.

(** X24. Every call of the handlers goes to an enabled service of the
    configuration, with the timeout of that service: in
    [lambda_function.py], a health probe [url/health] with timeout 5 or
    the request [url + path] with the service's [timeout], 300 if it has
    none; in [lambda_function_fixed.py], the request [url + path] with the
    service's [timeout], else the [default_timeout] of the configuration,
    else 30. *)
Theorem X24_calls_go_to_enabled_services_with_their_timeout (e : env) :
  (∀ (cfg : config) (ev : Router.event) (w : world Router.cb_state),
     let path := default "/"%string (Router.ev_path ev) in
     ∃ calls,
       net_log (Router.lambda_handler e cfg ev w).2 = net_log w ++ calls
       ∧ Forall (λ c, ∃ s,
                   s ∈ services_of cfg ∧ enabled s ≠ Some false
                   ∧ ((nc_url c = (url s ++ "/health")%string
                       ∧ nc_timeout c = 5)
                      ∨ (nc_url c = (url s ++ path)%string
                         ∧ nc_timeout c = default 300 (timeout s))))
           calls)
  ∧
  (∀ (read_file : string → file_read) (ev : Fixed.event)
     (w : world Fixed.circuit_data),
     let path := default EmptyString (Fixed.ev_path ev) in
     ∃ calls,
       net_log (Fixed.lambda_handler read_file e ev w).2 = net_log w ++ calls
       ∧ Forall (λ c, ∃ cfg s,
                   read_file "config.json"%string = Loaded cfg
                   ∧ s ∈ services_of cfg ∧ enabled s ≠ Some false
                   ∧ nc_url c = (url s ++ path)%string
                   ∧ nc_timeout c
                     = default (default 30 (default_timeout cfg))
                         (timeout s))
           calls).
Proof.
  split.
  - intros cfg ev w path.
    destruct (router_lambda_handler_calls e cfg ev w) as (calls & Hlog & Hall).
    exists calls. split; [exact Hlog|].
    eapply Forall_impl; [exact Hall|].
    intros c (s & req & Hs & Hen & Hpath & _ & Hc).
    exists s. split; [done|]. split; [by apply is_enabled_true|].
    destruct Hc as [-> | ->]; [by left|right].
    unfold Router.forward_call. cbn [nc_url nc_timeout]. by rewrite Hpath.
  - intros read_file ev w path.
    destruct (fixed_lambda_handler_calls read_file e ev w)
      as (calls & Hlog & Hall).
    exists calls. split; [exact Hlog|].
    eapply Forall_impl; [exact Hall|].
    intros c (cfg & s & Hread & Hs & Hen & ->).
    exists cfg, s. split; [done|]. split; [done|].
    split; [by apply is_enabled_true|]. done.
Qed.
(** ** The further properties on the sample configuration *)

Lemma X1_witness :
  circuit_breakers
    (Router.record_failure (Sample.env_status 200) "B" Sample.router_tripped).2
    !! "A" = Some (Router.CbState 5 990)
  ∧ circuit_breakers
      (Fixed.record_failure (Sample.env_status 200) Sample.cfg "B"
         Sample.fixed_tripped).2
      !! "A" = Some (Fixed.CircuitData Fixed.open 5 990).
Proof.
  destruct (X1_recording_touches_one_entry (Sample.env_status 200)
              Sample.cfg "B" "A") as [Hr Hf]; [done|].
  destruct (Hr Sample.router_tripped) as [-> _].
  destruct (Hf Sample.fixed_tripped) as [-> _].
  split; vm_compute; reflexivity.
Defined.

Lemma X2_witness :
  let w' :=
    (Router.record_outcomes (Sample.env_status 200) "A"
       [Failed; Failed; Failed; Succeeded; Failed; Failed] Sample.fresh).2 in
  Router.failures (Router.entry (circuit_breakers w') "A") = 2
  ∧ Sample.A ∈ (Router.get_available_services (Sample.env_status 200)
                  Sample.cfg w').1.
Proof.
  intros w'.
  destruct (X2_router_counts_consecutive_failures (Sample.env_status 200)
              Sample.cfg Sample.A
              [Failed; Failed; Failed; Succeeded; Failed; Failed]
              Sample.fresh) as [Hcount Hcand].
  - by vm_compute.
  - apply list_elem_of_In. vm_compute. tauto.
  - reflexivity.
  - reflexivity.
  - split; [exact Hcount|]. apply Hcand. left. by vm_compute.
Defined.

Lemma X3_witness :
  let w' :=
    (Fixed.record_outcomes (Sample.env_status 200) Sample.cfg "A"
       [Failed; Failed; Succeeded; Failed; Succeeded; Failed; Failed]
       Sample.fresh).2 in
  let c := Fixed.entry (circuit_breakers w') "A" in
  Fixed.failures c = 5 ∧ Fixed.status c = Fixed.open.
Proof.
  intros w' c.
  destruct (X3_fixed_counts_all_failures (Sample.env_status 200)
              Sample.cfg Sample.A
              [Failed; Failed; Succeeded; Failed; Succeeded; Failed; Failed]
              Sample.fresh) as (Hcount & Hopen & _).
  - by vm_compute.
  - apply list_elem_of_In. vm_compute. tauto.
  - reflexivity.
  - reflexivity.
  - split; [exact Hcount|]. apply Hopen. by vm_compute.
Defined.

Lemma X5_witness :
  circuit_breakers
    (Router.get_available_services (Sample.env_status 200) Sample.cfg
       Sample.router_unknown).2 !! "Z"
  = Some (Router.CbState 9 0)
  ∧ circuit_breakers
      (Fixed.get_available_services (Sample.env_status 200) Sample.cfg
         Sample.fixed_unknown).2 !! "Z"
    = Some (Fixed.CircuitData Fixed.open 9 0).
Proof.
  destruct (X5_selection_resets_or_keeps_entries (Sample.env_status 200)
              Sample.cfg "Z") as [Hr Hf].
  assert (∀ s, s ∈ services_of Sample.cfg → is_enabled s = true →
               name s ≠ "Z"%string) as Hno.
  { intros s Hin _. apply list_elem_of_In in Hin. simpl in Hin.
    destruct Hin as [<-|[<-|[<-|[]]]]; done. }
  destruct (Hr Sample.router_unknown) as [_ H1].
  destruct (Hf Sample.fixed_unknown) as [_ H2].
  rewrite (H1 Hno), (H2 Hno).
  split; vm_compute; reflexivity.
Defined.

Lemma X8_witness :
  let sel :=
    Router.get_available_services Sample.env_a_down Sample.cfg Sample.fresh in
  let run := Router.route Sample.env_a_down Sample.cfg Sample.get_x
               Sample.fresh in
  ∃ tried rest,
    sel.1 = tried ++ rest
    ∧ net_log run.2
      = net_log (Sample.fresh : world Router.cb_state)
        ++ map (λ s, Router.forward_call s Sample.get_x) tried
    ∧ (Router.statusCode run.1 = 503 → rest = [])
    ∧ (Router.statusCode run.1 ≠ 503 → tried ≠ []).
Proof.
  apply (X8_router_forwards_to_initial_segment Sample.env_a_down Sample.cfg
           Sample.get_x Sample.fresh); by_computation.
Defined.

Lemma X9_witness :
  let run :=
    Router.route (Sample.env_status 200) Sample.cfg Sample.patch_x
      Sample.fresh in
  (∃ t, run.1 = Router.all_failed_response
                  (Some "Service C returned status 405"%string) t)
  ∧ net_log run.2 = []
  ∧ Router.failures (Router.entry (circuit_breakers run.2) "A") = 1.
Proof.
  intros run.
  destruct (X9_router_unsupported_method_fails_every_candidate
              (Sample.env_status 200) Sample.cfg Sample.patch_x Sample.fresh
              Sample.C) as (Hr & Hlog & Hcount).
  - by_computation.
  - by_computation.
  - vm_compute. reflexivity.
  - split; [exact Hr|]. split; [exact Hlog|].
    fold run in Hcount. rewrite (Hcount "A"%string). vm_compute. reflexivity.
Defined.

Lemma X10_witness :
  let run :=
    Router.route (Sample.env_answer Sample.jpeg_answer) Sample.cfg
      Sample.get_x Sample.fresh in
  (∃ t, run.1
        = {| Router.statusCode := 500;
             Router.headers := Router.json_headers;
             Router.body :=
               Router.internal_error_body
                 (UnicodeDecodeError [xff; xd8; xff; xe0]) t;
             Router.isBase64Encoded := None |})
  ∧ net_log run.2 = [Router.forward_call Sample.A Sample.get_x].
Proof.
  intros run.
  destruct (X10_router_undecodable_body_is_500
              (Sample.env_answer Sample.jpeg_answer) Sample.cfg Sample.get_x
              Sample.fresh Sample.A [Sample.B; Sample.C] Sample.jpeg_answer)
    as (Hr & Hlog & _).
  - by_computation.
  - by_computation.
  - vm_compute. reflexivity.
  - reflexivity.
  - by vm_compute.
  - reflexivity.
  - split; [exact Hr|exact Hlog].
Defined.

Lemma X11_witness :
  let run :=
    Router.route (Sample.env_answer Sample.svg_answer) Sample.cfg
      Sample.get_x Sample.fresh in
  Router.body run.1 = BodyStr "<svg/>"
  ∧ Router.isBase64Encoded run.1 = None.
Proof.
  intros run.
  destruct (X11_router_binary_by_lower_case_header_name
              (Sample.env_answer Sample.svg_answer) Sample.cfg Sample.get_x
              Sample.fresh Sample.A [Sample.B; Sample.C] Sample.svg_answer
              "<svg/>") as (_ & _ & _ & Hnone).
  - by_computation.
  - by_computation.
  - vm_compute. reflexivity.
  - reflexivity.
  - by vm_compute.
  - vm_compute. reflexivity.
  - apply Hnone. vm_compute. reflexivity.
Defined.

Lemma X13_witness :
  let run :=
    Fixed.forward_request (Sample.env_status 200) Sample.cfg "/x" "PATCH"
      ∅ None None Sample.fresh in
  run.1 = (400, ∅,
           BodyJson [("error", JStr "Bad request");
                     ("message", JStr "Unsupported HTTP method: PATCH")])
  ∧ net_log run.2 = [].
Proof.
  intros run.
  destruct (X13_fixed_unsupported_method_is_400 (Sample.env_status 200)
              Sample.cfg "/x" "PATCH" ∅ None None Sample.fresh)
    as (Hr & _ & Hlog).
  - by_computation.
  - vm_compute. discriminate.
  - split; [exact Hr|exact Hlog].
Defined.

Lemma X14_witness :
  let run :=
    Fixed.forward_request Sample.env_timeout Sample.cfg "/x" "GET"
      ∅ None None Sample.fresh in
  (∃ t, run.1 = (503, ∅,
                 Fixed.all_failed_body "Service A error: timed out" t))
  ∧ net_log run.2
    = [Fixed.service_call Sample.cfg "/x" "GET" ∅ None None Sample.A]
  ∧ Fixed.failures (Fixed.entry (circuit_breakers run.2) "A") = 1.
Proof.
  intros run.
  destruct (X14_fixed_exception_is_503_without_fallback Sample.env_timeout
              Sample.cfg "/x" "GET" ∅ None None Sample.fresh Sample.A
              [Sample.B; Sample.C] (ExcTimeout "timed out"))
    as (Hr & Hlog & _ & Hcount).
  - vm_compute. reflexivity.
  - by_computation.
  - reflexivity.
  - split; [by eexists|]. split; [exact Hlog|].
    refine (eq_trans Hcount _). vm_compute. reflexivity.
Defined.

Lemma X15_witness :
  ∃ t w',
    Fixed.forward_request (Sample.env_status 500) Sample.cfg "/x" "GET"
      ∅ None None Sample.fresh
    = ((503, ∅,
        Fixed.all_failed_body "Service A returned status 500" t), w').
Proof.
  destruct (X15_fixed_last_error_after_fallback (Sample.env_status 500)
              Sample.cfg "/x" "GET" ∅ None None Sample.fresh
              Sample.A Sample.B [Sample.B; Sample.C] [Sample.C]
              (Sample.answer 500)) as [Hanswered _].
  - vm_compute. reflexivity.
  - by_computation.
  - reflexivity.
  - vm_compute. intros [_ H]. discriminate H.
  - vm_compute. reflexivity.
  - eexists _, _. apply (Hanswered (Sample.answer 500)); [reflexivity|].
    vm_compute. intros [_ H]. discriminate H.
Defined.

Lemma X16_witness :
  ∃ calls,
    net_log (Fixed.lambda_handler Sample.files_cfg (Sample.env_status 200)
               Sample.fixed_put_event Sample.fresh).2
      = net_log (Sample.fresh : world Fixed.circuit_data) ++ calls
    ∧ Forall (λ c, nc_data c = None) calls.
Proof.
  apply (X16_fixed_handler_body_only_for_POST Sample.files_cfg
           (Sample.env_status 200) Sample.fixed_put_event Sample.fresh).
  vm_compute. discriminate.
Defined.

Lemma X18_witness :
  (∃ c calls,
     net_log (Router.lambda_handler (Sample.env_status 200) Sample.cfg
                Sample.router_get_event Sample.router_tripped).2
       = c :: calls
     ∧ nc_url c = "http://a/x"%string)
  ∧ (∃ c calls,
       net_log (Fixed.lambda_handler Sample.files_cfg
                  (Sample.env_status 200) Sample.fixed_get_event
                  Sample.fixed_tripped).2
         = c :: calls
       ∧ nc_url c = "http://a/x"%string).
Proof.
  destruct (X18_handlers_ignore_earlier_failures (Sample.env_status 200)
              Sample.cfg) as [Hr Hf].
  split.
  - apply (Hr Sample.router_get_event Sample.router_tripped Sample.A
             [Sample.B; Sample.C]).
    + by vm_compute.
    + vm_compute. reflexivity.
    + discriminate.
    + by_computation.
    + by_computation.
  - apply (Hf Sample.files_cfg Sample.fixed_get_event Sample.fixed_tripped
             Sample.A [Sample.B; Sample.C]).
    + reflexivity.
    + vm_compute. reflexivity.
    + intros [H _]. discriminate H.
    + by_computation.
Defined.


Lemma X20_witness :
  ∃ calls,
    net_log (Router.lambda_handler (Sample.env_status 200)
               (Router.load_config Sample.host_bare) Sample.router_get_event
               Sample.fresh).2
      = net_log (Sample.fresh : world Router.cb_state) ++ calls
    ∧ Forall (λ c, nc_url c = "http://localhost:5001/x"%string
                   ∨ nc_url c = "http://localhost:5001/health"%string) calls
    ∧ (List.length calls ≤ 2)%nat.
Proof.
  apply (X20_router_fallback_routes_to_localhost Sample.host_bare
           (Sample.env_status 200) Sample.router_get_event Sample.fresh).
  intros p cfg Hin Hne.
  apply list_elem_of_In in Hin. cbv in Hin.
  destruct Hin as [[= <-]|[[= <-]|[[= <-]|[]]]];
    [done|vm_compute; discriminate..].
Defined.

Lemma X22_witness :
  (Fixed.lambda_handler Sample.files_cfg
     (Sample.env_answer Sample.svg_answer) Sample.fixed_get_event
     Sample.fresh).1
  = {| Fixed.statusCode := 200;
       Fixed.headers := Some {[ "Content-Type" := "image/svg+xml" ]};
       Fixed.body := BodyStr "PHN2Zy8+";
       Fixed.isBase64Encoded := Some true |}.
Proof.
  apply (X22_fixed_handler_returns_first_success Sample.files_cfg
           (Sample.env_answer Sample.svg_answer) Sample.cfg
           Sample.fixed_get_event Sample.fresh Sample.A [Sample.B; Sample.C]
           Sample.svg_answer).
  - reflexivity.
  - vm_compute. reflexivity.
  - intros [H _]. discriminate H.
  - by_computation.
  - reflexivity.
  - by vm_compute.
Defined.
